(** * TestBuddy document intelligence engine: a shallow embedding

    The development follows [document_intelligence.py]: the data classes,
    the pattern catalogs fixed in [DocumentIntelligenceEngine.__init__], the
    line grouper and layout segmenter of [_extract_layout] and
    [_finalize_text_line], the classifier, the field extractor, the table
    detector and the [process_document] pipeline.

    Conventions of the embedding:
    - a Python [str] is a [string] (texts are taken in the ASCII range);
    - a Python [int] is a [Z];
    - a Python [float] that the engine computes is an exact rational [Q] kept
      in lowest terms ([Qred]), so that equal numbers are equal terms.  The
      scores are quotients [m / n] with [n <= 6] and the thresholds are
      [H / 3] and [2 * H / 3] compared with integer pixel rows: on these
      the comparisons of the floats and of the rationals agree;
    - a call that may raise returns a [result]; a [try ... except Exception]
      block is a match on the outcome of its body, the layout mutated so far
      being kept;
    - everything outside the module (the [re] library, PIL, pytesseract,
      OpenCV, the clock) is a field of the record [Externals]. *)

From Stdlib Require Import ZArith QArith Qreduction Lia Ascii String List.
From stdpp Require Import base option list strings gmap.
From Stdlib Require Import Lqa.

Close Scope Q_scope.
Open Scope string_scope.
Open Scope list_scope.
Open Scope Z_scope.

(* ===================================================================== *)
(** ** Python string operations used by the engine                        *)
(* ===================================================================== *)

Module PyStr.

Definition code (a : ascii) : nat := nat_of_ascii a.

Definition is_upper (a : ascii) : bool :=
  (65 <=? code a)%nat && (code a <=? 90)%nat.

Definition is_lower (a : ascii) : bool :=
  (97 <=? code a)%nat && (code a <=? 122)%nat.

Definition is_digit (a : ascii) : bool :=
  (48 <=? code a)%nat && (code a <=? 57)%nat.

(** [str.isspace] on one character: TAB, LF, VT, FF, CR, the four
    separators 0x1c..0x1f and the space. *)
Definition is_space (a : ascii) : bool :=
  ((9 <=? code a)%nat && (code a <=? 13)%nat)
  || ((28 <=? code a)%nat && (code a <=? 32)%nat).

Definition is_word (a : ascii) : bool :=
  is_upper a || is_lower a || is_digit a || (code a =? 95)%nat.

Definition lower_char (a : ascii) : ascii :=
  if is_upper a then ascii_of_nat (code a + 32) else a.

Definition upper_char (a : ascii) : ascii :=
  if is_lower a then ascii_of_nat (code a - 32) else a.

Definition chars (s : string) : list ascii := list_ascii_of_string s.
Definition of_chars (l : list ascii) : string := string_of_list_ascii l.

(** [s.lower()] *)
Definition lower (s : string) : string := of_chars (map lower_char (chars s)).

Fixpoint lstrip_chars (l : list ascii) : list ascii :=
  match l with
  | a :: l' => if is_space a then lstrip_chars l' else l
  | [] => []
  end.

Definition rstrip_chars (l : list ascii) : list ascii :=
  rev (lstrip_chars (rev l)).

(** [s.strip()] *)
Definition strip (s : string) : string :=
  of_chars (rstrip_chars (lstrip_chars (chars s))).

(** Truth value of a string: the empty string is falsy. *)
Definition truthy (s : string) : bool :=
  match s with EmptyString => false | _ => true end.

(** ["\n".join(parts)] and friends. *)
Fixpoint join (sep : string) (parts : list string) : string :=
  match parts with
  | [] => ""
  | [p] => p
  | p :: rest => p +:+ sep +:+ join sep rest
  end.

End PyStr.

(* ===================================================================== *)
(** ** A backtracking matcher for the [re] syntax of the catalogs          *)
(* ===================================================================== *)

(** The engine only calls [re.search(pattern, text, re.IGNORECASE)].  The
    matcher below reads the pattern strings as they stand in the source and
    implements leftmost, greedy, backtracking search with capture groups
    for the constructs the catalogs use: literals, [.], escapes [\s \d \w]
    and escaped punctuation, bracket classes with ranges and negation,
    grouping with and without capture, alternation and the greedy
    quantifiers [* + ? {n} {n,} {n,m}]. *)

Module Re.

Import PyStr.

Inductive item : Type :=
| ISingle (c : ascii)
| IRange (lo hi : ascii)
| IDigit
| ISpace
| IWord.

Inductive node : Type :=
| Empty
| Lit (c : ascii)
| AnyChar
| Class (negated : bool) (items : list item)
| Cat (a b : node)
| Or (a b : node)
| Repeat (lo : nat) (hi : option nat) (a : node)
| Group (n : nat) (a : node).

(** *** Parsing a pattern string *)

Definition is_special (c : ascii) : bool :=
  existsb (Ascii.eqb c) (chars "*+?{").

Definition alnum (c : ascii) : bool :=
  is_upper c || is_lower c || is_digit c.

Definition escape_item (c : ascii) : option item :=
  if Ascii.eqb c "d" then Some IDigit
  else if Ascii.eqb c "s" then Some ISpace
  else if Ascii.eqb c "w" then Some IWord
  else if alnum c then None
  else Some (ISingle c).

Definition backslash : ascii := ascii_of_nat 92.

(** Items of a bracket class, up to the closing bracket. *)
Fixpoint parse_items (fuel : nat) (s : list ascii) (acc : list item)
  : option (list item * list ascii) :=
  match fuel with
  | O => None
  | S f =>
    match s with
    | [] => None
    | c :: rest =>
      if Ascii.eqb c "]" then
        match acc with
        | [] => parse_items f rest [ISingle c]
        | _ => Some (rev acc, rest)
        end
      else if Ascii.eqb c backslash then
        match rest with
        | e :: rest' =>
          match escape_item e with
          | Some it => parse_items f rest' (it :: acc)
          | None => None
          end
        | [] => None
        end
      else
        match rest with
        | d :: hi :: rest' =>
          if Ascii.eqb d "-" && negb (Ascii.eqb hi "]")
          then parse_items f rest' (IRange c hi :: acc)
          else parse_items f rest (ISingle c :: acc)
        | _ => parse_items f rest (ISingle c :: acc)
        end
    end
  end.

Fixpoint parse_nat (s : list ascii) (acc : nat) : nat * list ascii :=
  match s with
  | c :: rest =>
    if is_digit c then parse_nat rest (10 * acc + (code c - 48))%nat
    else (acc, s)
  | [] => (acc, s)
  end.

(** A quantifier after an atom, if there is one. *)
Definition parse_quant (a : node) (s : list ascii)
  : option (node * list ascii) :=
  match s with
  | c :: rest =>
    if Ascii.eqb c "*" then Some (Repeat 0 None a, rest)
    else if Ascii.eqb c "+" then Some (Repeat 1 None a, rest)
    else if Ascii.eqb c "?" then Some (Repeat 0 (Some 1%nat) a, rest)
    else if Ascii.eqb c "{" then
      match rest with
      | d :: _ =>
        if is_digit d then
          let '(lo, r1) := parse_nat rest 0 in
          match r1 with
          | x :: r2 =>
            if Ascii.eqb x "}" then Some (Repeat lo (Some lo) a, r2)
            else if Ascii.eqb x "," then
              match r2 with
              | y :: r3 =>
                if Ascii.eqb y "}" then Some (Repeat lo None a, r3)
                else if is_digit y then
                  let '(hi, r4) := parse_nat r2 0 in
                  match r4 with
                  | z :: r5 =>
                    if Ascii.eqb z "}" then Some (Repeat lo (Some hi) a, r5)
                    else None
                  | [] => None
                  end
                else None
              | [] => None
              end
            else None
          | [] => None
          end
        else None
      | [] => None
      end
    else Some (a, s)
  | [] => Some (a, s)
  end.

(** After a quantifier no second quantifier is accepted (lazy and
    possessive forms are outside the supported syntax). *)
Definition no_quant_next (s : list ascii) : bool :=
  match s with
  | c :: _ => negb (is_special c)
  | [] => true
  end.

(** Recursive descent; the third component counts the capture groups
    opened so far, groups being numbered by their opening parenthesis. *)
Fixpoint parse_alt (fuel : nat) (s : list ascii) (g : nat)
  : option (node * list ascii * nat) :=
  match fuel with
  | O => None
  | S f =>
    match parse_seq f s g with
    | Some (a, rest, g1) =>
      match rest with
      | c :: rest' =>
        if Ascii.eqb c "|" then
          match parse_alt f rest' g1 with
          | Some (b, rest'', g2) => Some (Or a b, rest'', g2)
          | None => None
          end
        else Some (a, rest, g1)
      | [] => Some (a, rest, g1)
      end
    | None => None
    end
  end
with parse_seq (fuel : nat) (s : list ascii) (g : nat)
  : option (node * list ascii * nat) :=
  match fuel with
  | O => None
  | S f =>
    match s with
    | [] => Some (Empty, s, g)
    | c :: _ =>
      if Ascii.eqb c "|" || Ascii.eqb c ")" then Some (Empty, s, g)
      else
        match parse_atom f s g with
        | Some (a, rest, g1) =>
          match parse_quant a rest with
          | Some (q, rest1) =>
            if no_quant_next rest1 then
              match parse_seq f rest1 g1 with
              | Some (b, rest2, g2) => Some (Cat q b, rest2, g2)
              | None => None
              end
            else None
          | None => None
          end
        | None => None
        end
    end
  end
with parse_atom (fuel : nat) (s : list ascii) (g : nat)
  : option (node * list ascii * nat) :=
  match fuel with
  | O => None
  | S f =>
    match s with
    | [] => None
    | c :: rest =>
      if Ascii.eqb c "(" then
        match rest with
        | q :: rest1 =>
          if Ascii.eqb q "?" then
            match rest1 with
            | k :: rest2 =>
              if Ascii.eqb k ":" then
                match parse_alt f rest2 g with
                | Some (a, r, g1) =>
                  match r with
                  | p :: r' => if Ascii.eqb p ")" then Some (a, r', g1) else None
                  | [] => None
                  end
                | None => None
                end
              else None
            | [] => None
            end
          else
            match parse_alt f rest (S g) with
            | Some (a, r, g1) =>
              match r with
              | p :: r' =>
                if Ascii.eqb p ")" then Some (Group (S g) a, r', g1) else None
              | [] => None
              end
            | None => None
            end
        | [] => None
        end
      else if Ascii.eqb c "[" then
        match rest with
        | n :: rest1 =>
          if Ascii.eqb n "^" then
            match parse_items f rest1 [] with
            | Some (its, r) => Some (Class true its, r, g)
            | None => None
            end
          else
            match parse_items f rest [] with
            | Some (its, r) => Some (Class false its, r, g)
            | None => None
            end
        | [] => None
        end
      else if Ascii.eqb c backslash then
        match rest with
        | e :: rest1 =>
          match escape_item e with
          | Some (ISingle x) => Some (Lit x, rest1, g)
          | Some it => Some (Class false [it], rest1, g)
          | None => None
          end
        | [] => None
        end
      else if Ascii.eqb c "." then Some (AnyChar, rest, g)
      else if is_special c then None
      else Some (Lit c, rest, g)
    end
  end.

(** [re.compile]: the syntax tree and the number of capture groups, or
    [None] for a pattern outside the supported syntax. *)
Definition compile (pattern : string) : option (node * nat) :=
  let s := chars pattern in
  match parse_alt (4 * List.length s + 4) s 0 with
  | Some (r, [], g) => Some (r, g)
  | _ => None
  end.

(** *** Matching *)

Definition in_item (it : item) (a : ascii) : bool :=
  match it with
  | ISingle c => Ascii.eqb a c
  | IRange lo hi => (code lo <=? code a)%nat && (code a <=? code hi)%nat
  | IDigit => is_digit a
  | ISpace => is_space a
  | IWord => is_word a
  end.

(** One character against a bracket class under [re.IGNORECASE]: the
    character belongs to the set when one of its two cases does. *)
Definition in_class (negated : bool) (items : list item) (a : ascii) : bool :=
  xorb negated
       (existsb (fun it => in_item it (lower_char a) || in_item it (upper_char a))
                items).

Definition captures : Type := list (nat * list ascii).

Definition outcome : Type := option (list ascii * captures).

Definition consumed (before after : list ascii) : list ascii :=
  firstn (List.length before - List.length after) before.

Definition below (cnt : nat) (hi : option nat) : bool :=
  match hi with
  | Some h => (cnt <? h)%nat
  | None => true
  end.

(** The greedy repetition of a matcher [step], [cnt] iterations being
    done: one more iteration is tried first, and the continuation [k] only
    when that fails and the lower bound is reached.  An iteration that
    consumes nothing is not repeated once the lower bound is met. *)
Fixpoint rep_loop (step : list ascii -> captures ->
                          (list ascii -> captures -> outcome) -> outcome)
         (lo : nat) (hi : option nat)
         (k : list ascii -> captures -> outcome)
         (fuel cnt : nat) (s : list ascii) (c : captures) {struct fuel}
  : outcome :=
  match fuel with
  | O => None
  | S fuel' =>
    let more :=
      if below cnt hi then
        step s c
             (fun s' c' =>
                if (List.length s' <? List.length s)%nat || (cnt <? lo)%nat
                then rep_loop step lo hi k fuel' (S cnt) s' c'
                else None)
      else None in
    match more with
    | Some res => Some res
    | None => if (lo <=? cnt)%nat then k s c else None
    end
  end.

(** [exec r s c k]: match [r] at the head of [s] with the captures [c],
    then hand the rest to the continuation [k]; alternatives are tried in
    the order of the backtracking engine (left branch first, one more
    repetition before stopping). *)
Fixpoint exec (r : node) (s : list ascii) (c : captures)
         (k : list ascii -> captures -> outcome) {struct r} : outcome :=
  match r with
  | Empty => k s c
  | Lit ch =>
    match s with
    | a :: s' => if Ascii.eqb (lower_char a) (lower_char ch) then k s' c else None
    | [] => None
    end
  | AnyChar =>
    match s with
    | a :: s' => if Ascii.eqb a (ascii_of_nat 10) then None else k s' c
    | [] => None
    end
  | Class negated items =>
    match s with
    | a :: s' => if in_class negated items a then k s' c else None
    | [] => None
    end
  | Cat a b => exec a s c (fun s' c' => exec b s' c' k)
  | Or a b =>
    match exec a s c k with
    | Some res => Some res
    | None => exec b s c k
    end
  | Group n a =>
    exec a s c (fun s' c' => k s' ((n, consumed s s') :: c'))
  | Repeat lo hi a =>
    rep_loop (exec a) lo hi k (S (List.length s + lo)) 0%nat s c
  end.

(** The match object: the whole match and the capture groups 1..n, a
    group that took no part in the match being [None]. *)
Record Match : Type := mkMatch {
  group0 : string;
  groups : list (option string)
}.

Fixpoint lookup_group (n : nat) (c : captures) : option string :=
  match c with
  | (m, v) :: c' => if Nat.eqb m n then Some (of_chars v) else lookup_group n c'
  | [] => None
  end.

Definition match_at (r : node) (ngroups : nat) (s : list ascii) : option Match :=
  match exec r s [] (fun s' c' => Some (s', c')) with
  | Some (s', c') =>
    Some (mkMatch (of_chars (consumed s s'))
                  (map (fun n => lookup_group n c') (seq 1 ngroups)))
  | None => None
  end.

(** Leftmost match: try every start offset from the left. *)
Fixpoint scan (r : node) (ngroups : nat) (s : list ascii) : option Match :=
  match match_at r ngroups s with
  | Some m => Some m
  | None =>
    match s with
    | _ :: s' => scan r ngroups s'
    | [] => None
    end
  end.

(** [re.search(pattern, text, re.IGNORECASE)] *)
Definition search (pattern text : string) : option Match :=
  match compile pattern with
  | Some (r, ngroups) => scan r ngroups (chars text)
  | None => None
  end.

(** A syntactic test: every successful match of [r] binds group 1. *)
Fixpoint binds_group1 (r : node) : bool :=
  match r with
  | Group n a => Nat.eqb n 1 || binds_group1 a
  | Cat a b => binds_group1 a || binds_group1 b
  | Or a b => binds_group1 a && binds_group1 b
  | Repeat lo _ a => (0 <? lo)%nat && binds_group1 a
  | _ => false
  end.

Definition group1_mandatory (pattern : string) : bool :=
  match compile pattern with
  | Some (r, ngroups) => (1 <=? ngroups)%nat && binds_group1 r
  | None => false
  end.

End Re.

(* ===================================================================== *)
(** ** Exceptions and numbers                                              *)
(* ===================================================================== *)

(** The exceptions that can arise inside the engine; all of them are
    subclasses of [Exception]. *)
Inductive exn : Type :=
| IndexError
| KeyError
| ValueError
| ZeroDivisionError
| AttributeError
| ExternalError (msg : string).

Inductive result (A : Type) : Type :=
| Ok (v : A)
| Raise (e : exn).

Arguments Ok {A} v.
Arguments Raise {A} e.

#[export] Instance result_ret : MRet result := fun A v => Ok v.
#[export] Instance result_bind : MBind result :=
  fun A B f m => match m with Ok v => f v | Raise e => Raise e end.

(** A float literal or the float result of a division: the exact rational
    in lowest terms. *)
Definition py_float (q : Q) : Q := Qred q.

Definition Qltb (x y : Q) : bool := negb (Qle_bool y x).

(** [a / b] on numbers. *)
Definition truediv (a b : Q) : result Q :=
  if Qeq_bool b 0%Q then Raise ZeroDivisionError else Ok (py_float (a / b)%Q).

(** [seq[i]] on a list. *)
Definition getitem {A : Type} (l : list A) (i : nat) : result A :=
  match nth_error l i with
  | Some v => Ok v
  | None => Raise IndexError
  end.

(** [sum(...)] over numbers. *)
Definition py_sum (l : list Q) : Q := fold_left Qplus l 0%Q.

(** [enumerate(l)] *)
Definition enumerate {A : Type} (l : list A) : list (nat * A) :=
  combine (seq 0 (List.length l)) l.

(** [max(items, key=key)]: the first item whose key no later item exceeds
    strictly; [ValueError] on an empty sequence. *)
Fixpoint max_from {A : Type} (key : A -> Q) (best : A) (rest : list A) : A :=
  match rest with
  | [] => best
  | x :: rest' =>
    if Qltb (key best) (key x) then max_from key x rest'
    else max_from key best rest'
  end.

Definition py_max {A : Type} (key : A -> Q) (items : list A) : result A :=
  match items with
  | [] => Raise ValueError
  | x :: rest => Ok (max_from key x rest)
  end.

(** Components of a 4-tuple. *)
Definition tuple4 : Type := (Z * Z * Z * Z)%type.
Definition t0 (t : tuple4) : Z := let '(a, _, _, _) := t in a.
Definition t1 (t : tuple4) : Z := let '(_, b, _, _) := t in b.
Definition t2 (t : tuple4) : Z := let '(_, _, c, _) := t in c.
Definition t3 (t : tuple4) : Z := let '(_, _, _, d) := t in d.

(* ===================================================================== *)
(** ** Data model                                                          *)
(* ===================================================================== *)

Inductive DocumentType : Type :=
| INVOICE | RECEIPT | CONTRACT | FORM | LETTER | REPORT | UNKNOWN.

#[export] Instance DocumentType_eq_dec : EqDecision DocumentType.
Proof. solve_decision. Defined.

Record Word : Type := mkWord {
  word_text : string;
  word_confidence : Q;
  word_bbox : tuple4;            (* (x, y, width, height) *)
  word_position : string
}.

(** [Word(text, confidence, bbox)] with the default position. *)
Definition new_Word (text : string) (confidence : Q) (bbox : tuple4) : Word :=
  mkWord text confidence bbox "unknown".

Record TextLine : Type := mkTextLine {
  line_text : string;
  line_words : list Word;
  line_confidence : Q;
  line_bbox : tuple4
}.

Record Table : Type := mkTable {
  table_rows : Z;
  table_cols : Z;
  table_cells : list (list string);
  table_bbox : tuple4;
  table_confidence : Q
}.

Record DocumentLayout : Type := mkLayout {
  header : list TextLine;
  body : list TextLine;
  footer : list TextLine;
  tables : list Table;
  page_width : Z;
  page_height : Z
}.

(** [DocumentLayout()] *)
Definition new_DocumentLayout : DocumentLayout := mkLayout [] [] [] [] 0 0.

Record ExtractedField : Type := mkField {
  field_name : string;
  field_value : string;
  field_confidence : Q;
  field_source : string
}.

Record Metadata : Type := mkMetadata {
  meta_vision_available : bool;
  meta_timestamp : string
}.

Record DocumentIntelligence : Type := mkResult {
  file_path : string;
  doc_type : DocumentType;
  type_confidence : Q;
  layout : DocumentLayout;
  extracted_fields : gmap string ExtractedField;
  raw_text : string;
  processing_time : Q;
  metadata : Metadata
}.

(* ===================================================================== *)
(** ** The world outside the module                                        *)
(* ===================================================================== *)

(** The dictionary returned by [pytesseract.image_to_data]: parallel
    lists, one entry per recognised item. *)
Record OcrData : Type := mkOcr {
  data_text : list string;
  data_top : list Z;
  data_left : list Z;
  data_width : list Z;
  data_height : list Z;
  data_conf : list Q
}.

(** One row [l[0]] of [cv2.HoughLinesP]: [(x1, y1, x2, y2)], 32-bit
    signed integers. *)
Definition Segment : Type := tuple4.

Record Externals : Type := mkExternals {
  HAS_VISION : bool;
  re_search : string -> string -> option Re.Match;
  PILImage : Type;
  Image_open : string -> result PILImage;
  Image_size : PILImage -> Z * Z;                 (* (width, height) *)
  image_to_data : PILImage -> result OcrData;
  ndarray : Type;
  cv2_imread : string -> result (option ndarray);
  ndarray_shape : ndarray -> Z * Z;               (* (rows, columns) *)
  cv2_Canny : ndarray -> result ndarray;
  cv2_HoughLinesP : ndarray -> result (option (list Segment));
  time_start : Q;
  time_end : Q;
  now_isoformat : string
}.

(* ===================================================================== *)
(** ** Pattern catalogs ([DocumentIntelligenceEngine.__init__])            *)
(* ===================================================================== *)

Definition doc_type_patterns : list (DocumentType * list string) :=
  [ (INVOICE,
     [ "invoice\s*(?:number|no\.?|#)?";
       "amount\s*due";
       "invoice\s*date";
       "bill\s*to";
       "from|seller" ]);
    (RECEIPT,
     [ "receipt\s*(?:number|no\.?|#)?";
       "total|amount.*paid";
       "transaction\s*(?:id|number)";
       "item.*(?:qty|quantity|price)";
       "thank.*you" ]);
    (CONTRACT,
     [ "agreement|contract";
       "party|parties";
       "whereas";
       "hereinafter";
       "signature|signed";
       "effective\s*date" ]);
    (FORM,
     [ "form\s*(?:number|no\.?|#)?";
       "please.*(?:complete|fill)";
       "required.*field|field.*required";
       "\[.*\]|__+";
       "signature\s*(?:line|here)" ]);
    (LETTER,
     [ "(?:dear|to)\s+";
       "sincerely|regards|respectfully";
       "(?:mr\.|ms\.|dr\.)";
       "address:|date:" ]);
    (REPORT,
     [ "report\s*(?:number|no\.?|#)?";
       "annual|quarterly|monthly|executive\s*summary";
       "table\s*of\s*contents";
       "findings|conclusions";
       "prepared\s*by|date" ]) ].

Definition field_patterns : list (string * string) :=
  [ ("invoice_number", "invoice\s*(?:number|no\.?|#)?\s*[:=]?\s*([A-Z0-9\-]+)");
    ("invoice_date", "invoice\s*date\s*[:=]?\s*([\d/\-\.]+)");
    ("due_date", "(?:due|payment)\s*date\s*[:=]?\s*([\d/\-\.]+)");
    ("total_amount", "(?:total|amount\s*due)\s*[:=]?\s*[^\d]*(\d+(?:[.,]\d+)*(?:[.,]\d{2})?)");
    ("recipient", "(?:to|bill\s*to|ship\s*to)\s*[:=]?\s*([A-Za-z\s]+)");
    ("sender", "(?:from|company|seller)\s*[:=]?\s*([A-Za-z\s]+)");
    ("phone", "(?:phone|tel)(?:ephone)?\s*[:=]?\s*([\d\-\(\)]+)");
    ("email", "([A-Za-z0-9._%+-]+@[A-Za-z0-9.-]+\.[A-Z|a-z]{2,})");
    ("address", "(?:address|street)\s*[:=]?\s*([0-9\s\w\.,#]+)");
    ("zip_code", "(?:zip|postal)\s*(?:code)?\s*[:=]?\s*(\d{5}(?:[-]?\d{4})?)") ].

(* ===================================================================== *)
(** ** Line grouping and layout segmentation                               *)
(* ===================================================================== *)

Definition newline : string := String (ascii_of_nat 10) EmptyString.

Definition line_mean_confidence (words : list Word) : Q :=
  match words with
  | [] => 0%Q
  | _ => py_float (py_sum (map word_confidence words)
                   / inject_Z (Z.of_nat (List.length words)))%Q
  end.

Definition add_header (l : DocumentLayout) (line : TextLine) : DocumentLayout :=
  mkLayout (header l ++ [line]) (body l) (footer l) (tables l)
           (page_width l) (page_height l).

Definition add_body (l : DocumentLayout) (line : TextLine) : DocumentLayout :=
  mkLayout (header l) (body l ++ [line]) (footer l) (tables l)
           (page_width l) (page_height l).

Definition add_footer (l : DocumentLayout) (line : TextLine) : DocumentLayout :=
  mkLayout (header l) (body l) (footer l ++ [line]) (tables l)
           (page_width l) (page_height l).

Definition add_table (l : DocumentLayout) (t : Table) : DocumentLayout :=
  mkLayout (header l) (body l) (footer l) (tables l ++ [t])
           (page_width l) (page_height l).

Definition set_page_size (l : DocumentLayout) (size : Z * Z) : DocumentLayout :=
  mkLayout (header l) (body l) (footer l) (tables l) (fst size) (snd size).

Definition top_third (l : DocumentLayout) : Q :=
  (inject_Z (page_height l) / 3)%Q.

Definition bottom_third (l : DocumentLayout) : Q :=
  (inject_Z (page_height l) * 2 / 3)%Q.

Definition new_TextLine (text : string) (words : list Word) (bbox : tuple4)
  : TextLine :=
  mkTextLine text words (line_mean_confidence words) bbox.

(** [_finalize_text_line]: the layout after the append. *)
Definition _finalize_text_line (layout : DocumentLayout) (text : string)
           (words : list Word) (bbox : tuple4) : DocumentLayout :=
  let line := new_TextLine text words bbox in
  if Qltb (inject_Z (t1 bbox)) (top_third layout) then add_header layout line
  else if Qltb (bottom_third layout) (inject_Z (t1 bbox)) then add_footer layout line
  else add_body layout line.

(** The local variables of the grouping loop of [_extract_layout]. *)
Record LineState : Type := mkLineState {
  current_line_y : Z;
  current_line_text : string;
  current_line_words : list Word;
  current_line_bbox : tuple4
}.

Definition initial_line_state : LineState := mkLineState (-1) "" [] (0, 0, 0, 0).

(** One iteration of [for i, word in enumerate(data['text'])]. *)
Definition loop_body (data : OcrData) (i : nat) (word : string)
           (st : DocumentLayout * LineState)
  : result (DocumentLayout * LineState) :=
  if negb (PyStr.truthy (PyStr.strip word)) then Ok st
  else
    y ← getitem (data_top data) i;
    x ← getitem (data_left data) i;
    w ← getitem (data_width data) i;
    h ← getitem (data_height data) i;
    c ← getitem (data_conf data) i;
    let conf := py_float (c / 100)%Q in
    let '(layout, ls) := st in
    let '(layout, ls) :=
      if (10 <? Z.abs (y - current_line_y ls)) && PyStr.truthy (current_line_text ls)
      then (_finalize_text_line layout (current_line_text ls)
                                (current_line_words ls) (current_line_bbox ls),
            mkLineState y "" [] (current_line_bbox ls))
      else (layout, ls) in
    let text :=
      current_line_text ls
      +:+ (if PyStr.truthy (current_line_text ls) then " " else "") +:+ word in
    let words := current_line_words ls ++ [new_Word word conf (x, y, w, h)] in
    let b := current_line_bbox ls in
    let bbox :=
      if Z.eqb (t2 b) 0 then (x, y, w, h)
      else (Z.min (t0 b) x, Z.min (t1 b) y, Z.max (t2 b) (x + w), Z.max (t3 b) (y + h)) in
    Ok (layout, mkLineState y text words bbox).

(** The whole [for] loop: the state reached, and the exception that cut
    the loop short if one was raised.  The layout is mutated in place, so
    the lines finalized before the exception stay in it. *)
Fixpoint group_words (data : OcrData) (items : list (nat * string))
         (st : DocumentLayout * LineState)
  : (DocumentLayout * LineState) * option exn :=
  match items with
  | [] => (st, None)
  | (i, word) :: rest =>
    match loop_body data i word st with
    | Ok st' => group_words data rest st'
    | Raise e => (st, Some e)
    end
  end.

(** The statements of [_extract_layout] after [image_to_data] returned. *)
Definition layout_of_data (data : OcrData) (layout : DocumentLayout)
  : DocumentLayout * option exn :=
  let '((layout, ls), err) :=
    group_words data (enumerate (data_text data)) (layout, initial_line_state) in
  match err with
  | Some e => (layout, Some e)
  | None =>
    if PyStr.truthy (current_line_text ls)
    then (_finalize_text_line layout (current_line_text ls)
                              (current_line_words ls) (current_line_bbox ls), None)
    else (layout, None)
  end.

(** The body of the [try] block of [_extract_layout]. *)
Definition extract_layout_try (ext : Externals) (path : string)
           (layout : DocumentLayout) : DocumentLayout * option exn :=
  match Image_open ext path with
  | Raise e => (layout, Some e)
  | Ok img =>
    let layout := set_page_size layout (Image_size ext img) in
    match image_to_data ext img with
    | Raise e => (layout, Some e)
    | Ok data => layout_of_data data layout
    end
  end.

(** [_extract_layout]: [except Exception] logs the error and falls through
    to [return layout]. *)
Definition _extract_layout (ext : Externals) (path : string)
  : result DocumentLayout :=
  let layout := new_DocumentLayout in
  if negb (HAS_VISION ext) then Ok layout
  else
    let '(layout, err) := extract_layout_try ext path layout in
    match err with
    | Some _ => Ok layout
    | None => Ok layout
    end.

(** [_extract_raw_text] *)
Definition _extract_raw_text (layout : DocumentLayout) : string :=
  let all_lines := header layout ++ body layout ++ footer layout in
  PyStr.join newline (map line_text all_lines).

(* ===================================================================== *)
(** ** Classification                                                      *)
(* ===================================================================== *)

(** An insertion-ordered dictionary with unique keys. *)
Fixpoint dict_set {K V : Type} `{EqDecision K} (k : K) (v : V)
         (d : list (K * V)) : list (K * V) :=
  match d with
  | [] => [(k, v)]
  | (k', v') :: d' =>
    if decide (k = k') then (k, v) :: d' else (k', v') :: dict_set k v d'
  end.

Fixpoint dict_get {K V : Type} `{EqDecision K} (k : K) (d : list (K * V))
  : option V :=
  match d with
  | [] => None
  | (k', v') :: d' => if decide (k = k') then Some v' else dict_get k d'
  end.

Definition dict_getitem {K V : Type} `{EqDecision K} (k : K) (d : list (K * V))
  : result V :=
  match dict_get k d with
  | Some v => Ok v
  | None => Raise KeyError
  end.

Definition is_match (m : option Re.Match) : bool :=
  match m with Some _ => true | None => false end.

(** [sum(1 for pattern in patterns if re.search(pattern, text_lower, re.I))] *)
Definition count_matches (ext : Externals) (text_lower : string)
           (patterns : list string) : Z :=
  fold_left Z.add
            (map (fun _ => 1)
                 (List.filter (fun p => is_match (re_search ext p text_lower)) patterns))
            0.

(** The scoring loop over [self.doc_type_patterns.items()]. *)
Fixpoint score_loop (ext : Externals) (text_lower : string)
         (catalog : list (DocumentType * list string))
         (scores : list (DocumentType * Q)) : result (list (DocumentType * Q)) :=
  match catalog with
  | [] => Ok scores
  | (dt, patterns) :: rest =>
    v ← truediv (inject_Z (count_matches ext text_lower patterns))
                (inject_Z (Z.of_nat (List.length patterns)));
    score_loop ext text_lower rest (dict_set dt v scores)
  end.

(** [scores.get] as the key of [max]; every key handed to it is in the
    dictionary, the default is never used. *)
Definition scores_get (scores : list (DocumentType * Q)) (dt : DocumentType) : Q :=
  match dict_get dt scores with Some v => v | None => 0%Q end.

(** The statements of [_classify_document_type] up to [best_type]. *)
Definition best_of (scores : list (DocumentType * Q)) : result DocumentType :=
  py_max (scores_get scores) (map fst scores).

Definition threshold : Q := py_float 0.2%Q.

(** [_classify_document_type] *)
Definition _classify_document_type (ext : Externals) (text : string)
  : result (DocumentType * Q) :=
  let text_lower := PyStr.lower text in
  scores ← score_loop ext text_lower doc_type_patterns [];
  best_type ← best_of scores;
  confidence ← dict_getitem best_type scores;
  if Qltb confidence threshold then Ok (UNKNOWN, confidence)
  else Ok (best_type, confidence).

(* ===================================================================== *)
(** ** Field extraction                                                    *)
(* ===================================================================== *)

(** [match.group(1) if match.groups() else match.group(0)] *)
Definition match_value (m : Re.Match) : option string :=
  match Re.groups m with
  | [] => Some (Re.group0 m)
  | g1 :: _ => g1
  end.

(** [value.strip()]: [None] has no such attribute. *)
Definition strip_value (v : option string) : result string :=
  match v with
  | Some s => Ok (PyStr.strip s)
  | None => Raise AttributeError
  end.

Definition regex_confidence : Q := py_float 0.85%Q.

Fixpoint fields_loop (ext : Externals) (text_lower : string)
         (catalog : list (string * string))
         (fields : gmap string ExtractedField)
  : result (gmap string ExtractedField) :=
  match catalog with
  | [] => Ok fields
  | (name, pattern) :: rest =>
    match re_search ext pattern text_lower with
    | Some m =>
      value ← strip_value (match_value m);
      fields_loop ext text_lower rest
                  (<[name := mkField name value regex_confidence "regex"]> fields)
    | None => fields_loop ext text_lower rest fields
    end
  end.

(** [_extract_key_fields] *)
Definition _extract_key_fields (ext : Externals) (text : string)
           (layout : DocumentLayout) : result (gmap string ExtractedField) :=
  fields_loop ext (PyStr.lower text) field_patterns ∅.

(* ===================================================================== *)
(** ** Table detection                                                     *)
(* ===================================================================== *)

(** Arithmetic of 32-bit signed integers wraps around. *)
Definition wrap32 (z : Z) : Z := (z + 2 ^ 31) mod 2 ^ 32 - 2 ^ 31.

Definition sub32 (a b : Z) : Z := wrap32 (a - b).
Definition abs32 (a : Z) : Z := wrap32 (Z.abs a).

Definition is_horizontal (l : Segment) : bool := abs32 (sub32 (t1 l) (t3 l)) <? 5.
Definition is_vertical (l : Segment) : bool := abs32 (sub32 (t0 l) (t2 l)) <? 5.

Definition h_lines (lines : list Segment) : list Segment :=
  List.filter is_horizontal lines.

Definition v_lines (lines : list Segment) : list Segment :=
  List.filter is_vertical lines.

Definition len {A : Type} (l : list A) : Z := Z.of_nat (List.length l).

(** [[x for _ in range(n)]] *)
Definition repeat_range {A : Type} (x : A) (n : Z) : list A := repeat x (Z.to_nat n).

Definition table_confidence_const : Q := py_float 0.7%Q.

(** The [Table(...)] built when the grid test succeeds. *)
Definition grid_table (shape : Z * Z) (hl vl : list Segment) : Table :=
  mkTable (len hl - 1) (len vl - 1)
          (repeat_range (repeat_range "" (len vl - 1)) (len hl - 1))
          (0, 0, snd shape, fst shape)
          table_confidence_const.

(** The statements after [lines] is known not to be [None]. *)
Definition tables_of_lines (shape : Z * Z) (lines : list Segment) : list Table :=
  let hl := h_lines lines in
  let vl := v_lines lines in
  if (2 <? len hl) && (2 <? len vl) then [grid_table shape hl vl] else [].

(** The body of the [try] block of [_detect_tables]; the layout is only
    touched by the final append. *)
Definition detect_tables_try (ext : Externals) (path : string)
           (layout : DocumentLayout) : result DocumentLayout :=
  img ← cv2_imread ext path;
  match img with
  | None => Ok layout
  | Some img =>
    edges ← cv2_Canny ext img;
    lines ← cv2_HoughLinesP ext edges;
    match lines with
    | None => Ok layout
    | Some lines =>
      Ok (fold_left add_table (tables_of_lines (ndarray_shape ext img) lines) layout)
    end
  end.

(** [_detect_tables]: the layout as the call leaves it. *)
Definition _detect_tables (ext : Externals) (path : string)
           (layout : DocumentLayout) : result DocumentLayout :=
  if negb (HAS_VISION ext) then Ok layout
  else
    match detect_tables_try ext path layout with
    | Ok layout' => Ok layout'
    | Raise _ => Ok layout
    end.

(* ===================================================================== *)
(** ** The pipeline                                                        *)
(* ===================================================================== *)

(** [process_document] *)
Definition process_document (ext : Externals) (path : string)
  : result DocumentIntelligence :=
  layout ← _extract_layout ext path;
  let raw := _extract_raw_text layout in
  '(dt, conf) ← _classify_document_type ext raw;
  fields ← _extract_key_fields ext raw layout;
  layout ← _detect_tables ext path layout;
  Ok (mkResult path dt conf layout fields raw
               (time_end ext - time_start ext)%Q
               (mkMetadata (HAS_VISION ext) (now_isoformat ext))).

(* ===================================================================== *)
(** ** A concrete world for running the engine                             *)
(* ===================================================================== *)

(** What a scanned page amounts to for the engine: its size, the OCR
    output and the line segments found in it. *)
Record Scan : Type := mkScan {
  scan_size : Z * Z;                       (* (width, height) *)
  scan_data : OcrData;
  scan_lines : option (list Segment)
}.

Fixpoint find_file (files : list (string * Scan)) (path : string) : option Scan :=
  match files with
  | [] => None
  | (p, s) :: rest => if String.eqb p path then Some s else find_file rest path
  end.

(** The matcher [Re.search] for the [re] library, and a file system given
    as a list of scans; a path that is not listed cannot be opened. *)
Definition scanner (vision : bool) (files : list (string * Scan)) : Externals :=
  {| HAS_VISION := vision;
     re_search := Re.search;
     PILImage := Scan;
     Image_open := fun path =>
       match find_file files path with
       | Some s => Ok s
       | None => Raise (ExternalError "FileNotFoundError")
       end;
     Image_size := scan_size;
     image_to_data := fun s => Ok (scan_data s);
     ndarray := Scan;
     cv2_imread := fun path => Ok (find_file files path);
     ndarray_shape := fun s => (snd (scan_size s), fst (scan_size s));
     cv2_Canny := fun s => Ok s;
     cv2_HoughLinesP := fun s => Ok (scan_lines s);
     time_start := 0%Q;
     time_end := 1%Q;
     now_isoformat := "2025-01-15T10:00:00" |}.

(** The same world with an OCR engine that cannot be run. *)
Definition scanner_without_ocr (files : list (string * Scan)) : Externals :=
  {| HAS_VISION := true;
     re_search := Re.search;
     PILImage := Scan;
     Image_open := Image_open (scanner true files);
     Image_size := scan_size;
     image_to_data := fun _ => Raise (ExternalError "TesseractNotFoundError");
     ndarray := Scan;
     cv2_imread := fun path => Ok (find_file files path);
     ndarray_shape := fun s => (snd (scan_size s), fst (scan_size s));
     cv2_Canny := fun s => Ok s;
     cv2_HoughLinesP := fun s => Ok (scan_lines s);
     time_start := 0%Q;
     time_end := 1%Q;
     now_isoformat := "2025-01-15T10:00:00" |}.

(** The engine on pre-supplied text alone. *)
Definition text_only : Externals := scanner false [].

(* ===================================================================== *)
(** ** Specification vocabulary                                            *)
(* ===================================================================== *)

(** A call of [_finalize_text_line] placed [line] in one region and left
    the other two as they were. *)
Definition placed_in_header (l l' : DocumentLayout) (line : TextLine) : Prop :=
  header l' = header l ++ [line] /\ body l' = body l /\ footer l' = footer l.

Definition placed_in_body (l l' : DocumentLayout) (line : TextLine) : Prop :=
  header l' = header l /\ body l' = body l ++ [line] /\ footer l' = footer l.

Definition placed_in_footer (l l' : DocumentLayout) (line : TextLine) : Prop :=
  header l' = header l /\ body l' = body l /\ footer l' = footer l ++ [line].

(** The union of the boxes of some words: minimum of the left and top
    edges, maximum of the right and bottom edges. *)
Definition word_right (w : Word) : Z := t0 (word_bbox w) + t2 (word_bbox w).
Definition word_bottom (w : Word) : Z := t1 (word_bbox w) + t3 (word_bbox w).

Fixpoint union_of_words (first : Word) (others : list Word) : tuple4 :=
  match others with
  | [] => (t0 (word_bbox first), t1 (word_bbox first), word_right first, word_bottom first)
  | w :: rest =>
    let u := union_of_words first rest in
    (Z.min (t0 u) (t0 (word_bbox w)), Z.min (t1 u) (t1 (word_bbox w)),
     Z.max (t2 u) (word_right w), Z.max (t3 u) (word_bottom w))
  end.

Definition words_bbox (words : list Word) : option tuple4 :=
  match words with
  | [] => None
  | w :: rest => Some (union_of_words w rest)
  end.

(** The number of patterns of a list that match the text at least once. *)
Definition matching (ext : Externals) (text_lower : string)
           (patterns : list string) : nat :=
  List.length (List.filter (fun p => is_match (re_search ext p text_lower)) patterns).

Definition ratio (ext : Externals) (text_lower : string)
           (patterns : list string) : Q :=
  py_float (inject_Z (Z.of_nat (matching ext text_lower patterns))
            / inject_Z (Z.of_nat (List.length patterns)))%Q.

(** Score(type) of a text. *)
Definition Score (ext : Externals) (text : string) (dt : DocumentType) : Q :=
  match dict_get dt doc_type_patterns with
  | Some patterns => ratio ext (PyStr.lower text) patterns
  | None => 0%Q
  end.

Definition catalog_types : list DocumentType := map fst doc_type_patterns.

(** The dictionary [scores] that the classifier fills for a text. *)
Definition type_scores (ext : Externals) (text : string)
  : list (DocumentType * Q) :=
  map (fun e => (fst e, ratio ext (PyStr.lower text) (snd e))) doc_type_patterns.

(** The first capture group took part in every match that the field
    patterns find in the text: what [re] guarantees for the catalog, whose
    patterns all have their group outside any optional part. *)
Definition groups_participate (ext : Externals) (text_lower : string) : bool :=
  forallb (fun e =>
             match re_search ext (snd e) text_lower with
             | Some m => bool_decide (is_Some (match_value m))
             | None => true
             end)
          field_patterns.

(** The value of a match in the words of the specification: the first
    capture group, or the whole match for a pattern without groups. *)
Definition first_group_or_whole (m : Re.Match) (v : string) : Prop :=
  (Re.groups m = [] /\ v = Re.group0 m)
  \/ (exists rest, Re.groups m = Some v :: rest).

(** What the loop of [_extract_key_fields] leaves in the dictionary for
    one entry of the catalog, [acc] being the dictionary it started from. *)
Definition entry_ok (ext : Externals) (text_lower : string)
           (fields acc : gmap string ExtractedField)
           (name pattern : string) : Prop :=
  match re_search ext pattern text_lower with
  | Some m =>
    exists v, match_value m = Some v
              /\ fields !! name
                 = Some (mkField name (PyStr.strip v) regex_confidence "regex")
  | None => fields !! name = acc !! name
  end.

(** Vocabulary for the matcher: the captures bind group 1, and a matcher
    only reaches its continuation with captures that extend the ones it
    was given ([binds] telling whether group 1 is then surely bound). *)
Definition has_group1 (c : Re.captures) : Prop := is_Some (Re.lookup_group 1 c).

Definition step_sound (binds : bool)
           (step : list ascii -> Re.captures ->
                   (list ascii -> Re.captures -> Re.outcome) -> Re.outcome)
  : Prop :=
  forall s c k res,
    step s c k = Some res ->
    exists s' c',
      k s' c' = Some res
      /\ (has_group1 c -> has_group1 c')
      /\ (binds = true -> has_group1 c').

(** The value of a call that returned, a default standing for a call
    that raised. *)
Definition value_or {A : Type} (default : A) (r : result A) : A :=
  match r with
  | Ok v => v
  | Raise _ => default
  end.

(** *** Sample inputs *)

(** Two words on two lines of a 1000 x 1500 page. *)
Definition two_line_scan : Scan :=
  mkScan (1000, 1500)
         (mkOcr ["Invoice"; "Total"] [10; 200] [10; 50] [30; 30] [20; 20]
                [90%Q; 80%Q])
         None.

(** A ruled page of 800 x 600 pixels: three horizontal and three
    vertical segments. *)
Definition grid_scan : Scan :=
  mkScan (800, 600)
         (mkOcr [] [] [] [] [] [])
         (Some [ (100, 100, 700, 100); (100, 300, 700, 302); (100, 500, 700, 500);
                 (100, 100, 100, 500); (400, 100, 401, 500); (700, 100, 700, 500) ]).

(** Five words, the first four within ten pixels of each other
    vertically, the fifth far below; one blank item in between. *)
Definition five_word_scan : Scan :=
  mkScan (1000, 1500)
         (mkOcr ["Invoice"; "Number:"; " "; "INV-2025-001"; "Draft"; "Total"]
                [10; 12; 600; 9; 11; 200]
                [0; 80; 0; 170; 300; 0]
                [70; 80; 0; 120; 50; 50]
                [20; 20; 0; 20; 20; 20]
                [96%Q; 91%Q; (-1)%Q; 88%Q; 90%Q; 93%Q])
         None.

(** One horizontal and five vertical segments. *)
Definition ruled_scan : Scan :=
  mkScan (800, 600)
         (mkOcr [] [] [] [] [] [])
         (Some [ (100, 100, 700, 100);
                 (100, 100, 100, 500); (200, 100, 200, 500); (300, 100, 300, 500);
                 (400, 100, 400, 500); (500, 100, 500, 500) ]).

(** Texts of the test suite. *)
Definition invoice_text : string := "
        INVOICE
        Invoice Number: INV-2025-001
        Invoice Date: 2025-01-15
        Bill To: John Doe
        Amount Due: $1,500.00
        ".

Definition receipt_text : string := "
        RECEIPT
        Receipt Number: RCP-12345
        Thank You for Your Purchase!
        Total Paid: $25.99
        Transaction ID: TXN-98765
        Item 1: Coffee - $5.00
        Item 2: Pastry - $3.50
        ".

Definition contract_text : string := "
        AGREEMENT
        This Agreement is entered into by and between the parties.
        Whereas the parties wish to establish terms and conditions,
        Now Therefore, it is agreed as follows.
        Signature: _________________________ Date: _________
        ".

Definition form_text : string := "
        APPLICATION FORM
        Please complete all required fields below.
        Name: ___________________________
        Email: ___________________________
        Signature: _______________________ Date: _________
        ".

(* ===================================================================== *)
(** ** Serialization and the standalone helpers                            *)
(* ===================================================================== *)

(** The plain values that [to_dict] and [dataclasses.asdict] produce.  A
    dictionary lists its entries in order; for the dictionary of extracted
    fields the order is that of [map_to_list]. *)
#[warnings="-register-all"] Inductive pyval : Type :=
| VStr (s : string)
| VInt (z : Z)
| VFloat (q : Q)
| VBool (b : bool)
| VTuple (items : list pyval)
| VList (items : list pyval)
| VDict (entries : list (string * pyval)).

Definition tuple_value (t : tuple4) : pyval :=
  VTuple [VInt (t0 t); VInt (t1 t); VInt (t2 t); VInt (t3 t)].

(** [Word.to_dict] *)
Definition Word_to_dict (w : Word) : pyval :=
  VDict [ ("text", VStr (word_text w));
          ("confidence", VFloat (word_confidence w));
          ("bbox", tuple_value (word_bbox w));
          ("position", VStr (word_position w)) ].

(** [TextLine.to_dict] *)
Definition TextLine_to_dict (l : TextLine) : pyval :=
  VDict [ ("text", VStr (line_text l));
          ("confidence", VFloat (line_confidence l));
          ("bbox", tuple_value (line_bbox l));
          ("words", VList (map Word_to_dict (line_words l))) ].

(** [Table.to_dict] *)
Definition Table_to_dict (t : Table) : pyval :=
  VDict [ ("rows", VInt (table_rows t));
          ("cols", VInt (table_cols t));
          ("cells", VList (map (fun row => VList (map VStr row)) (table_cells t)));
          ("bbox", tuple_value (table_bbox t));
          ("confidence", VFloat (table_confidence t)) ].

(** [DocumentLayout.to_dict] *)
Definition DocumentLayout_to_dict (l : DocumentLayout) : pyval :=
  VDict [ ("header", VList (map TextLine_to_dict (header l)));
          ("body", VList (map TextLine_to_dict (body l)));
          ("footer", VList (map TextLine_to_dict (footer l)));
          ("tables", VList (map Table_to_dict (tables l)));
          ("page_width", VInt (page_width l));
          ("page_height", VInt (page_height l)) ].

(** [ExtractedField.to_dict] *)
Definition ExtractedField_to_dict (f : ExtractedField) : pyval :=
  VDict [ ("name", VStr (field_name f));
          ("value", VStr (field_value f));
          ("confidence", VFloat (field_confidence f));
          ("source", VStr (field_source f)) ].

(** [DocumentType.value] *)
Definition DocumentType_value (dt : DocumentType) : string :=
  match dt with
  | INVOICE => "invoice"
  | RECEIPT => "receipt"
  | CONTRACT => "contract"
  | FORM => "form"
  | LETTER => "letter"
  | REPORT => "report"
  | UNKNOWN => "unknown"
  end.

(** The [metadata] dictionary built by [process_document]. *)
Definition Metadata_value (m : Metadata) : pyval :=
  VDict [ ("vision_available", VBool (meta_vision_available m));
          ("timestamp", VStr (meta_timestamp m)) ].

(** [DocumentIntelligence.to_dict] *)
Definition DocumentIntelligence_to_dict (r : DocumentIntelligence) : pyval :=
  VDict [ ("file_path", VStr (file_path r));
          ("doc_type", VStr (DocumentType_value (doc_type r)));
          ("type_confidence", VFloat (type_confidence r));
          ("layout", DocumentLayout_to_dict (layout r));
          ("extracted_fields",
           VDict (map (fun kv => (fst kv, ExtractedField_to_dict (snd kv)))
                      (map_to_list (extracted_fields r))));
          ("raw_text", VStr (raw_text r));
          ("processing_time", VFloat (processing_time r));
          ("metadata", Metadata_value (metadata r)) ].

(** [analyze_document] *)
Definition analyze_document (ext : Externals) (path : string)
  : result DocumentIntelligence :=
  process_document ext path.

(** [extract_field]:
    [result.get(field_name).value if field_name in result else None] *)
Definition extract_field (ext : Externals) (text field_name : string)
  : result (option string) :=
  fields ← _extract_key_fields ext text new_DocumentLayout;
  match fields !! field_name with
  | Some f => Ok (Some (field_value f))
  | None => Ok None
  end.

(** [p] occurs in [s] as a contiguous piece. *)
Fixpoint starts_with (p s : list ascii) : bool :=
  match p, s with
  | [], _ => true
  | a :: p', b :: s' => Ascii.eqb a b && starts_with p' s'
  | _ :: _, [] => false
  end.

Fixpoint occurs_in (p s : list ascii) : bool :=
  starts_with p s
  || match s with
     | [] => false
     | _ :: s' => occurs_in p s'
     end.

(** The value that each matching field pattern yields is a piece of the
    text searched, as the groups of [re] are. *)
Definition values_from_text (ext : Externals) (text_lower : string) : bool :=
  forallb (fun e =>
             match re_search ext (snd e) text_lower with
             | Some m =>
               match match_value m with
               | Some v => occurs_in (PyStr.chars v) (PyStr.chars text_lower)
               | None => true
               end
             | None => true
             end)
          field_patterns.

Definition no_upper (s : string) : bool :=
  forallb (fun a => negb (PyStr.is_upper a)) (PyStr.chars s).

(* ===================================================================== *)
(** ** Vocabulary of the line grouper                                      *)
(* ===================================================================== *)

Definition all_lines (l : DocumentLayout) : list TextLine :=
  header l ++ body l ++ footer l.

(** An item of the OCR output that the loop does not skip. *)
Definition nonblank (word : string) : bool := PyStr.truthy (PyStr.strip word).

(** The [Word] that the loop builds for item [i]. *)
Definition word_at (data : OcrData) (i : nat) (word : string) : result Word :=
  y ← getitem (data_top data) i;
  x ← getitem (data_left data) i;
  w ← getitem (data_width data) i;
  h ← getitem (data_height data) i;
  c ← getitem (data_conf data) i;
  Ok (new_Word word (py_float (c / 100)%Q) (x, y, w, h)).

Definition word_of_item (data : OcrData) (item : nat * string) : option Word :=
  if nonblank (snd item) then
    match word_at data (fst item) (snd item) with
    | Ok wd => Some wd
    | Raise _ => None
    end
  else None.

(** The words of the OCR output, blank items left out, in reading order. *)
Definition ocr_words (data : OcrData) : list Word :=
  omap (word_of_item data) (enumerate (data_text data)).

(** Every item of the OCR output has its coordinates and confidence. *)
Definition well_formed (data : OcrData) : Prop :=
  (List.length (data_text data) <= List.length (data_top data))%nat
  /\ (List.length (data_text data) <= List.length (data_left data))%nat
  /\ (List.length (data_text data) <= List.length (data_width data))%nat
  /\ (List.length (data_text data) <= List.length (data_height data))%nat
  /\ (List.length (data_text data) <= List.length (data_conf data))%nat.

Definition word_top (w : Word) : Z := t1 (word_bbox w).

(** The state of the loop after a word whose lookups succeeded. *)
Definition add_word (wd : Word) (st : DocumentLayout * LineState)
  : DocumentLayout * LineState :=
  let '(layout, ls) := st in
  let '(layout, ls) :=
    if (10 <? Z.abs (word_top wd - current_line_y ls))
       && PyStr.truthy (current_line_text ls)
    then (_finalize_text_line layout (current_line_text ls)
                              (current_line_words ls) (current_line_bbox ls),
          mkLineState (word_top wd) "" [] (current_line_bbox ls))
    else (layout, ls) in
  let b := current_line_bbox ls in
  let '(x, y, w, h) := word_bbox wd in
  (layout,
   mkLineState y
               (current_line_text ls
                +:+ (if PyStr.truthy (current_line_text ls) then " " else "")
                +:+ word_text wd)
               (current_line_words ls ++ [wd])
               (if Z.eqb (t2 b) 0 then (x, y, w, h)
                else (Z.min (t0 b) x, Z.min (t1 b) y,
                      Z.max (t2 b) (x + w), Z.max (t3 b) (y + h)))).

(** The confidence of a word lies between 0 and 1. *)
Definition confidence_in_range (w : Word) : bool :=
  Qle_bool 0 (word_confidence w) && Qle_bool (word_confidence w) 1.

(** The runs into which the tops cut a word sequence: a word starts a new
    run when its top is more than ten pixels away from the top of the word
    before it. *)
Fixpoint runs (prev : Z) (cur : list Word) (ws : list Word) : list (list Word) :=
  match ws with
  | [] => match cur with [] => [] | _ => [cur] end
  | w :: rest =>
    if (10 <? Z.abs (word_top w - prev))
       && match cur with [] => false | _ => true end
    then cur :: runs (word_top w) [w] rest
    else runs (word_top w) (cur ++ [w]) rest
  end.

(** Consecutive words of a run are at most ten pixels apart vertically. *)
Fixpoint chained (ws : list Word) : Prop :=
  match ws with
  | w1 :: rest =>
    match rest with
    | w2 :: _ => Z.abs (word_top w2 - word_top w1) <= 10 /\ chained rest
    | [] => True
    end
  | [] => True
  end.

(** Between two consecutive runs the top jumps by more than ten pixels. *)
Fixpoint separated (gs : list (list Word)) : Prop :=
  match gs with
  | g1 :: rest =>
    match rest with
    | g2 :: _ =>
      (exists a b, last g1 = Some a /\ head g2 = Some b
                   /\ 10 < Z.abs (word_top b - word_top a))
      /\ separated rest
    | [] => True
    end
  | [] => True
  end.

Definition join_texts (ws : list Word) : string :=
  PyStr.join " " (map word_text ws).

(** Invariants of the loop: the text of the line in progress is the
    space-joined text of its words, none of which is empty. *)
Definition words_named (ws : list Word) : Prop :=
  Forall (fun w => PyStr.truthy (word_text w) = true) ws.

Definition line_state_ok (ls : LineState) : Prop :=
  current_line_text ls = join_texts (current_line_words ls)
  /\ words_named (current_line_words ls).

(** What the grouper guarantees of a finalized line. *)
Definition line_ok (l : TextLine) : Prop :=
  line_words l <> []
  /\ line_text l = join_texts (line_words l)
  /\ line_confidence l = line_mean_confidence (line_words l).

Definition pending (ws : list Word) : list (list Word) :=
  match ws with [] => [] | _ => [ws] end.

Definition words_of_items (data : OcrData) (items : list (nat * string))
  : list Word :=
  omap (word_of_item data) items.

(** The top of the first item that is not blank. *)
Fixpoint first_top (data : OcrData) (items : list (nat * string)) : option Z :=
  match items with
  | [] => None
  | (i, word) :: rest =>
    if nonblank word then nth_error (data_top data) i else first_top data rest
  end.

(** Three words of which the last has no coordinates. *)
Definition truncated_scan : Scan :=
  mkScan (1000, 1500)
         (mkOcr ["Invoice"; "Total"; "Due"] [10; 200] [10; 50] [30; 30] [20; 20]
                [90%Q; 80%Q])
         None.

(** A title at the top of a 1000 x 1500 page and a page number at its
    bottom. *)
Definition top_and_bottom_scan : Scan :=
  mkScan (1000, 1500)
         (mkOcr ["Report"; "7"] [40; 1450] [400; 490] [200; 20] [30; 20]
                [95%Q; 85%Q])
         None.

(* ===================================================================== *)
(** ** Properties of layout segmentation                                   *)
(* ===================================================================== *)

Lemma Qltb_lt (x y : Q) : Qltb x y = true <-> (x < y)%Q.
Proof.
  unfold Qltb. rewrite negb_true_iff, <- not_true_iff_false, Qle_bool_iff.
  split; [apply Qnot_le_lt | apply Qlt_not_le].
Qed.

Lemma Qltb_ge (x y : Q) : Qltb x y = false <-> (y <= x)%Q.
Proof.
  unfold Qltb. rewrite negb_false_iff. apply Qle_bool_iff.
Qed.

Lemma app_one_neq {A : Type} (l : list A) (x : A) : l ++ [x] <> l.
Proof.
  intros H. apply (f_equal (@List.length A)) in H.
  rewrite length_app in H. simpl in H. lia.
Qed.

Ltac app_absurd :=
  match goal with
  | H : ?l ++ [?x] = ?l |- _ => exfalso; exact (app_one_neq l x H)
  | H : ?l = ?l ++ [?x] |- _ => exfalso; exact (app_one_neq l x (eq_sym H))
  end.

Ltac split_ands :=
  repeat match goal with
         | H : _ /\ _ |- _ => destruct H
         end.

Lemma finalize_cases (layout : DocumentLayout) text words bbox :
  let line := new_TextLine text words bbox in
  let l' := _finalize_text_line layout text words bbox in
  ((inject_Z (t1 bbox) < top_third layout)%Q /\ l' = add_header layout line)
  \/ ((top_third layout <= inject_Z (t1 bbox))%Q
      /\ (bottom_third layout < inject_Z (t1 bbox))%Q /\ l' = add_footer layout line)
  \/ ((top_third layout <= inject_Z (t1 bbox))%Q
      /\ (inject_Z (t1 bbox) <= bottom_third layout)%Q /\ l' = add_body layout line).
Proof.
  intros line l'. unfold l', _finalize_text_line. fold line.
  destruct (Qltb (inject_Z (t1 bbox)) (top_third layout)) eqn:Ht.
  - left. split; [now apply Qltb_lt | reflexivity].
  - apply Qltb_ge in Ht.
    destruct (Qltb (bottom_third layout) (inject_Z (t1 bbox))) eqn:Hb.
    + right; left. repeat split; [assumption | now apply Qltb_lt].
    + right; right. repeat split; [assumption | now apply Qltb_ge].
Qed.

Lemma thirds_ordered (layout : DocumentLayout) :
  0 < page_height layout -> (top_third layout < bottom_third layout)%Q.
Proof.
  intros H. unfold top_third, bottom_third, Qlt, Qdiv, Qmult, Qinv, inject_Z.
  simpl. nia.
Qed.

(** C4.  With a known page height [H > 0], a finalized line whose box has
    top [y] goes to the header iff [y < H/3], to the footer iff
    [y > 2H/3] and to the body otherwise; it is appended to exactly one
    of the three sequences. *)
Theorem finalize_three_regions (layout : DocumentLayout) (text : string)
        (words : list Word) (bbox : tuple4) :
  0 < page_height layout ->
  let y := inject_Z (t1 bbox) in
  let H := inject_Z (page_height layout) in
  let line := new_TextLine text words bbox in
  let l' := _finalize_text_line layout text words bbox in
  (placed_in_header layout l' line <-> (y < H / 3)%Q)
  /\ (placed_in_footer layout l' line <-> (2 * H / 3 < y)%Q)
  /\ (placed_in_body layout l' line <-> ~ (y < H / 3)%Q /\ ~ (2 * H / 3 < y)%Q)
  /\ (placed_in_header layout l' line \/ placed_in_body layout l' line
      \/ placed_in_footer layout l' line)
  /\ ~ (placed_in_header layout l' line /\ placed_in_body layout l' line)
  /\ ~ (placed_in_header layout l' line /\ placed_in_footer layout l' line)
  /\ ~ (placed_in_body layout l' line /\ placed_in_footer layout l' line).
Proof.
  intros Hpos y H line l'.
  pose proof (thirds_ordered layout Hpos) as Hord.
  assert (Hb : (bottom_third layout == 2 * H / 3)%Q)
    by (unfold bottom_third, H; field).
  assert (Ht : top_third layout = (H / 3)%Q) by reflexivity.
  rewrite <- Hb, <- Ht.
  unfold placed_in_header, placed_in_body, placed_in_footer.
  destruct (finalize_cases layout text words bbox)
    as [[Hy E] | [(Hy1 & Hy2 & E) | (Hy1 & Hy2 & E)]];
    fold line in E; fold l' in E; rewrite E; simpl.
  - assert (Hnf : ~ (bottom_third layout < y)%Q).
    { intros Hlt. apply (Qlt_irrefl y).
      eapply Qlt_trans; [exact Hy |]. eapply Qlt_trans; eassumption. }
    repeat split; unfold not in *; intros; split_ands; try app_absurd; tauto.
  - assert (Hnh : ~ (y < top_third layout)%Q) by now apply Qle_not_lt.
    repeat split; unfold not in *; intros; split_ands; try app_absurd; tauto.
  - assert (Hnh : ~ (y < top_third layout)%Q) by now apply Qle_not_lt.
    assert (Hnf : ~ (bottom_third layout < y)%Q) by now apply Qle_not_lt.
    repeat split; unfold not in *; intros; split_ands; try app_absurd; tauto.
Qed.

Lemma finalize_three_regions_witness :
  let layout := mkLayout [] [] [] [] 1000 1500 in
  let bbox := (0, 50, 100, 20) in
  let words := [new_Word "Header" (19 # 20) bbox] in
  0 < page_height layout
  /\ (placed_in_header layout (_finalize_text_line layout "Header" words bbox)
                       (new_TextLine "Header" words bbox)
      <-> (inject_Z 50 < inject_Z 1500 / 3)%Q).
Proof.
  split; [reflexivity |].
  apply (finalize_three_regions (mkLayout [] [] [] [] 1000 1500) "Header"
           [new_Word "Header" (19 # 20) (0, 50, 100, 20)] (0, 50, 100, 20)).
  reflexivity.
Defined.

(** C1, as stated, fails: with page height 0 both thresholds are 0, and a
    line whose box has a positive top is appended to the footer; the body
    stays empty. *)
Lemma height0_line_goes_to_footer :
  let layout := new_DocumentLayout in
  let bbox := (0, 50, 100, 20) in
  let words := [new_Word "Total" (19 # 20) bbox] in
  let l' := _finalize_text_line layout "Total" words bbox in
  page_height layout = 0
  /\ body l' = []
  /\ footer l' = [new_TextLine "Total" words bbox]
  /\ ~ placed_in_body layout l' (new_TextLine "Total" words bbox).
Proof.
  cbv zeta. repeat split.
  intros (_ & F & _). vm_compute in F. discriminate F.
Qed.

(** C1, amended.  With page height 0 a finalized line is appended to the
    body iff the top of its box is 0, to the footer iff the top is
    positive and to the header iff the top is negative. *)
Theorem finalize_height0 (layout : DocumentLayout) (text : string)
        (words : list Word) (bbox : tuple4) :
  page_height layout = 0 ->
  let line := new_TextLine text words bbox in
  let l' := _finalize_text_line layout text words bbox in
  (placed_in_body layout l' line <-> t1 bbox = 0)
  /\ (placed_in_footer layout l' line <-> 0 < t1 bbox)
  /\ (placed_in_header layout l' line <-> t1 bbox < 0).
Proof.
  intros H0 line l'.
  assert (Ht : (top_third layout == 0)%Q)
    by (unfold top_third; rewrite H0; reflexivity).
  assert (Hb : (bottom_third layout == 0)%Q)
    by (unfold bottom_third; rewrite H0; reflexivity).
  assert (Hz : forall z : Z, (inject_Z z < 0)%Q <-> z < 0)
    by (intros z; unfold Qlt, inject_Z; simpl; lia).
  assert (Hz' : forall z : Z, (0 < inject_Z z)%Q <-> 0 < z)
    by (intros z; unfold Qlt, inject_Z; simpl; lia).
  assert (Hz'' : forall z : Z, (0 <= inject_Z z)%Q <-> 0 <= z)
    by (intros z; unfold Qle, inject_Z; simpl; lia).
  assert (Hz3 : forall z : Z, (inject_Z z <= 0)%Q <-> z <= 0)
    by (intros z; unfold Qle, inject_Z; simpl; lia).
  unfold placed_in_header, placed_in_body, placed_in_footer.
  destruct (finalize_cases layout text words bbox)
    as [[Hy E] | [(Hy1 & Hy2 & E) | (Hy1 & Hy2 & E)]];
    fold line in E; fold l' in E; rewrite E; simpl;
    rewrite ?Ht, ?Hb in *;
    rewrite ?Hz, ?Hz', ?Hz'', ?Hz3 in *;
    repeat split; intros; split_ands; try app_absurd; try lia; auto.
Qed.

Lemma finalize_height0_witness :
  let layout := new_DocumentLayout in
  let bbox := (0, 50, 100, 20) in
  page_height layout = 0
  /\ (placed_in_footer layout (_finalize_text_line layout "Total" [] bbox)
                       (new_TextLine "Total" [] bbox)
      <-> 0 < 50).
Proof.
  split; [reflexivity |].
  apply (finalize_height0 new_DocumentLayout "Total" [] (0, 50, 100, 20)).
  reflexivity.
Defined.

(* ===================================================================== *)
(** ** Properties of line grouping                                         *)
(* ===================================================================== *)

(** C2 does not hold of the code.  The running box is seeded with the
    first word's [(x, y, width, height)] and is not reset when a line is
    finalized: the first line gets its word's width and height where the
    right and bottom edges belong, and the second line's box still covers
    the first line's word. *)
Theorem line_bbox_is_not_the_union :
  exists l1 l2 : TextLine,
    _extract_layout (scanner true [("page.png", two_line_scan)]) "page.png"
    = Ok (mkLayout [l1; l2] [] [] [] 1000 1500)
    /\ map word_text (line_words l1) = ["Invoice"]
    /\ map word_text (line_words l2) = ["Total"]
    /\ line_bbox l1 = (10, 10, 30, 20)
    /\ words_bbox (line_words l1) = Some (10, 10, 40, 30)
    /\ line_bbox l2 = (10, 10, 80, 220)
    /\ words_bbox (line_words l2) = Some (50, 200, 80, 220).
Proof.
  eexists; eexists. split; [vm_compute; reflexivity |].
  repeat split.
Qed.

(* ===================================================================== *)
(** ** Properties of classification                                        *)
(* ===================================================================== *)

Section Scores.

Variable ext : Externals.
Variable text_lower : string.

Lemma sum_of_ones {A : Type} (l : list A) (acc : Z) :
  fold_left Z.add (map (fun _ => 1) l) acc = acc + Z.of_nat (List.length l).
Proof.
  revert acc. induction l as [| x l IH]; intros acc; simpl.
  - lia.
  - rewrite IH. lia.
Qed.

Lemma count_matches_matching (patterns : list string) :
  count_matches ext text_lower patterns
  = Z.of_nat (matching ext text_lower patterns).
Proof. unfold count_matches, matching. now rewrite sum_of_ones. Qed.

Lemma truediv_nonempty (patterns : list string) :
  patterns <> [] ->
  truediv (inject_Z (count_matches ext text_lower patterns))
          (inject_Z (Z.of_nat (List.length patterns)))
  = Ok (ratio ext text_lower patterns).
Proof.
  intros Hne. unfold truediv.
  destruct (Qeq_bool (inject_Z (Z.of_nat (List.length patterns))) 0) eqn:E.
  - apply Qeq_bool_iff in E. unfold Qeq, inject_Z in E. simpl in E.
    destruct patterns; [congruence | simpl in E; lia].
  - now rewrite count_matches_matching.
Qed.

Lemma dict_set_fresh {K V : Type} `{EqDecision K} (k : K) (v : V)
      (d : list (K * V)) :
  ~ In k (map fst d) -> dict_set k v d = d ++ [(k, v)].
Proof.
  induction d as [| [k' v'] d IH]; simpl; intros Hk; [reflexivity |].
  destruct (decide (k = k')) as [-> | _]; [tauto |].
  rewrite IH; tauto.
Qed.

Lemma score_loop_spec (catalog : list (DocumentType * list string)) :
  forall acc : list (DocumentType * Q),
    Forall (fun e => snd e <> []) catalog ->
    List.NoDup (map fst acc ++ map fst catalog) ->
    score_loop ext text_lower catalog acc
    = Ok (acc ++ map (fun e => (fst e, ratio ext text_lower (snd e))) catalog).
Proof.
  induction catalog as [| [dt ps] catalog IH]; intros acc Hne Hnd; simpl.
  - now rewrite app_nil_r.
  - inversion Hne as [| ? ? Hps Hrest]; subst. simpl in Hps.
    rewrite (truediv_nonempty ps Hps). simpl.
    assert (Hfresh : ~ In dt (map fst acc)).
    { intros Hin. apply List.NoDup_remove_2 in Hnd. apply Hnd.
      apply in_or_app. now left. }
    unfold mbind, result_bind.
    rewrite (dict_set_fresh dt _ acc Hfresh).
    rewrite IH; [now rewrite <- app_assoc | assumption |].
    rewrite map_app. simpl. rewrite <- app_assoc. exact Hnd.
Qed.

End Scores.

Lemma catalog_types_eq :
  catalog_types = [INVOICE; RECEIPT; CONTRACT; FORM; LETTER; REPORT].
Proof. reflexivity. Qed.

Lemma score_loop_catalog (ext : Externals) (text : string) :
  score_loop ext (PyStr.lower text) doc_type_patterns [] = Ok (type_scores ext text).
Proof.
  rewrite score_loop_spec.
  - reflexivity.
  - unfold doc_type_patterns. repeat constructor; discriminate.
  - change (List.NoDup catalog_types). rewrite catalog_types_eq.
    repeat constructor; simpl; intuition discriminate.
Qed.

Lemma type_scores_keys (ext : Externals) (text : string) :
  map fst (type_scores ext text) = catalog_types.
Proof. unfold type_scores, catalog_types. now rewrite map_map. Qed.

Lemma type_scores_get (ext : Externals) (text : string) (dt : DocumentType) :
  In dt catalog_types ->
  dict_get dt (type_scores ext text) = Some (Score ext text dt).
Proof.
  rewrite catalog_types_eq. simpl.
  intros [<- | [<- | [<- | [<- | [<- | [<- | []]]]]]]; reflexivity.
Qed.

Lemma ratio_bounds (ext : Externals) (text_lower : string) (ps : list string) :
  ps <> [] ->
  (ratio ext text_lower ps
   == inject_Z (Z.of_nat (matching ext text_lower ps))
      / inject_Z (Z.of_nat (List.length ps)))%Q
  /\ (0 <= ratio ext text_lower ps)%Q /\ (ratio ext text_lower ps <= 1)%Q.
Proof.
  intros Hne. unfold ratio, py_float.
  assert (Hm : (matching ext text_lower ps <= List.length ps)%nat)
    by apply List.filter_length_le.
  assert (Hl : (0 < List.length ps)%nat)
    by (destruct ps; [congruence | simpl; lia]).
  split; [apply Qred_correct |].
  rewrite Qred_correct.
  set (m := matching ext text_lower ps) in *.
  set (n := List.length ps) in *.
  assert (Hn : (0 < inject_Z (Z.of_nat n))%Q)
    by (unfold Qlt, inject_Z; simpl; lia).
  split.
  - apply Qle_shift_div_l; [exact Hn |].
    unfold Qle, inject_Z; simpl; lia.
  - apply Qle_shift_div_r; [exact Hn |].
    unfold Qle, inject_Z; simpl; lia.
Qed.

Lemma max_from_first_max {A : Type} (key : A -> Q) :
  forall (rest : list A) (best : A),
  exists l1 l2 : list A,
    best :: rest = l1 ++ max_from key best rest :: l2
    /\ Forall (fun x => (key x < key (max_from key best rest))%Q) l1
    /\ Forall (fun x => (key x <= key (max_from key best rest))%Q) l2.
Proof.
  induction rest as [| x rest IH]; intros best; simpl.
  - exists [], []. repeat split; constructor.
  - destruct (Qltb (key best) (key x)) eqn:E.
    + apply Qltb_lt in E.
      destruct (IH x) as (l1 & l2 & Heq & H1 & H2).
      exists (best :: l1), l2. split; [simpl; now rewrite Heq |].
      split; [| exact H2].
      constructor; [| exact H1].
      destruct l1 as [| y l1]; simpl in Heq.
      * injection Heq as Hx _. now rewrite <- Hx.
      * injection Heq as Hx _. subst y.
        inversion H1; subst. eapply Qlt_trans; eassumption.
    + apply Qltb_ge in E.
      destruct (IH best) as (l1 & l2 & Heq & H1 & H2).
      destruct l1 as [| y l1]; simpl in Heq.
      * injection Heq as Hb Hr.
        exists [], (x :: l2). split; [simpl; congruence |].
        split; [constructor |].
        constructor; [now rewrite <- Hb | exact H2].
      * injection Heq as Hb Hr. subst y.
        exists (best :: x :: l1), l2. split; [simpl; congruence |].
        inversion H1; subst.
        split; [| exact H2].
        constructor; [assumption |].
        constructor; [| assumption].
        eapply Qle_lt_trans; eassumption.
Qed.

Lemma scores_get_Score (ext : Externals) (text : string) (dt : DocumentType) :
  In dt catalog_types ->
  scores_get (type_scores ext text) dt = Score ext text dt.
Proof.
  intros Hin. unfold scores_get. now rewrite type_scores_get.
Qed.

(** The statement [best_type = max(scores, key=scores.get)]: the winner is
    the first type of the catalog order whose score no type exceeds. *)
Lemma best_of_first_max (ext : Externals) (text : string) :
  exists (best : DocumentType) (before after : list DocumentType),
    best_of (type_scores ext text) = Ok best
    /\ catalog_types = before ++ best :: after
    /\ (forall t, In t before -> (Score ext text t < Score ext text best)%Q)
    /\ (forall t, In t after -> (Score ext text t <= Score ext text best)%Q).
Proof.
  unfold best_of. rewrite type_scores_keys, catalog_types_eq. simpl.
  destruct (max_from_first_max (scores_get (type_scores ext text))
              [RECEIPT; CONTRACT; FORM; LETTER; REPORT] INVOICE)
    as (l1 & l2 & Heq & H1 & H2).
  set (best := max_from _ _ _) in *.
  assert (Hall : forall t, In t (l1 ++ best :: l2) -> In t catalog_types)
    by (intros t Ht; rewrite <- Heq in Ht; exact Ht).
  assert (Hbest : In best catalog_types)
    by (apply Hall, in_or_app; right; now left).
  exists best, l1, l2. split; [reflexivity |]. split; [exact Heq |].
  rewrite List.Forall_forall in H1, H2.
  split; intros t Ht.
  - rewrite <- (scores_get_Score ext text t), <- (scores_get_Score ext text best);
      [now apply H1 | exact Hbest | apply Hall, in_or_app; now left].
  - rewrite <- (scores_get_Score ext text t), <- (scores_get_Score ext text best);
      [now apply H2 | exact Hbest | apply Hall, in_or_app; right; now right].
Qed.

Lemma classify_unfold (ext : Externals) (text : string) (best : DocumentType) :
  best_of (type_scores ext text) = Ok best ->
  In best catalog_types ->
  _classify_document_type ext text
  = Ok (if Qltb (Score ext text best) threshold then UNKNOWN else best,
        Score ext text best).
Proof.
  intros Hbest Hin. unfold _classify_document_type.
  rewrite score_loop_catalog. unfold mbind, result_bind. rewrite Hbest.
  unfold dict_getitem. rewrite (type_scores_get ext text best Hin).
  now destruct (Qltb (Score ext text best) threshold).
Qed.

Lemma threshold_lt (q : Q) : Qltb q threshold = true <-> (q < 0.2)%Q.
Proof.
  rewrite Qltb_lt. unfold threshold, py_float. now rewrite Qred_correct.
Qed.

Lemma ratio_no_match (ext : Externals) (text_lower : string) (ps : list string) :
  (forall p, In p ps -> re_search ext p text_lower = None) ->
  ratio ext text_lower ps = 0%Q.
Proof.
  intros Hnone. unfold ratio, matching.
  replace (List.filter _ ps) with (@nil string).
  - simpl. unfold py_float. change 0%Q with (Qred 0). apply Qred_complete.
    unfold Qdiv. apply Qmult_0_l.
  - symmetry. induction ps as [| p ps IH]; [reflexivity |]. simpl.
    rewrite (Hnone p) by now left. simpl. apply IH.
    intros q Hq. apply Hnone. now right.
Qed.

Lemma Score_no_match (ext : Externals) (text : string) (dt : DocumentType) :
  (forall t ps p, In (t, ps) doc_type_patterns -> In p ps ->
                  re_search ext p (PyStr.lower text) = None) ->
  Score ext text dt = 0%Q.
Proof.
  intros Hnone. unfold Score.
  destruct (dict_get dt doc_type_patterns) as [ps |] eqn:E; [| reflexivity].
  apply ratio_no_match. intros p Hp. apply (Hnone dt ps p); [| exact Hp].
  clear -E. induction doc_type_patterns as [| [k v] d IH]; simpl in *; [discriminate |].
  destruct (decide (dt = k)) as [-> | _]; [left; congruence | right; auto].
Qed.

(** C3, as stated, fails on the catalog sizes: the contract catalog has
    six patterns and the letter catalog four. *)
Lemma catalogs_are_not_all_of_size_5 :
  dict_get CONTRACT doc_type_patterns
  = Some ["agreement|contract"; "party|parties"; "whereas"; "hereinafter";
          "signature|signed"; "effective\s*date"]
  /\ ~ (forall dt ps, In (dt, ps) doc_type_patterns -> List.length ps = 5%nat).
Proof.
  split; [reflexivity |].
  intros H.
  specialize (H CONTRACT ["agreement|contract"; "party|parties"; "whereas";
                          "hereinafter"; "signature|signed"; "effective\s*date"]).
  simpl in H. discriminate H. tauto.
Qed.

(** C3, amended.  The catalogs of invoice, receipt, form and report hold
    five patterns, that of contract six and that of letter four; the
    score the classifier stores for a type is the number of the type's
    patterns that match the lowercased text divided by the size of the
    type's catalog, a value between 0 and 1. *)
Theorem catalog_sizes_and_scores (ext : Externals) (text : string) :
  map (fun e => (fst e, List.length (snd e))) doc_type_patterns
  = [(INVOICE, 5%nat); (RECEIPT, 5%nat); (CONTRACT, 6%nat);
     (FORM, 5%nat); (LETTER, 4%nat); (REPORT, 5%nat)]
  /\ exists scores : list (DocumentType * Q),
      score_loop ext (PyStr.lower text) doc_type_patterns [] = Ok scores
      /\ forall dt ps,
          In (dt, ps) doc_type_patterns ->
          exists s : Q,
            dict_get dt scores = Some s
            /\ (s == inject_Z (Z.of_nat (matching ext (PyStr.lower text) ps))
                     / inject_Z (Z.of_nat (List.length ps)))%Q
            /\ (0 <= s)%Q /\ (s <= 1)%Q.
Proof.
  split; [reflexivity |].
  exists (type_scores ext text). split; [apply score_loop_catalog |].
  intros dt ps Hin.
  assert (Hdt : In dt catalog_types) by (apply (in_map fst) in Hin; exact Hin).
  assert (Hget : dict_get dt doc_type_patterns = Some ps).
  { unfold doc_type_patterns in *. simpl in Hin.
    repeat (destruct Hin as [Hin | Hin]; [injection Hin as <- <-; reflexivity |]).
    destruct Hin. }
  exists (Score ext text dt). split; [now apply type_scores_get |].
  unfold Score. rewrite Hget. apply ratio_bounds.
  apply (in_map snd) in Hin. simpl in Hin.
  intros ->. unfold doc_type_patterns in Hin. simpl in Hin.
  repeat (destruct Hin as [Hin | Hin]; [discriminate Hin |]). destruct Hin.
Qed.

(** C5.  If the maximal score over the types is strictly below 0.2 the
    classifier returns UNKNOWN with that score; when no pattern of any
    type matches, it returns UNKNOWN with confidence 0.0. *)
Theorem classify_below_threshold (ext : Externals) (text : string) :
  exists best : DocumentType,
    In best catalog_types
    /\ (forall t, In t catalog_types -> (Score ext text t <= Score ext text best)%Q)
    /\ ((Score ext text best < 0.2)%Q ->
        _classify_document_type ext text = Ok (UNKNOWN, Score ext text best))
    /\ ((forall t ps p, In (t, ps) doc_type_patterns -> In p ps ->
                        re_search ext p (PyStr.lower text) = None) ->
        _classify_document_type ext text = Ok (UNKNOWN, 0%Q)).
Proof.
  destruct (best_of_first_max ext text)
    as (best & before & after & Hbest & Hcat & Hlt & Hle).
  assert (Hin : In best catalog_types)
    by (rewrite Hcat; apply in_or_app; right; now left).
  exists best. split; [exact Hin |].
  assert (Hcl := classify_unfold ext text best Hbest Hin).
  split; [| split].
  - intros t Ht. rewrite Hcat in Ht. apply in_app_or in Ht.
    destruct Ht as [Ht | [<- | Ht]].
    + now apply Qlt_le_weak, Hlt.
    + apply Qle_refl.
    + now apply Hle.
  - intros Hlow. apply threshold_lt in Hlow. now rewrite Hcl, Hlow.
  - intros Hnone. rewrite Hcl, (Score_no_match ext text best Hnone).
    reflexivity.
Qed.

(** C9.  The classifier is a function of the text, and among the types
    that share the maximal score it selects the one that comes first in
    the catalog order invoice, receipt, contract, form, letter, report:
    every type before the selected one scores strictly less, every type
    after it scores at most as much.  The selected type is returned
    unless its score is below the threshold. *)
Theorem classify_selects_first_maximal (ext : Externals) (text : string) :
  exists (best : DocumentType) (before after : list DocumentType),
    [INVOICE; RECEIPT; CONTRACT; FORM; LETTER; REPORT] = before ++ best :: after
    /\ map fst doc_type_patterns = before ++ best :: after
    /\ (forall t, In t before -> (Score ext text t < Score ext text best)%Q)
    /\ (forall t, In t after -> (Score ext text t <= Score ext text best)%Q)
    /\ best_of (type_scores ext text) = Ok best
    /\ _classify_document_type ext text
       = Ok (if Qltb (Score ext text best) threshold then UNKNOWN else best,
             Score ext text best)
    /\ forall r1 r2,
        _classify_document_type ext text = r1 ->
        _classify_document_type ext text = r2 -> r1 = r2.
Proof.
  destruct (best_of_first_max ext text)
    as (best & before & after & Hbest & Hcat & Hlt & Hle).
  assert (Hin : In best catalog_types)
    by (rewrite Hcat; apply in_or_app; right; now left).
  exists best, before, after.
  split; [now rewrite <- Hcat |]. split; [exact Hcat |].
  split; [exact Hlt |]. split; [exact Hle |]. split; [exact Hbest |].
  split; [now apply classify_unfold | congruence].
Qed.

(* ===================================================================== *)
(** ** Properties of field extraction                                      *)
(* ===================================================================== *)

Lemma match_value_first_group (m : Re.Match) (v : string) :
  match_value m = Some v <-> first_group_or_whole m v.
Proof.
  unfold match_value, first_group_or_whole.
  destruct (Re.groups m) as [| g rest]; split.
  - intros [= <-]. now left.
  - intros [[_ ->] | [rest [=]]]. reflexivity.
  - intros ->. right. now exists rest.
  - intros [[[=] _] | [rest' [= -> _]]]. reflexivity.
Qed.

Lemma groups_participate_spec (ext : Externals) (text_lower : string) :
  groups_participate ext text_lower = true ->
  forall name pattern m,
    In (name, pattern) field_patterns ->
    re_search ext pattern text_lower = Some m ->
    exists v, match_value m = Some v.
Proof.
  unfold groups_participate. rewrite forallb_forall.
  intros H name pattern m Hin Hm. specialize (H _ Hin). simpl in H.
  rewrite Hm in H. apply bool_decide_eq_true_1 in H.
  destruct H as [v Hv]. now exists v.
Qed.

Section FieldsLoop.

Variable ext : Externals.
Variable text_lower : string.

Lemma fields_loop_spec (catalog : list (string * string)) :
  forall acc : gmap string ExtractedField,
    List.NoDup (map fst catalog) ->
    (forall name pattern m,
        In (name, pattern) catalog ->
        re_search ext pattern text_lower = Some m ->
        exists v, match_value m = Some v) ->
    exists fields : gmap string ExtractedField,
      fields_loop ext text_lower catalog acc = Ok fields
      /\ (forall name pattern,
             In (name, pattern) catalog ->
             entry_ok ext text_lower fields acc name pattern)
      /\ (forall name, ~ In name (map fst catalog) -> fields !! name = acc !! name).
Proof.
  induction catalog as [| [n p] catalog IH]; intros acc Hnd Hg.
  - exists acc. simpl. repeat split. intros ? ? [].
  - simpl in Hnd. inversion Hnd as [| ? ? Hfresh Hnd']; subst.
    assert (Hg' : forall name pattern m,
               In (name, pattern) catalog ->
               re_search ext pattern text_lower = Some m ->
               exists v, match_value m = Some v)
      by (intros name pattern m Hin; apply (Hg name pattern m); now right).
    assert (Hother : forall name pattern, In (name, pattern) catalog -> name <> n).
    { intros name pattern Hin ->. apply Hfresh.
      now apply (in_map fst) in Hin. }
    simpl. destruct (re_search ext p text_lower) as [m |] eqn:Hm.
    + destruct (Hg n p m (or_introl eq_refl) Hm) as [v Hv].
      rewrite Hv. simpl.
      destruct (IH (<[n := mkField n (PyStr.strip v) regex_confidence "regex"]> acc)
                   Hnd' Hg') as (fields & Hrun & Hin & Hout).
      exists fields. split; [exact Hrun |]. split.
      * intros name pattern [[= <- <-] | Hin'].
        -- unfold entry_ok. rewrite Hm. exists v. split; [exact Hv |].
           rewrite (Hout n Hfresh). apply lookup_insert_eq.
        -- specialize (Hin name pattern Hin'). unfold entry_ok in *.
           destruct (re_search ext pattern text_lower); [exact Hin |].
           rewrite Hin. apply lookup_insert_ne.
           intros E. now apply (Hother name pattern Hin').
      * intros name Hname. simpl in Hname.
        rewrite (Hout name) by tauto.
        apply lookup_insert_ne. tauto.
    + destruct (IH acc Hnd' Hg') as (fields & Hrun & Hin & Hout).
      exists fields. split; [exact Hrun |]. split.
      * intros name pattern [[= <- <-] | Hin'].
        -- unfold entry_ok. rewrite Hm. now apply Hout.
        -- now apply Hin.
      * intros name Hname. simpl in Hname. apply Hout. tauto.
Qed.

End FieldsLoop.

Lemma field_names_distinct : List.NoDup (map fst field_patterns).
Proof.
  apply NoDup_ListNoDup.
  apply (bool_decide_unpack (NoDup (map fst field_patterns))).
  vm_compute. reflexivity.
Qed.

(** C7.  For every text and every field of the catalog, the result of
    [_extract_key_fields] holds the field iff the field's pattern matches
    the lowercased text; the entry then carries the stripped first capture
    group (the whole match for a pattern without group), confidence 0.85
    and source "regex".  A field whose pattern does not match is absent,
    and no name outside the catalog is present. *)
Theorem extract_key_fields_spec (ext : Externals) (text : string)
        (layout : DocumentLayout) :
  groups_participate ext (PyStr.lower text) = true ->
  exists fields : gmap string ExtractedField,
    _extract_key_fields ext text layout = Ok fields
    /\ (forall name pattern,
           In (name, pattern) field_patterns ->
           (is_Some (fields !! name)
            <-> is_Some (re_search ext pattern (PyStr.lower text)))
           /\ (forall m,
                  re_search ext pattern (PyStr.lower text) = Some m ->
                  exists v,
                    first_group_or_whole m v
                    /\ fields !! name
                       = Some (mkField name (PyStr.strip v) (py_float 0.85%Q) "regex"))
           /\ (re_search ext pattern (PyStr.lower text) = None ->
               fields !! name = None))
    /\ (forall name, is_Some (fields !! name) -> In name (map fst field_patterns)).
Proof.
  intros Hg.
  destruct (fields_loop_spec ext (PyStr.lower text) field_patterns ∅
              field_names_distinct (groups_participate_spec ext _ Hg))
    as (fields & Hrun & Hin & Hout).
  exists fields. split; [exact Hrun |]. split.
  - intros name pattern Hcat. specialize (Hin name pattern Hcat).
    unfold entry_ok in Hin.
    destruct (re_search ext pattern (PyStr.lower text)) as [m |] eqn:Hm.
    + destruct Hin as (v & Hv & Hf). split; [| split].
      * rewrite Hf. split; intros _; eexists; reflexivity.
      * intros m' [= <-]. exists v. split; [| exact Hf].
        now apply match_value_first_group.
      * discriminate.
    + rewrite lookup_empty in Hin. split; [| split].
      * rewrite Hin. split; intros [x Hx]; discriminate Hx.
      * discriminate.
      * intros _. exact Hin.
  - intros name Hsome.
    destruct (in_dec string_dec name (map fst field_patterns)) as [Hyes | Hno];
      [exact Hyes |].
    rewrite (Hout name Hno), lookup_empty in Hsome.
    destruct Hsome as [x Hx]. discriminate Hx.
Qed.

Lemma extract_key_fields_spec_witness :
  groups_participate text_only (PyStr.lower "Contact: support@example.com") = true
  /\ exists fields : gmap string ExtractedField,
      _extract_key_fields text_only "Contact: support@example.com" new_DocumentLayout
      = Ok fields
      /\ fields !! "email"
         = Some (mkField "email" "support@example.com" (17 # 20) "regex")
      /\ fields !! "phone" = None.
Proof.
  split; [vm_compute; reflexivity |].
  destruct (extract_key_fields_spec text_only "Contact: support@example.com"
              new_DocumentLayout) as (fields & Hrun & Hin & _);
    [vm_compute; reflexivity |].
  exists fields. split; [exact Hrun |]. split.
  - destruct (Hin "email" "([A-Za-z0-9._%+-]+@[A-Za-z0-9.-]+\.[A-Z|a-z]{2,})")
      as (_ & Hval & _); [simpl; tauto |].
    destruct (Hval (Re.mkMatch "support@example.com" [Some "support@example.com"]))
      as (v & Hv & Hf); [vm_compute; reflexivity |].
    destruct Hv as [[[=] _] | [rest [= <- _]]]. exact Hf.
  - destruct (Hin "phone" "(?:phone|tel)(?:ephone)?\s*[:=]?\s*([\d\-\(\)]+)")
      as (_ & _ & Hnone); [simpl; tauto |].
    apply Hnone. vm_compute. reflexivity.
Defined.

(* ===================================================================== *)
(** ** Properties of table detection                                       *)
(* ===================================================================== *)

Lemma wrap32_small (z : Z) : - 2 ^ 31 <= z < 2 ^ 31 -> wrap32 z = z.
Proof.
  intros H. unfold wrap32. rewrite Z.mod_small; lia.
Qed.

Lemma abs32_sub32_small (a b : Z) :
  Z.abs (a - b) < 5 -> abs32 (sub32 a b) = Z.abs (a - b).
Proof.
  intros H. unfold abs32, sub32.
  rewrite (wrap32_small (a - b)) by lia.
  apply wrap32_small. lia.
Qed.

Lemma len_filter_insert {A : Type} (f : A -> bool) (l1 l2 : list A) (x : A) :
  f x = true ->
  len (List.filter f (l1 ++ x :: l2)) = len (List.filter f (l1 ++ l2)) + 1.
Proof.
  intros Hx. unfold len.
  rewrite !List.filter_app. simpl. rewrite Hx.
  rewrite !length_app. simpl. lia.
Qed.

Lemma repeat_range_shape {A : Type} (x : A) (n : Z) :
  0 <= n -> len (repeat_range x n) = n /\ Forall (eq x) (repeat_range x n).
Proof.
  intros Hn. unfold len, repeat_range. split.
  - rewrite repeat_length. lia.
  - apply List.Forall_forall. intros y Hy. symmetry.
    now apply repeat_spec in Hy.
Qed.

Lemma add_tables_tables (ts : list Table) :
  forall layout : DocumentLayout,
    tables (fold_left add_table ts layout) = tables layout ++ ts
    /\ header (fold_left add_table ts layout) = header layout
    /\ body (fold_left add_table ts layout) = body layout
    /\ footer (fold_left add_table ts layout) = footer layout
    /\ page_width (fold_left add_table ts layout) = page_width layout
    /\ page_height (fold_left add_table ts layout) = page_height layout.
Proof.
  induction ts as [| t ts IH]; intros layout; simpl.
  - now rewrite app_nil_r.
  - destruct (IH (add_table layout t)) as (H1 & H2 & H3 & H4 & H5 & H6).
    rewrite H1, H2, H3, H4, H5, H6. simpl.
    now rewrite <- app_assoc.
Qed.

(** C6.  For an image that OpenCV reads, with [h] horizontal and [v]
    vertical segments among the detected ones (none when the detector
    returns [None]), [_detect_tables] appends exactly one table when
    [h > 2] and [v > 2] -- [h - 1] rows, [v - 1] columns, a grid of that
    shape filled with empty strings, the box of the whole image and
    confidence 0.7 -- and appends nothing otherwise. *)
Theorem detect_tables_grid (ext : Externals) (path : string)
        (layout : DocumentLayout) (img edges : ndarray ext)
        (lines : option (list Segment)) :
  HAS_VISION ext = true ->
  cv2_imread ext path = Ok (Some img) ->
  cv2_Canny ext img = Ok edges ->
  cv2_HoughLinesP ext edges = Ok lines ->
  let segments := match lines with Some ls => ls | None => [] end in
  let h := len (h_lines segments) in
  let v := len (v_lines segments) in
  let rows := fst (ndarray_shape ext img) in
  let columns := snd (ndarray_shape ext img) in
  exists (layout' : DocumentLayout) (emitted : list Table),
    _detect_tables ext path layout = Ok layout'
    /\ tables layout' = tables layout ++ emitted
    /\ (2 < h /\ 2 < v ->
        exists cells,
          emitted = [mkTable (h - 1) (v - 1) cells (0, 0, columns, rows) (7 # 10)]
          /\ len cells = h - 1
          /\ Forall (fun row => len row = v - 1 /\ Forall (eq "") row) cells)
    /\ (h <= 2 \/ v <= 2 -> emitted = [])
    /\ (emitted <> [] <-> 2 < h /\ 2 < v).
Proof.
  intros Hvis Hread Hcanny Hhough segments h v rows columns.
  exists (fold_left add_table
                    (tables_of_lines (ndarray_shape ext img) segments) layout),
         (tables_of_lines (ndarray_shape ext img) segments).
  split.
  { unfold _detect_tables, detect_tables_try. rewrite Hvis, Hread. simpl.
    rewrite Hcanny. simpl. rewrite Hhough. simpl.
    unfold segments. destruct lines as [ls |]; reflexivity. }
  split; [apply add_tables_tables |].
  unfold tables_of_lines. fold h v.
  destruct (Z.ltb_spec 2 h) as [Hh | Hh]; destruct (Z.ltb_spec 2 v) as [Hv | Hv];
    simpl.
  - split; [| split].
    + intros _. eexists. split; [reflexivity |].
      destruct (repeat_range_shape (repeat_range "" (v - 1)) (h - 1)) as [Hl Hall];
        [lia |].
      fold h v. split; [exact Hl |].
      fold h v in Hall.
      eapply List.Forall_impl; [| exact Hall].
      intros row <-. apply repeat_range_shape. lia.
    + lia.
    + split; [tauto | discriminate].
  - split; [lia |]. split; [reflexivity |]. split; [congruence | lia].
  - split; [lia |]. split; [reflexivity |]. split; [congruence | lia].
  - split; [lia |]. split; [reflexivity |]. split; [congruence | lia].
Qed.

(** C10.  A segment whose end points differ by less than 5 pixels both
    vertically and horizontally is kept in the horizontal list and in the
    vertical list: wherever it stands among the detected segments it adds
    one to both counts, hence one row and one column to an emitted
    table. *)
Theorem short_segment_counts_twice (l : Segment) (before after : list Segment)
        (shape : Z * Z) :
  Z.abs (t1 l - t3 l) < 5 ->
  Z.abs (t0 l - t2 l) < 5 ->
  let lines := before ++ l :: after in
  In l (h_lines lines) /\ In l (v_lines lines)
  /\ len (h_lines lines) = len (h_lines (before ++ after)) + 1
  /\ len (v_lines lines) = len (v_lines (before ++ after)) + 1
  /\ forall t : Table,
      tables_of_lines shape lines = [t] ->
      table_rows t = len (h_lines (before ++ after))
      /\ table_cols t = len (v_lines (before ++ after)).
Proof.
  intros Hy Hx lines.
  assert (Hh : is_horizontal l = true)
    by (unfold is_horizontal; rewrite abs32_sub32_small by exact Hy;
        now apply Z.ltb_lt).
  assert (Hv : is_vertical l = true)
    by (unfold is_vertical; rewrite abs32_sub32_small by exact Hx;
        now apply Z.ltb_lt).
  assert (Hin : In l lines) by (apply in_or_app; right; now left).
  assert (Hlh := len_filter_insert is_horizontal before after l Hh).
  assert (Hlv := len_filter_insert is_vertical before after l Hv).
  split; [apply List.filter_In; tauto |].
  split; [apply List.filter_In; tauto |].
  split; [exact Hlh |]. split; [exact Hlv |].
  intros t Ht. unfold tables_of_lines in Ht.
  destruct ((2 <? len (h_lines lines)) && (2 <? len (v_lines lines)));
    [| discriminate Ht].
  injection Ht as <-. unfold grid_table. simpl.
  unfold h_lines, v_lines, lines in *. lia.
Qed.

Lemma detect_tables_grid_witness :
  let ext := scanner true [("grid.png", grid_scan)] in
  HAS_VISION ext = true
  /\ cv2_imread ext "grid.png" = Ok (Some grid_scan)
  /\ cv2_Canny ext grid_scan = Ok grid_scan
  /\ cv2_HoughLinesP ext grid_scan = Ok (scan_lines grid_scan)
  /\ exists layout' : DocumentLayout,
      _detect_tables ext "grid.png" new_DocumentLayout = Ok layout'
      /\ tables layout'
         = [mkTable 2 2 [[""; ""]; [""; ""]] (0, 0, 800, 600) (7 # 10)].
Proof.
  cbv zeta. repeat (split; [reflexivity |]).
  destruct (detect_tables_grid (scanner true [("grid.png", grid_scan)]) "grid.png"
              new_DocumentLayout grid_scan grid_scan (scan_lines grid_scan)
              eq_refl eq_refl eq_refl eq_refl)
    as (layout' & emitted & Hrun & Htables & _).
  exists layout'. split; [exact Hrun |].
  vm_compute in Hrun. injection Hrun as <-. reflexivity.
Defined.

Lemma short_segment_counts_twice_witness :
  let l : Segment := (10, 10, 12, 13) in
  Z.abs (t1 l - t3 l) < 5 /\ Z.abs (t0 l - t2 l) < 5
  /\ len (h_lines [(0, 0, 90, 0); l; (0, 0, 0, 90)]) = 1 + 1
  /\ len (v_lines [(0, 0, 90, 0); l; (0, 0, 0, 90)]) = 1 + 1.
Proof.
  cbv zeta. split; [reflexivity |]. split; [reflexivity |].
  destruct (short_segment_counts_twice (10, 10, 12, 13) [(0, 0, 90, 0)]
              [(0, 0, 0, 90)] (600, 800) eq_refl eq_refl)
    as (_ & _ & Hh & Hv & _).
  split; [exact Hh | exact Hv].
Defined.

(* ===================================================================== *)
(** ** Properties of the pipeline                                          *)
(* ===================================================================== *)

Lemma finalize_keeps (layout : DocumentLayout) text words bbox :
  tables (_finalize_text_line layout text words bbox) = tables layout
  /\ page_width (_finalize_text_line layout text words bbox) = page_width layout
  /\ page_height (_finalize_text_line layout text words bbox) = page_height layout.
Proof.
  unfold _finalize_text_line.
  destruct (Qltb _ _); [| destruct (Qltb _ _)]; repeat split.
Qed.

Lemma loop_body_keeps (data : OcrData) (i : nat) (word : string)
      (st st' : DocumentLayout * LineState) :
  loop_body data i word st = Ok st' -> tables (fst st') = tables (fst st).
Proof.
  unfold loop_body. destruct (negb _); [now intros [= <-] |].
  destruct (getitem (data_top data) i) as [y |]; [| discriminate].
  destruct (getitem (data_left data) i) as [x |]; [| discriminate].
  destruct (getitem (data_width data) i) as [w |]; [| discriminate].
  destruct (getitem (data_height data) i) as [h |]; [| discriminate].
  destruct (getitem (data_conf data) i) as [c |]; [| discriminate].
  simpl. destruct st as [layout ls].
  destruct (_ && _); intros [= <-]; simpl; [apply finalize_keeps | reflexivity].
Qed.

Lemma group_words_keeps (data : OcrData) (items : list (nat * string)) :
  forall st : DocumentLayout * LineState,
    tables (fst (fst (group_words data items st))) = tables (fst st).
Proof.
  induction items as [| [i word] items IH]; intros st; simpl; [reflexivity |].
  destruct (loop_body data i word st) as [st' |] eqn:E; [| reflexivity].
  rewrite IH. now apply (loop_body_keeps data i word).
Qed.

Lemma layout_of_data_keeps (data : OcrData) (layout : DocumentLayout) :
  tables (fst (layout_of_data data layout)) = tables layout.
Proof.
  unfold layout_of_data.
  pose proof (group_words_keeps data (enumerate (data_text data))
                                (layout, initial_line_state)) as H.
  destruct (group_words _ _ _) as [[l ls] [e |]]; simpl in *; [exact H |].
  destruct (PyStr.truthy _); simpl; [| exact H].
  destruct (finalize_keeps l (current_line_text ls) (current_line_words ls)
                           (current_line_bbox ls)) as [Ht _].
  now rewrite Ht.
Qed.

(** [_extract_layout] returns a layout whatever the outside world does. *)
Lemma extract_layout_returns (ext : Externals) (path : string) :
  exists layout : DocumentLayout,
    _extract_layout ext path = Ok layout
    /\ tables layout = []
    /\ (HAS_VISION ext = false -> layout = new_DocumentLayout)
    /\ (forall e, Image_open ext path = Raise e -> layout = new_DocumentLayout).
Proof.
  unfold _extract_layout, extract_layout_try.
  destruct (HAS_VISION ext); simpl.
  - destruct (Image_open ext path) as [img | e].
    + destruct (image_to_data ext img) as [data | e].
      * pose proof (layout_of_data_keeps data
                      (set_page_size new_DocumentLayout (Image_size ext img))) as H.
        destruct (layout_of_data _ _) as [l [e |]]; simpl in H;
          exists l; repeat split; try exact H; try discriminate.
      * eexists. repeat split; try discriminate.
    + exists new_DocumentLayout. repeat split; try discriminate.
  - exists new_DocumentLayout. repeat split.
Qed.

(** [_detect_tables] returns whatever the outside world does, and leaves
    the lines and the page size alone. *)
Lemma detect_tables_returns (ext : Externals) (path : string)
      (layout : DocumentLayout) :
  exists layout' : DocumentLayout,
    _detect_tables ext path layout = Ok layout'
    /\ header layout' = header layout /\ body layout' = body layout
    /\ footer layout' = footer layout
    /\ page_width layout' = page_width layout
    /\ page_height layout' = page_height layout
    /\ (HAS_VISION ext = false -> layout' = layout)
    /\ (cv2_imread ext path = Ok None \/ (exists e, cv2_imread ext path = Raise e) ->
        layout' = layout).
Proof.
  unfold _detect_tables, detect_tables_try.
  destruct (HAS_VISION ext); simpl;
    [| exists layout; repeat split; reflexivity].
  destruct (cv2_imread ext path) as [[img |] | e]; simpl;
    try (exists layout; repeat split; reflexivity).
  destruct (cv2_Canny ext img) as [edges | e]; simpl;
    [| exists layout; repeat split; try reflexivity;
       intros [[=] | [e' [=]]]].
  destruct (cv2_HoughLinesP ext edges) as [[lines |] | e]; simpl;
    try (exists layout; repeat split; try reflexivity;
         intros [[=] | [e' [=]]]).
  destruct (add_tables_tables (tables_of_lines (ndarray_shape ext img) lines) layout)
    as (_ & H2 & H3 & H4 & H5 & H6).
  eexists. split; [reflexivity |].
  repeat split; try assumption; try discriminate.
  intros [[=] | [e' [=]]].
Qed.

(** The classifier returns for every text. *)
Lemma classify_returns (ext : Externals) (text : string) :
  exists (dt : DocumentType) (conf : Q),
    _classify_document_type ext text = Ok (dt, conf).
Proof.
  destruct (best_of_first_max ext text)
    as (best & before & after & Hbest & Hcat & _).
  assert (Hin : In best catalog_types)
    by (rewrite Hcat; apply in_or_app; right; now left).
  rewrite (classify_unfold ext text best Hbest Hin). eauto.
Qed.

(** C8.  [process_document] returns a complete result for every path and
    raises nothing: each stage delivers, the result records the outputs of
    all four stages, and without the vision libraries or with a file that
    cannot be opened the layout is the empty default, the raw text is
    empty and no table is reported. *)
Theorem process_document_never_raises (ext : Externals) (path : string) :
  groups_participate
    ext (PyStr.lower (_extract_raw_text
                        (value_or new_DocumentLayout (_extract_layout ext path))))
  = true ->
  exists (r : DocumentIntelligence) (l0 : DocumentLayout),
    process_document ext path = Ok r
    /\ _extract_layout ext path = Ok l0
    /\ file_path r = path
    /\ raw_text r = _extract_raw_text l0
    /\ _classify_document_type ext (raw_text r) = Ok (doc_type r, type_confidence r)
    /\ _extract_key_fields ext (raw_text r) l0 = Ok (extracted_fields r)
    /\ _detect_tables ext path l0 = Ok (layout r)
    /\ metadata r = mkMetadata (HAS_VISION ext) (now_isoformat ext)
    /\ (HAS_VISION ext = false ->
        layout r = new_DocumentLayout /\ raw_text r = "")
    /\ (forall e, Image_open ext path = Raise e ->
                  header (layout r) = [] /\ body (layout r) = []
                  /\ footer (layout r) = []
                  /\ page_width (layout r) = 0 /\ page_height (layout r) = 0
                  /\ raw_text r = "")
    /\ (cv2_imread ext path = Ok None \/ (exists e, cv2_imread ext path = Raise e) ->
        tables (layout r) = []).
Proof.
  intros Hg.
  destruct (extract_layout_returns ext path) as (l0 & Hl0 & Htab & Hnov & Hopen).
  rewrite Hl0 in Hg. simpl in Hg.
  destruct (classify_returns ext (_extract_raw_text l0)) as (dt & conf & Hcl).
  destruct (fields_loop_spec ext (PyStr.lower (_extract_raw_text l0)) field_patterns ∅
              field_names_distinct (groups_participate_spec ext _ Hg))
    as (fields & Hfields & _).
  destruct (detect_tables_returns ext path l0)
    as (l1 & Hdet & Hh & Hb & Hf & Hpw & Hph & Hdnov & Hdread).
  exists (mkResult path dt conf l1 fields (_extract_raw_text l0)
                   (time_end ext - time_start ext)%Q
                   (mkMetadata (HAS_VISION ext) (now_isoformat ext))), l0.
  split.
  { unfold process_document. rewrite Hl0. simpl. rewrite Hcl. simpl.
    unfold _extract_key_fields. rewrite Hfields. simpl. rewrite Hdet. reflexivity. }
  simpl. repeat (split; [first [reflexivity | assumption] |]).
  split; [| split].
  - intros Hv. rewrite (Hdnov Hv), (Hnov Hv). split; reflexivity.
  - intros e He. rewrite Hh, Hb, Hf, Hpw, Hph, (Hopen e He).
    repeat split.
  - intros Hread. now rewrite (Hdread Hread).
Qed.

Lemma process_document_never_raises_witness :
  groups_participate
    text_only
    (PyStr.lower (_extract_raw_text
                    (value_or new_DocumentLayout
                              (_extract_layout text_only "/nonexistent/path/file.pdf"))))
  = true
  /\ process_document text_only "/nonexistent/path/file.pdf"
     = Ok (mkResult "/nonexistent/path/file.pdf" UNKNOWN 0%Q new_DocumentLayout ∅ ""
                    1%Q (mkMetadata false "2025-01-15T10:00:00")).
Proof.
  split; [vm_compute; reflexivity |].
  destruct (process_document_never_raises text_only "/nonexistent/path/file.pdf")
    as (r & l0 & Hrun & _); [vm_compute; reflexivity |].
  rewrite Hrun. symmetry. vm_compute in Hrun. exact Hrun.
Defined.

(* ===================================================================== *)
(** ** The matcher binds the group of every field pattern                  *)
(* ===================================================================== *)

Lemma rep_loop_sound step (binds : bool) (lo : nat) (hi : option nat)
      (k : list ascii -> Re.captures -> Re.outcome) :
  step_sound binds step ->
  forall (fuel cnt : nat) (s : list ascii) (c : Re.captures) (res : list ascii * Re.captures),
    Re.rep_loop step lo hi k fuel cnt s c = Some res ->
    exists s' c',
      k s' c' = Some res
      /\ (has_group1 c -> has_group1 c')
      /\ (binds = true -> (cnt < lo)%nat -> has_group1 c').
Proof.
  intros Hstep. induction fuel as [| fuel IH]; intros cnt s c res; simpl;
    [discriminate |].
  destruct (Re.below cnt hi).
  - destruct (step s c _) as [res' |] eqn:Hmore.
    + intros [= <-]. apply Hstep in Hmore.
      destruct Hmore as (s1 & c1 & Hk & Hmono & Hb).
      destruct (_ || _); [| discriminate Hk].
      apply IH in Hk. destruct Hk as (s2 & c2 & Hk & Hmono2 & _).
      exists s2, c2. split; [exact Hk |]. split; auto.
    + destruct (Nat.leb_spec lo cnt); [| discriminate].
      intros Hk. exists s, c. split; [exact Hk |]. split; [auto | lia].
  - destruct (Nat.leb_spec lo cnt); [| discriminate].
    intros Hk. exists s, c. split; [exact Hk |]. split; [auto | lia].
Qed.

Lemma exec_sound (r : Re.node) : step_sound (Re.binds_group1 r) (Re.exec r).
Proof.
  induction r as [| ch | | negated items | a IHa b IHb | a IHa b IHb
                  | lo hi a IHa | n a IHa];
    intros s c k res; cbn [Re.exec Re.binds_group1].
  - intros Hk. exists s, c. split; [exact Hk |]. split; [auto | discriminate].
  - destruct s as [| x s]; [discriminate |].
    destruct (Ascii.eqb _ _); [| discriminate].
    intros Hk. exists s, c. split; [exact Hk |]. split; [auto | discriminate].
  - destruct s as [| x s]; [discriminate |].
    destruct (Ascii.eqb _ _); [discriminate |].
    intros Hk. exists s, c. split; [exact Hk |]. split; [auto | discriminate].
  - destruct s as [| x s]; [discriminate |].
    destruct (Re.in_class _ _ _); [| discriminate].
    intros Hk. exists s, c. split; [exact Hk |]. split; [auto | discriminate].
  - intros H. apply IHa in H. destruct H as (s1 & c1 & H & Hm1 & Hb1).
    apply IHb in H. destruct H as (s2 & c2 & H & Hm2 & Hb2).
    exists s2, c2. split; [exact H |]. split; [auto |].
    intros Hor. apply orb_true_iff in Hor. destruct Hor; auto.
  - destruct (Re.exec a s c k) as [res' |] eqn:Ha.
    + intros [= <-]. apply IHa in Ha. destruct Ha as (s1 & c1 & H & Hm1 & Hb1).
      exists s1, c1. split; [exact H |]. split; [auto |].
      intros Hand. apply andb_true_iff in Hand. tauto.
    + intros H. apply IHb in H. destruct H as (s1 & c1 & H & Hm1 & Hb1).
      exists s1, c1. split; [exact H |]. split; [auto |].
      intros Hand. apply andb_true_iff in Hand. tauto.
  - intros H. apply (rep_loop_sound _ _ lo hi k IHa) in H.
    destruct H as (s1 & c1 & H & Hm1 & Hb1).
    exists s1, c1. split; [exact H |]. split; [auto |].
    intros Hand. apply andb_true_iff in Hand. destruct Hand as [Hlo Hb].
    apply Hb1; [exact Hb | now apply Nat.ltb_lt].
  - intros H. apply IHa in H. destruct H as (s1 & c1 & H & Hm1 & Hb1).
    eexists s1, _. split; [exact H |].
    unfold has_group1 in *. simpl.
    destruct (Nat.eqb_spec n 1) as [-> | Hn]; simpl.
    + split; intros _; eexists; reflexivity.
    + split; auto.
Qed.

Lemma scan_group1 (r : Re.node) (ngroups : nat) :
  Re.binds_group1 r = true -> (1 <= ngroups)%nat ->
  forall (s : list ascii) (m : Re.Match),
    Re.scan r ngroups s = Some m -> exists v, match_value m = Some v.
Proof.
  intros Hb Hn.
  assert (Hat : forall s m, Re.match_at r ngroups s = Some m ->
                            exists v, match_value m = Some v).
  { intros s m. unfold Re.match_at.
    destruct (Re.exec r s [] _) as [[s' c'] |] eqn:E; [| discriminate].
    intros [= <-]. apply exec_sound in E.
    destruct E as (s1 & c1 & [= -> ->] & _ & Hhas).
    destruct (Hhas Hb) as [v Hv]. exists v.
    unfold match_value. simpl.
    destruct ngroups as [| n]; [lia |]. simpl. exact Hv. }
  induction s as [| x s IH]; intros m; simpl.
  - destruct (Re.match_at r ngroups []) as [m' |] eqn:E; [| discriminate].
    intros [= <-]. now apply (Hat []).
  - destruct (Re.match_at r ngroups (x :: s)) as [m' |] eqn:E.
    + intros [= <-]. now apply (Hat (x :: s)).
    + apply IH.
Qed.

Lemma search_group1 (pattern text : string) (m : Re.Match) :
  Re.group1_mandatory pattern = true ->
  Re.search pattern text = Some m ->
  exists v, match_value m = Some v.
Proof.
  unfold Re.group1_mandatory, Re.search.
  destruct (Re.compile pattern) as [[r n] |]; [| discriminate].
  intros H. apply andb_true_iff in H. destruct H as [Hn Hb].
  apply Nat.leb_le in Hn. now apply scan_group1.
Qed.

Lemma field_patterns_group1 :
  forallb (fun e => Re.group1_mandatory (snd e)) field_patterns = true.
Proof. vm_compute. reflexivity. Qed.

(** With the matcher of this file for [re], the assumption of the field
    extractor holds for every text. *)
Lemma scanner_groups_participate (vision : bool) (files : list (string * Scan))
      (text_lower : string) :
  groups_participate (scanner vision files) text_lower = true.
Proof.
  unfold groups_participate. apply forallb_forall. intros [name pattern] Hin.
  simpl. destruct (Re.search pattern text_lower) as [m |] eqn:Hm; [| reflexivity].
  apply bool_decide_eq_true_2.
  destruct (search_group1 pattern text_lower m) as [v Hv]; [| exact Hm |].
  - pose proof field_patterns_group1 as Hall.
    rewrite forallb_forall in Hall. exact (Hall _ Hin).
  - rewrite Hv. now exists v.
Qed.

(* ===================================================================== *)
(** ** Scenarios of the test suite, run on the model                       *)
(* ===================================================================== *)

Example catalog_patterns_compile :
  forallb (fun e => forallb (fun p => bool_decide (is_Some (Re.compile p))) (snd e))
          doc_type_patterns
  && forallb (fun e => bool_decide (is_Some (Re.compile (snd e)))) field_patterns = true.
Proof. vm_compute. reflexivity. Qed.

Example classify_invoice :
  _classify_document_type text_only invoice_text = Ok (INVOICE, (4 # 5)%Q).
Proof. vm_compute. reflexivity. Qed.

Example classify_receipt :
  _classify_document_type text_only receipt_text = Ok (RECEIPT, (4 # 5)%Q).
Proof. vm_compute. reflexivity. Qed.

Example classify_contract :
  _classify_document_type text_only contract_text = Ok (CONTRACT, (2 # 3)%Q).
Proof. vm_compute. reflexivity. Qed.

Example classify_form :
  _classify_document_type text_only form_text = Ok (FORM, (4 # 5)%Q).
Proof. vm_compute. reflexivity. Qed.

Example classify_unknown :
  _classify_document_type text_only "Random text with no structure"
  = Ok (UNKNOWN, 0%Q).
Proof. vm_compute. reflexivity. Qed.

Example classify_one_in_six_is_unknown :
  _classify_document_type text_only "whereas" = Ok (UNKNOWN, (1 # 6)%Q).
Proof. vm_compute. reflexivity. Qed.

Example classify_one_in_five_is_kept :
  _classify_document_type text_only "findings" = Ok (REPORT, (1 # 5)%Q).
Proof. vm_compute. reflexivity. Qed.

Example classify_tie_takes_the_earlier_type :
  type_scores text_only "total due by that date"
  = [(INVOICE, 0%Q); (RECEIPT, (1 # 5)%Q); (CONTRACT, 0%Q);
     (FORM, 0%Q); (LETTER, 0%Q); (REPORT, (1 # 5)%Q)]
  /\ _classify_document_type text_only "total due by that date"
     = Ok (RECEIPT, (1 # 5)%Q).
Proof. split; vm_compute; reflexivity. Qed.

Example extract_invoice_number :
  value_or ∅ (_extract_key_fields text_only "Invoice Number: INV-2025-001"
                                  new_DocumentLayout) !! "invoice_number"
  = Some (mkField "invoice_number" "inv-2025-001" (17 # 20) "regex").
Proof. vm_compute. reflexivity. Qed.

Example five_words_two_lines :
  exists l1 l2 : TextLine,
    _extract_layout (scanner true [("page.png", five_word_scan)]) "page.png"
    = Ok (mkLayout [l1; l2] [] [] [] 1000 1500)
    /\ line_text l1 = "Invoice Number: INV-2025-001 Draft"
    /\ line_text l2 = "Total".
Proof.
  eexists; eexists. split; [vm_compute; reflexivity |]. split; reflexivity.
Qed.

Example one_horizontal_five_vertical :
  value_or new_DocumentLayout
           (_detect_tables (scanner true [("ruled.png", ruled_scan)]) "ruled.png"
                           new_DocumentLayout)
  = new_DocumentLayout.
Proof. vm_compute. reflexivity. Qed.

Example process_grid_page :
  exists r : DocumentIntelligence,
    process_document (scanner true [("grid.png", grid_scan)]) "grid.png" = Ok r
    /\ doc_type r = UNKNOWN
    /\ tables (layout r)
       = [mkTable 2 2 [[""; ""]; [""; ""]] (0, 0, 800, 600) (7 # 10)].
Proof.
  eexists. split; [vm_compute; reflexivity |]. split; reflexivity.
Qed.

(** A field whose pattern matches is present even when the stripped group
    is blank: here the group of the recipient pattern captures a single
    line break. *)
Example matched_group_may_strip_to_nothing :
  value_or ∅ (_extract_key_fields text_only ("to " +:+ newline +:+ "1")
                                  new_DocumentLayout) !! "recipient"
  = Some (mkField "recipient" "" (17 # 20) "regex").
Proof. vm_compute. reflexivity. Qed.

(* ===================================================================== *)
(** ** The line grouper on well-formed OCR output                          *)
(* ===================================================================== *)

Lemma string_app_assoc (a b c : string) : (a +:+ b) +:+ c = a +:+ (b +:+ c).
Proof.
  induction a as [| x a IH]; [reflexivity |].
  change (String x ((a +:+ b) +:+ c) = String x (a +:+ (b +:+ c))).
  now rewrite IH.
Qed.

Lemma truthy_app_r (a b : string) :
  PyStr.truthy b = true -> PyStr.truthy (a +:+ b) = true.
Proof. intros Hb. destruct a; [exact Hb | reflexivity]. Qed.

Lemma nonblank_truthy (word : string) :
  nonblank word = true -> PyStr.truthy word = true.
Proof. destruct word; [discriminate | reflexivity]. Qed.

Lemma join_snoc (sep : string) (l : list string) (x : string) :
  PyStr.join sep (l ++ [x])
  = match l with [] => x | _ => PyStr.join sep l +:+ sep +:+ x end.
Proof.
  induction l as [| a l IH]; [reflexivity |].
  destruct l as [| b l]; [reflexivity |].
  change (PyStr.join sep ((a :: b :: l) ++ [x]))
    with (a +:+ sep +:+ PyStr.join sep ((b :: l) ++ [x])).
  rewrite IH.
  change (PyStr.join sep (a :: b :: l)) with (a +:+ sep +:+ PyStr.join sep (b :: l)).
  now rewrite !string_app_assoc.
Qed.

Lemma join_truthy (sep : string) (l : list string) :
  Forall (fun s => PyStr.truthy s = true) l ->
  PyStr.truthy (PyStr.join sep l) = match l with [] => false | _ => true end.
Proof.
  intros H. destruct l as [| a l]; [reflexivity |].
  inversion H as [| ? ? Ha _]; subst.
  destruct l; simpl; [exact Ha |].
  destruct a; [discriminate Ha | reflexivity].
Qed.

Lemma getitem_lt {A : Type} (l : list A) (i : nat) :
  (i < List.length l)%nat -> exists v, getitem l i = Ok v.
Proof.
  intros H. unfold getitem.
  destruct (nth_error l i) as [v |] eqn:E; [now exists v |].
  apply nth_error_None in E. lia.
Qed.

Lemma enumerate_index {A : Type} (l : list A) (i : nat) (x : A) :
  In (i, x) (enumerate l) -> (i < List.length l)%nat.
Proof.
  unfold enumerate. intros H. apply in_combine_l in H.
  apply in_seq in H. lia.
Qed.

Lemma word_at_well_formed (data : OcrData) (i : nat) (word : string) :
  well_formed data ->
  In (i, word) (enumerate (data_text data)) ->
  exists wd, word_at data i word = Ok wd.
Proof.
  intros (H1 & H2 & H3 & H4 & H5) Hin. apply enumerate_index in Hin.
  unfold word_at.
  destruct (getitem_lt (data_top data) i) as [y ->]; [lia |].
  destruct (getitem_lt (data_left data) i) as [x ->]; [lia |].
  destruct (getitem_lt (data_width data) i) as [w ->]; [lia |].
  destruct (getitem_lt (data_height data) i) as [h ->]; [lia |].
  destruct (getitem_lt (data_conf data) i) as [c ->]; [lia |].
  simpl. eauto.
Qed.

Lemma word_at_text (data : OcrData) (i : nat) (word : string) (wd : Word) :
  word_at data i word = Ok wd -> word_text wd = word.
Proof.
  unfold word_at.
  destruct (getitem (data_top data) i); [| discriminate].
  destruct (getitem (data_left data) i); [| discriminate].
  destruct (getitem (data_width data) i); [| discriminate].
  destruct (getitem (data_height data) i); [| discriminate].
  destruct (getitem (data_conf data) i); [| discriminate].
  simpl. now intros [= <-].
Qed.

Lemma loop_body_blank (data : OcrData) (i : nat) (word : string)
      (st : DocumentLayout * LineState) :
  nonblank word = false -> loop_body data i word st = Ok st.
Proof. unfold nonblank, loop_body. now intros ->. Qed.

(** The loop body is [add_word] on the word of the item, and raises what
    the lookups of the item raise. *)
Lemma loop_body_word (data : OcrData) (i : nat) (word : string)
      (st : DocumentLayout * LineState) :
  nonblank word = true ->
  loop_body data i word st
  = match word_at data i word with
    | Ok wd => Ok (add_word wd st)
    | Raise e => Raise e
    end.
Proof.
  unfold nonblank, loop_body, word_at. intros ->. simpl.
  destruct (getitem (data_top data) i) as [y |]; [| reflexivity].
  destruct (getitem (data_left data) i) as [x |]; [| reflexivity].
  destruct (getitem (data_width data) i) as [w |]; [| reflexivity].
  destruct (getitem (data_height data) i) as [h |]; [| reflexivity].
  destruct (getitem (data_conf data) i) as [c |]; [| reflexivity].
  simpl. destruct st as [layout ls]. unfold add_word, word_top. simpl.
  destruct (_ && _); reflexivity.
Qed.

Lemma finalize_all_lines (layout : DocumentLayout) text words bbox :
  all_lines (_finalize_text_line layout text words bbox)
  ≡ₚ all_lines layout ++ [new_TextLine text words bbox].
Proof.
  unfold _finalize_text_line, all_lines.
  destruct (Qltb _ _); [| destruct (Qltb _ _)]; simpl.
  - rewrite <- !app_assoc. apply Permutation_app_head. simpl.
    rewrite (app_assoc (body layout)). apply Permutation_cons_append.
  - now rewrite !app_assoc.
  - rewrite <- !app_assoc. do 2 apply Permutation_app_head. simpl.
    apply Permutation_cons_append.
Qed.

Lemma line_state_truthy (ls : LineState) :
  line_state_ok ls ->
  PyStr.truthy (current_line_text ls)
  = match current_line_words ls with [] => false | _ => true end.
Proof.
  intros [Htext Hnamed]. rewrite Htext. unfold join_texts.
  rewrite join_truthy.
  - now destruct (current_line_words ls).
  - apply List.Forall_forall. intros t Ht. apply in_map_iff in Ht.
    destruct Ht as (w & <- & Hw).
    unfold words_named in Hnamed. rewrite List.Forall_forall in Hnamed. auto.
Qed.

Lemma line_state_snoc (ls : LineState) (wd : Word) (y : Z) (bbox : tuple4) :
  line_state_ok ls -> PyStr.truthy (word_text wd) = true ->
  line_state_ok
    (mkLineState y
                 (current_line_text ls
                  +:+ (if PyStr.truthy (current_line_text ls) then " " else "")
                  +:+ word_text wd)
                 (current_line_words ls ++ [wd]) bbox).
Proof.
  intros Hok Hwd. pose proof (line_state_truthy ls Hok) as Htr.
  destruct Hok as [Htext Hnamed]. split; simpl.
  - rewrite Htr. unfold join_texts. rewrite map_app. simpl. rewrite join_snoc.
    rewrite Htext. unfold join_texts.
    destruct (current_line_words ls); reflexivity.
  - apply Forall_app. split; [exact Hnamed | now constructor].
Qed.

(** The loop on items whose lookups succeed: no exception, the finalized
    lines follow the runs of the tops, and earlier lines stay. *)
Lemma group_words_runs (data : OcrData) :
  forall (items : list (nat * string)) (layout : DocumentLayout) (ls : LineState),
    line_state_ok ls ->
    (forall i word, In (i, word) items -> exists wd, word_at data i word = Ok wd) ->
    exists (fin : list TextLine) (layout' : DocumentLayout) (ls' : LineState),
      group_words data items (layout, ls) = ((layout', ls'), None)
      /\ all_lines layout' ≡ₚ all_lines layout ++ fin
      /\ tables layout' = tables layout
      /\ page_width layout' = page_width layout
      /\ page_height layout' = page_height layout
      /\ line_state_ok ls'
      /\ Forall line_ok fin
      /\ map line_words fin ++ pending (current_line_words ls')
         = runs (current_line_y ls) (current_line_words ls)
                (words_of_items data items)
      /\ (current_line_words ls <> [] \/ words_of_items data items <> [] ->
          current_line_words ls' <> []).
Proof.
  induction items as [| [i word] items IH]; intros layout ls Hok Hitems.
  - exists [], layout, ls. simpl. rewrite app_nil_r.
    repeat split; try reflexivity; try apply Hok; try constructor.
    intros [H | H]; [exact H | now elim H].
  - assert (Hrest : forall j w, In (j, w) items ->
                                exists wd, word_at data j w = Ok wd)
      by (intros j w Hin; apply Hitems; now right).
    assert (Hws : words_of_items data ((i, word) :: items)
                  = match word_of_item data (i, word) with
                    | Some wd => wd :: words_of_items data items
                    | None => words_of_items data items
                    end) by reflexivity.
    rewrite Hws. clear Hws. cbn [group_words]. unfold word_of_item. cbn [fst snd].
    destruct (nonblank word) eqn:Hnb.
    + destruct (Hitems i word (or_introl eq_refl)) as [wd Hwd].
      rewrite (loop_body_word data i word _ Hnb), Hwd.
      assert (Hname : PyStr.truthy (word_text wd) = true)
        by (rewrite (word_at_text data i word wd Hwd); now apply nonblank_truthy).
      pose proof (line_state_truthy ls Hok) as Htr.
      assert (Hr : runs (current_line_y ls) (current_line_words ls)
                        (wd :: words_of_items data items)
                   = if (10 <? Z.abs (word_top wd - current_line_y ls))
                        && match current_line_words ls with
                           | [] => false
                           | _ => true
                           end
                     then current_line_words ls
                          :: runs (word_top wd) [wd] (words_of_items data items)
                     else runs (word_top wd) (current_line_words ls ++ [wd])
                               (words_of_items data items))
        by reflexivity.
      rewrite Hr. clear Hr.
      unfold add_word. rewrite Htr.
      assert (Htop : word_top wd = t1 (word_bbox wd)) by reflexivity.
      destruct (word_bbox wd) as [[[x y] w] h] eqn:Hbox. simpl in Htop.
      rewrite Htop.
      destruct ((10 <? Z.abs (y - current_line_y ls))
                && match current_line_words ls with [] => false | _ => true end)
               eqn:Hcond.
      * set (line := new_TextLine (current_line_text ls) (current_line_words ls)
                                  (current_line_bbox ls)).
        set (ls1 := mkLineState y "" [] (current_line_bbox ls)).
        assert (Hok1 : line_state_ok ls1) by (split; [reflexivity | constructor]).
        pose proof (line_state_snoc ls1 wd y
                      (if Z.eqb (t2 (current_line_bbox ls)) 0 then (x, y, w, h)
                       else (Z.min (t0 (current_line_bbox ls)) x,
                             Z.min (t1 (current_line_bbox ls)) y,
                             Z.max (t2 (current_line_bbox ls)) (x + w),
                             Z.max (t3 (current_line_bbox ls)) (y + h)))
                      Hok1 Hname) as Hok2.
        simpl in Hok2.
        destruct (IH (_finalize_text_line layout (current_line_text ls)
                        (current_line_words ls) (current_line_bbox ls))
                     _ Hok2 Hrest)
          as (fin & layout' & ls' & Hrun & Hperm & Ht & Hw & Hh & Hok' & Hfin & Hruns
              & Hpend).
        destruct (finalize_keeps layout (current_line_text ls)
                    (current_line_words ls) (current_line_bbox ls))
          as (Hk1 & Hk2 & Hk3).
        exists (line :: fin), layout', ls'.
        split; [exact Hrun |]. split.
        { rewrite Hperm, finalize_all_lines. fold line.
          now rewrite <- app_assoc. }
        split; [congruence |]. split; [congruence |]. split; [congruence |].
        split; [exact Hok' |]. split.
        { constructor; [| exact Hfin]. unfold line_ok, line. simpl.
          apply andb_true_iff in Hcond. destruct Hcond as [_ Hne].
          destruct Hok as [Htext _].
          repeat split; [| exact Htext].
          intros E. rewrite E in Hne. discriminate Hne. }
        split; [simpl; f_equal; exact Hruns |].
        intros _. apply Hpend. left. discriminate.
      * pose proof (line_state_snoc ls wd y
                      (if Z.eqb (t2 (current_line_bbox ls)) 0 then (x, y, w, h)
                       else (Z.min (t0 (current_line_bbox ls)) x,
                             Z.min (t1 (current_line_bbox ls)) y,
                             Z.max (t2 (current_line_bbox ls)) (x + w),
                             Z.max (t3 (current_line_bbox ls)) (y + h)))
                      Hok Hname) as Hok2.
        destruct (IH layout _ Hok2 Hrest)
          as (fin & layout' & ls' & Hrun & Hperm & Ht & Hw & Hh & Hok' & Hfin & Hruns
              & Hpend).
        exists fin, layout', ls'.
        split; [exact Hrun |]. repeat (split; [assumption |]).
        intros _. apply Hpend. left. simpl. now destruct (current_line_words ls).
    + rewrite (loop_body_blank data i word _ Hnb).
      apply (IH layout ls Hok Hrest).
Qed.

Lemma runs_concat (ws : list Word) :
  forall (prev : Z) (cur : list Word), concat (runs prev cur ws) = cur ++ ws.
Proof.
  induction ws as [| w ws IH]; intros prev cur; simpl.
  - destruct cur; simpl; [reflexivity | now rewrite !app_nil_r].
  - destruct (_ && _); simpl; rewrite IH; [reflexivity |].
    now rewrite <- app_assoc.
Qed.

Lemma runs_nonempty (ws : list Word) :
  forall (prev : Z) (cur : list Word),
    Forall (fun g => g <> []) (runs prev cur ws).
Proof.
  induction ws as [| w ws IH]; intros prev cur; simpl.
  - destruct cur; constructor; [discriminate | constructor].
  - destruct (10 <? _); simpl; [| apply IH].
    destruct cur; simpl; [apply IH |].
    constructor; [discriminate | apply IH].
Qed.

Lemma runs_head (ws : list Word) :
  forall (prev : Z) (cur : list Word),
    cur <> [] ->
    exists more gs, runs prev cur ws = (cur ++ more) :: gs.
Proof.
  induction ws as [| w ws IH]; intros prev cur Hne; simpl.
  - exists [], []. rewrite app_nil_r. now destruct cur.
  - destruct (_ && _).
    + exists [], (runs (word_top w) [w] ws). now rewrite app_nil_r.
    + destruct (IH (word_top w) (cur ++ [w])) as (more & gs & E);
        [now destruct cur |].
      exists (w :: more), gs. rewrite E. now rewrite <- app_assoc.
Qed.

Lemma chained_snoc (cur : list Word) (a w : Word) :
  chained cur -> last cur = Some a ->
  Z.abs (word_top w - word_top a) <= 10 ->
  chained (cur ++ [w]).
Proof.
  induction cur as [| x cur IH]; [discriminate |].
  intros Hch Hlast Hd. destruct cur as [| x' cur].
  - simpl in Hlast. injection Hlast as ->. simpl. tauto.
  - destruct Hch as [Hx Hrest]. split; [exact Hx |].
    apply IH; [exact Hrest | exact Hlast | exact Hd].
Qed.

Lemma runs_chained (ws : list Word) :
  forall (prev : Z) (cur : list Word),
    chained cur ->
    (forall a, last cur = Some a -> word_top a = prev) ->
    Forall chained (runs prev cur ws).
Proof.
  induction ws as [| w ws IH]; intros prev cur Hch Hprev; simpl.
  - destruct cur; constructor; [exact Hch | constructor].
  - destruct (Z.ltb_spec 10 (Z.abs (word_top w - prev))) as [Hfar | Hnear]; simpl.
    + destruct cur as [| x cur].
      * apply IH; [exact I | now intros a [= <-]].
      * constructor; [exact Hch |].
        apply IH; [exact I | now intros a [= <-]].
    + apply IH.
      * destruct (last cur) as [a |] eqn:Hlast.
        -- apply (chained_snoc cur a w Hch Hlast).
           now rewrite (Hprev a eq_refl).
        -- apply last_None in Hlast. subst cur. exact I.
      * intros a. rewrite last_snoc. now intros [= <-].
Qed.

Lemma runs_separated (ws : list Word) :
  forall (prev : Z) (cur : list Word),
    (forall a, last cur = Some a -> word_top a = prev) ->
    separated (runs prev cur ws).
Proof.
  induction ws as [| w ws IH]; intros prev cur Hprev; simpl.
  - now destruct cur.
  - destruct (Z.ltb_spec 10 (Z.abs (word_top w - prev))) as [Hfar | Hnear]; simpl.
    + destruct cur as [| x cur].
      * apply IH. now intros a [= <-].
      * destruct (runs_head ws (word_top w) [w]) as (more & gs & E);
          [discriminate |].
        assert (Hsep := IH (word_top w) [w]).
        rewrite E in *. split.
        -- destruct (last (x :: cur)) as [a |] eqn:Hlast.
           ++ exists a, w. repeat split. now rewrite (Hprev a eq_refl).
           ++ apply last_None in Hlast. discriminate Hlast.
        -- apply Hsep. now intros a [= <-].
    + apply IH. intros a. rewrite last_snoc. now intros [= <-].
Qed.

Lemma layout_of_data_runs (data : OcrData) (layout : DocumentLayout) :
  well_formed data ->
  exists (fin : list TextLine) (layout' : DocumentLayout),
    layout_of_data data layout = (layout', None)
    /\ all_lines layout' ≡ₚ all_lines layout ++ fin
    /\ tables layout' = tables layout
    /\ page_width layout' = page_width layout
    /\ page_height layout' = page_height layout
    /\ Forall line_ok fin
    /\ map line_words fin = runs (-1) [] (ocr_words data).
Proof.
  intros Hwf. unfold layout_of_data.
  destruct (group_words_runs data (enumerate (data_text data)) layout
              initial_line_state)
    as (fin & l1 & ls1 & Hrun & Hperm & Ht & Hw & Hh & Hok & Hfin & Hruns & _).
  { split; [reflexivity | constructor]. }
  { intros i word Hin. now apply word_at_well_formed. }
  rewrite Hrun. rewrite (line_state_truthy ls1 Hok).
  change (words_of_items data (enumerate (data_text data))) with (ocr_words data)
    in Hruns.
  simpl in Hruns.
  destruct (current_line_words ls1) as [| x ws] eqn:Hws.
  - exists fin, l1. simpl in Hruns. rewrite app_nil_r in Hruns.
    repeat split; assumption.
  - set (line := new_TextLine (current_line_text ls1) (x :: ws)
                              (current_line_bbox ls1)).
    destruct (finalize_keeps l1 (current_line_text ls1) (x :: ws)
                             (current_line_bbox ls1)) as (Hk1 & Hk2 & Hk3).
    exists (fin ++ [line]), (_finalize_text_line l1 (current_line_text ls1) (x :: ws)
                                                 (current_line_bbox ls1)).
    split; [reflexivity |]. split.
    { rewrite finalize_all_lines, Hperm. fold line. now rewrite <- app_assoc. }
    split; [congruence |]. split; [congruence |]. split; [congruence |].
    split.
    { apply Forall_app. split; [exact Hfin |]. constructor; [| constructor].
      unfold line_ok, line. simpl. destruct Hok as [Htext _].
      rewrite Hws in Htext. repeat split; [discriminate | exact Htext]. }
    rewrite map_app. simpl. exact Hruns.
Qed.

Lemma extract_layout_runs (ext : Externals) (path : string) (img : PILImage ext)
      (data : OcrData) :
  HAS_VISION ext = true ->
  Image_open ext path = Ok img ->
  image_to_data ext img = Ok data ->
  well_formed data ->
  exists (fin : list TextLine) (layout' : DocumentLayout),
    _extract_layout ext path = Ok layout'
    /\ all_lines layout' ≡ₚ fin
    /\ tables layout' = []
    /\ page_width layout' = fst (Image_size ext img)
    /\ page_height layout' = snd (Image_size ext img)
    /\ Forall line_ok fin
    /\ map line_words fin = runs (-1) [] (ocr_words data).
Proof.
  intros Hvis Hopen Hdata Hwf.
  destruct (layout_of_data_runs data
              (set_page_size new_DocumentLayout (Image_size ext img)) Hwf)
    as (fin & layout' & Hrun & Hperm & Ht & Hw & Hh & Hfin & Hruns).
  exists fin, layout'. split.
  { unfold _extract_layout, extract_layout_try.
    rewrite Hvis, Hopen, Hdata. simpl. now rewrite Hrun. }
  repeat split; assumption.
Qed.

(** X1.  On OCR output in which every item has its coordinates, the
    grouper raises nothing and loses nothing: the lines of the layout,
    taken in the order in which they were finalized, carry the non-blank
    words of the output in reading order, each word in exactly one line;
    no line is empty, the text of a line is the space-joined text of its
    words and its confidence their mean. *)
Theorem grouping_keeps_every_word (ext : Externals) (path : string)
        (img : PILImage ext) (data : OcrData) :
  HAS_VISION ext = true ->
  Image_open ext path = Ok img ->
  image_to_data ext img = Ok data ->
  well_formed data ->
  exists (fin : list TextLine) (layout' : DocumentLayout),
    _extract_layout ext path = Ok layout'
    /\ all_lines layout' ≡ₚ fin
    /\ page_width layout' = fst (Image_size ext img)
    /\ page_height layout' = snd (Image_size ext img)
    /\ concat (map line_words fin) = ocr_words data
    /\ Forall (fun l => line_words l <> []
                        /\ line_text l = PyStr.join " " (map word_text (line_words l))
                        /\ line_confidence l = line_mean_confidence (line_words l))
              fin.
Proof.
  intros Hvis Hopen Hdata Hwf.
  destruct (extract_layout_runs ext path img data Hvis Hopen Hdata Hwf)
    as (fin & layout' & Hrun & Hperm & _ & Hw & Hh & Hfin & Hruns).
  exists fin, layout'. repeat (split; [assumption |]). split.
  - rewrite Hruns. apply runs_concat.
  - exact Hfin.
Qed.

Lemma grouping_keeps_every_word_witness :
  let ext := scanner true [("page.png", five_word_scan)] in
  HAS_VISION ext = true
  /\ Image_open ext "page.png" = Ok five_word_scan
  /\ image_to_data ext five_word_scan = Ok (scan_data five_word_scan)
  /\ well_formed (scan_data five_word_scan)
  /\ exists (fin : list TextLine) (layout' : DocumentLayout),
      _extract_layout ext "page.png" = Ok layout'
      /\ all_lines layout' ≡ₚ fin
      /\ map word_text (concat (map line_words fin))
         = ["Invoice"; "Number:"; "INV-2025-001"; "Draft"; "Total"].
Proof.
  cbv zeta.
  assert (Hwf : well_formed (scan_data five_word_scan))
    by (repeat split; simpl; lia).
  repeat (split; [first [reflexivity | exact Hwf] |]).
  destruct (grouping_keeps_every_word
              (scanner true [("page.png", five_word_scan)]) "page.png"
              five_word_scan (scan_data five_word_scan)
              eq_refl eq_refl eq_refl Hwf)
    as (fin & layout' & Hrun & Hperm & _ & _ & Hwords & _).
  exists fin, layout'. split; [exact Hrun |]. split; [exact Hperm |].
  rewrite Hwords. reflexivity.
Defined.

(** X2.  Under the same condition the lines follow the tops of the words:
    inside a line two consecutive words are at most ten pixels apart
    vertically, and from the last word of a line to the first word of the
    line finalized next the top jumps by more than ten pixels. *)
Theorem grouping_follows_the_tops (ext : Externals) (path : string)
        (img : PILImage ext) (data : OcrData) :
  HAS_VISION ext = true ->
  Image_open ext path = Ok img ->
  image_to_data ext img = Ok data ->
  well_formed data ->
  exists (fin : list TextLine) (layout' : DocumentLayout),
    _extract_layout ext path = Ok layout'
    /\ all_lines layout' ≡ₚ fin
    /\ concat (map line_words fin) = ocr_words data
    /\ Forall (fun l => chained (line_words l)) fin
    /\ separated (map line_words fin).
Proof.
  intros Hvis Hopen Hdata Hwf.
  destruct (extract_layout_runs ext path img data Hvis Hopen Hdata Hwf)
    as (fin & layout' & Hrun & Hperm & _ & _ & _ & _ & Hruns).
  exists fin, layout'. split; [exact Hrun |]. split; [exact Hperm |].
  split; [rewrite Hruns; apply runs_concat |]. split.
  - apply Forall_map. change (Forall chained (map line_words fin)).
    rewrite Hruns. apply runs_chained; [exact I | discriminate].
  - rewrite Hruns. apply runs_separated. discriminate.
Qed.

Lemma grouping_follows_the_tops_witness :
  let ext := scanner true [("page.png", five_word_scan)] in
  HAS_VISION ext = true
  /\ Image_open ext "page.png" = Ok five_word_scan
  /\ image_to_data ext five_word_scan = Ok (scan_data five_word_scan)
  /\ well_formed (scan_data five_word_scan)
  /\ exists (fin : list TextLine) (layout' : DocumentLayout),
      _extract_layout ext "page.png" = Ok layout'
      /\ Forall (fun l => chained (line_words l)) fin
      /\ separated (map line_words fin).
Proof.
  cbv zeta.
  assert (Hwf : well_formed (scan_data five_word_scan))
    by (repeat split; simpl; lia).
  repeat (split; [first [reflexivity | exact Hwf] |]).
  destruct (grouping_follows_the_tops
              (scanner true [("page.png", five_word_scan)]) "page.png"
              five_word_scan (scan_data five_word_scan)
              eq_refl eq_refl eq_refl Hwf)
    as (fin & layout' & Hrun & _ & _ & Hch & Hsep).
  exists fin, layout'. repeat split; assumption.
Defined.

Lemma group_words_app (data : OcrData) (a b : list (nat * string)) :
  forall st : DocumentLayout * LineState,
    group_words data (a ++ b) st
    = match group_words data a st with
      | (st1, None) => group_words data b st1
      | (st1, Some e) => (st1, Some e)
      end.
Proof.
  induction a as [| [i word] a IH]; intros st; simpl; [reflexivity |].
  destruct (loop_body data i word st); [apply IH | reflexivity].
Qed.

(** X3.  When an item of the OCR output lacks a coordinate or its
    confidence, [_extract_layout] still returns: the lines finalized from
    the items before it stay in the layout, while the line in progress
    ([lost], not empty as soon as a word was read) and everything from
    the item on are dropped. *)
Theorem truncated_output_drops_the_pending_line
        (ext : Externals) (path : string) (img : PILImage ext) (data : OcrData)
        (before after : list (nat * string)) (i : nat) (word : string) (e : exn) :
  HAS_VISION ext = true ->
  Image_open ext path = Ok img ->
  image_to_data ext img = Ok data ->
  enumerate (data_text data) = before ++ (i, word) :: after ->
  (forall j w, In (j, w) before -> exists wd, word_at data j w = Ok wd) ->
  nonblank word = true ->
  word_at data i word = Raise e ->
  exists (fin : list TextLine) (lost : list Word) (layout' : DocumentLayout),
    _extract_layout ext path = Ok layout'
    /\ all_lines layout' ≡ₚ fin
    /\ page_width layout' = fst (Image_size ext img)
    /\ page_height layout' = snd (Image_size ext img)
    /\ concat (map line_words fin) ++ lost = words_of_items data before
    /\ (words_of_items data before <> [] -> lost <> []).
Proof.
  intros Hvis Hopen Hdata Hitems Hbefore Hnb Hraise.
  destruct (group_words_runs data before
              (set_page_size new_DocumentLayout (Image_size ext img))
              initial_line_state)
    as (fin & l1 & ls1 & Hrun & Hperm & _ & Hw & Hh & _ & _ & Hruns & Hpend).
  { split; [reflexivity | constructor]. }
  { exact Hbefore. }
  exists fin, (current_line_words ls1), l1. split.
  { unfold _extract_layout, extract_layout_try, layout_of_data.
    rewrite Hvis, Hopen, Hdata. simpl.
    rewrite Hitems, group_words_app, Hrun. simpl.
    now rewrite (loop_body_word data i word _ Hnb), Hraise. }
  split; [exact Hperm |]. split; [exact Hw |]. split; [exact Hh |].
  split.
  - assert (Hcat := runs_concat (words_of_items data before) (-1) []).
    simpl in Hruns. rewrite <- Hruns in Hcat. rewrite concat_app in Hcat.
    simpl in Hcat. rewrite <- Hcat.
    destruct (current_line_words ls1); simpl; [reflexivity |].
    now rewrite app_nil_r.
  - intros Hne. apply Hpend. now right.
Qed.

Lemma truncated_output_drops_the_pending_line_witness :
  let ext := scanner true [("page.png", truncated_scan)] in
  HAS_VISION ext = true
  /\ Image_open ext "page.png" = Ok truncated_scan
  /\ image_to_data ext truncated_scan = Ok (scan_data truncated_scan)
  /\ enumerate (data_text (scan_data truncated_scan))
     = [(0%nat, "Invoice"); (1%nat, "Total")] ++ (2%nat, "Due") :: []
  /\ nonblank "Due" = true
  /\ word_at (scan_data truncated_scan) 2 "Due" = Raise IndexError
  /\ exists (fin : list TextLine) (lost : list Word) (layout' : DocumentLayout),
      _extract_layout ext "page.png" = Ok layout'
      /\ all_lines layout' ≡ₚ fin
      /\ map word_text (concat (map line_words fin) ++ lost) = ["Invoice"; "Total"]
      /\ lost <> [].
Proof.
  cbv zeta. repeat (split; [reflexivity |]).
  destruct (truncated_output_drops_the_pending_line
              (scanner true [("page.png", truncated_scan)]) "page.png"
              truncated_scan (scan_data truncated_scan)
              [(0%nat, "Invoice"); (1%nat, "Total")] [] 2 "Due" IndexError
              eq_refl eq_refl eq_refl eq_refl)
    as (fin & lost & layout' & Hrun & Hperm & _ & _ & Hwords & Hlost).
  - intros j w [[= <- <-] | [[= <- <-] | []]]; eexists; reflexivity.
  - reflexivity.
  - reflexivity.
  - exists fin, lost, layout'. split; [exact Hrun |]. split; [exact Hperm |].
    split; [rewrite Hwords; reflexivity |].
    apply Hlost. discriminate.
Defined.

Lemma getitem_nth_error {A : Type} (l : list A) (i : nat) (v : A) :
  getitem l i = Ok v <-> nth_error l i = Some v.
Proof.
  unfold getitem. destruct (nth_error l i); split; congruence.
Qed.

Lemma word_at_bbox (data : OcrData) (i : nat) (word : string) (wd : Word) :
  word_at data i word = Ok wd ->
  exists x y w h,
    word_bbox wd = (x, y, w, h)
    /\ nth_error (data_top data) i = Some y
    /\ nth_error (data_width data) i = Some w.
Proof.
  unfold word_at.
  destruct (getitem (data_top data) i) as [y |] eqn:Ey; [| discriminate].
  destruct (getitem (data_left data) i) as [x |]; [| discriminate].
  destruct (getitem (data_width data) i) as [w |] eqn:Ew; [| discriminate].
  destruct (getitem (data_height data) i) as [h |]; [| discriminate].
  destruct (getitem (data_conf data) i) as [c |]; [| discriminate].
  simpl. intros [= <-]. exists x, y, w, h.
  repeat split; now apply getitem_nth_error.
Qed.

Lemma Qltb_min (a y : Z) (q : Q) :
  Qltb (inject_Z a) q = true -> Qltb (inject_Z (Z.min a y)) q = true.
Proof.
  rewrite !Qltb_lt. intros H. eapply Qle_lt_trans; [| exact H].
  unfold Qle, inject_Z. simpl. lia.
Qed.

Lemma finalize_in_header (layout : DocumentLayout) text words bbox :
  Qltb (inject_Z (t1 bbox)) (top_third layout) = true ->
  _finalize_text_line layout text words bbox
  = add_header layout (new_TextLine text words bbox).
Proof. unfold _finalize_text_line. now intros ->. Qed.

(** Once the running box has a positive third component and a top in the
    upper third, every line finalized from then on goes to the header. *)
Lemma group_words_stays_in_header (data : OcrData) :
  forall (items : list (nat * string)) (layout : DocumentLayout) (ls : LineState),
    0 < t2 (current_line_bbox ls) ->
    Qltb (inject_Z (t1 (current_line_bbox ls))) (top_third layout) = true ->
    exists layout' ls' err,
      group_words data items (layout, ls) = ((layout', ls'), err)
      /\ body layout' = body layout /\ footer layout' = footer layout
      /\ page_height layout' = page_height layout
      /\ Qltb (inject_Z (t1 (current_line_bbox ls'))) (top_third layout) = true.
Proof.
  induction items as [| [i word] items IH]; intros layout ls Hpos Htop.
  - exists layout, ls, None. repeat split; assumption.
  - cbn [group_words]. destruct (nonblank word) eqn:Hnb.
    + rewrite (loop_body_word data i word _ Hnb).
      destruct (word_at data i word) as [wd | e];
        [| exists layout, ls, (Some e); repeat split; assumption].
      unfold add_word.
      destruct (word_bbox wd) as [[[x y] w] h].
      assert (Hz : Z.eqb (t2 (current_line_bbox ls)) 0 = false)
        by (apply Z.eqb_neq; lia).
      destruct (_ && _).
      * cbn [current_line_bbox current_line_text current_line_words].
        rewrite Hz. rewrite (finalize_in_header _ _ _ _ Htop).
        edestruct (IH (add_header layout (new_TextLine (current_line_text ls)
                                            (current_line_words ls)
                                            (current_line_bbox ls))))
          as (layout' & ls' & err & Hrun & Hb & Hf & Hh & Ht);
          [| | exists layout', ls', err; split; [exact Hrun |];
               repeat split; assumption].
        -- simpl. lia.
        -- simpl. now apply Qltb_min.
      * rewrite Hz.
        edestruct (IH layout) as (layout' & ls' & err & Hrun & Hb & Hf & Hh & Ht);
          [| | exists layout', ls', err; split; [exact Hrun |];
               repeat split; assumption].
        -- simpl. lia.
        -- simpl. now apply Qltb_min.
    + rewrite (loop_body_blank data i word _ Hnb). now apply IH.
Qed.

Lemma group_words_first_word (data : OcrData) :
  Forall (fun w => 0 < w) (data_width data) ->
  forall (items : list (nat * string)) (layout : DocumentLayout) (ls : LineState)
         (y0 : Z),
    current_line_text ls = "" ->
    t2 (current_line_bbox ls) = 0 ->
    first_top data items = Some y0 ->
    Qltb (inject_Z y0) (top_third layout) = true ->
    exists layout' ls' err,
      group_words data items (layout, ls) = ((layout', ls'), err)
      /\ body layout' = body layout /\ footer layout' = footer layout
      /\ page_height layout' = page_height layout
      /\ (current_line_text ls' = ""
          \/ Qltb (inject_Z (t1 (current_line_bbox ls'))) (top_third layout) = true).
Proof.
  intros Hwidths.
  induction items as [| [i word] items IH]; intros layout ls y0 Htext Hbox Hfirst Htop.
  - discriminate Hfirst.
  - cbn [group_words]. simpl in Hfirst. destruct (nonblank word) eqn:Hnb.
    + rewrite (loop_body_word data i word _ Hnb).
      destruct (word_at data i word) as [wd | e] eqn:Hwd;
        [| exists layout, ls, (Some e); repeat split; now left].
      destruct (word_at_bbox data i word wd Hwd) as (x & y & w & h & Hb & Hy & Hw).
      assert (y = y0) by congruence. subst y.
      assert (Hwpos : 0 < w).
      { rewrite List.Forall_forall in Hwidths. apply Hwidths.
        eapply nth_error_In. exact Hw. }
      unfold add_word. rewrite Htext, Hb.
      change (PyStr.truthy "") with false. rewrite andb_false_r.
      rewrite Hbox. change (0 =? 0) with true. cbv iota.
      edestruct (group_words_stays_in_header data items layout)
        as (layout' & ls' & err & Hrun & Hbd & Hf & Hh & Ht);
        [| | exists layout', ls', err; split; [exact Hrun |];
             repeat split; try assumption; now right].
      * simpl. exact Hwpos.
      * simpl. exact Htop.
    + rewrite (loop_body_blank data i word _ Hnb).
      now apply (IH layout ls y0).
Qed.

(** X4.  The running box is never reset, so its top only decreases: when
    the widths in the OCR output are positive and the first word lies in
    the upper third of the page, every line of the document is filed
    under the header, wherever its own words are; body and footer stay
    empty. *)
Theorem first_word_in_upper_third_fills_header
        (ext : Externals) (path : string) (img : PILImage ext) (data : OcrData)
        (y0 : Z) :
  HAS_VISION ext = true ->
  Image_open ext path = Ok img ->
  image_to_data ext img = Ok data ->
  Forall (fun w => 0 < w) (data_width data) ->
  first_top data (enumerate (data_text data)) = Some y0 ->
  3 * y0 < snd (Image_size ext img) ->
  exists layout' : DocumentLayout,
    _extract_layout ext path = Ok layout'
    /\ body layout' = [] /\ footer layout' = [].
Proof.
  intros Hvis Hopen Hdata Hwidths Hfirst Hy0.
  set (l0 := set_page_size new_DocumentLayout (Image_size ext img)).
  assert (Htop : Qltb (inject_Z y0) (top_third l0) = true).
  { apply Qltb_lt. unfold top_third, l0, Qlt, Qdiv, Qmult, Qinv, inject_Z.
    simpl. lia. }
  destruct (group_words_first_word data Hwidths (enumerate (data_text data))
              l0 initial_line_state y0 eq_refl eq_refl Hfirst Htop)
    as (l1 & ls1 & err & Hrun & Hb & Hf & Hh & Hstate).
  unfold _extract_layout, extract_layout_try, layout_of_data.
  rewrite Hvis, Hopen, Hdata. simpl. fold l0. rewrite Hrun.
  destruct err as [e |]; [exists l1; repeat split; assumption |].
  destruct (PyStr.truthy (current_line_text ls1)) eqn:Htr;
    [| exists l1; repeat split; assumption].
  destruct Hstate as [Hempty | Hin]; [rewrite Hempty in Htr; discriminate Htr |].
  assert (Hin' : Qltb (inject_Z (t1 (current_line_bbox ls1))) (top_third l1) = true)
    by (unfold top_third in *; now rewrite Hh).
  rewrite (finalize_in_header _ _ _ _ Hin'). eexists. split; [reflexivity |].
  simpl. split; assumption.
Qed.

Lemma first_word_in_upper_third_fills_header_witness :
  let ext := scanner true [("page.png", top_and_bottom_scan)] in
  HAS_VISION ext = true
  /\ Image_open ext "page.png" = Ok top_and_bottom_scan
  /\ image_to_data ext top_and_bottom_scan = Ok (scan_data top_and_bottom_scan)
  /\ Forall (fun w => 0 < w) (data_width (scan_data top_and_bottom_scan))
  /\ first_top (scan_data top_and_bottom_scan)
               (enumerate (data_text (scan_data top_and_bottom_scan))) = Some 40
  /\ 3 * 40 < snd (Image_size ext top_and_bottom_scan)
  /\ exists layout' : DocumentLayout,
      _extract_layout ext "page.png" = Ok layout'
      /\ map line_text (header layout') = ["Report"; "7"]
      /\ body layout' = [] /\ footer layout' = [].
Proof.
  cbv zeta.
  assert (Hw : Forall (fun w => 0 < w) (data_width (scan_data top_and_bottom_scan)))
    by (repeat constructor).
  repeat (split; [first [reflexivity | exact Hw] |]).
  destruct (first_word_in_upper_third_fills_header
              (scanner true [("page.png", top_and_bottom_scan)]) "page.png"
              top_and_bottom_scan (scan_data top_and_bottom_scan) 40
              eq_refl eq_refl eq_refl Hw eq_refl eq_refl)
    as (layout' & Hrun & Hb & Hf).
  exists layout'. split; [exact Hrun |].
  split; [| split; assumption].
  vm_compute in Hrun. injection Hrun as <-. reflexivity.
Defined.

(* ===================================================================== *)
(** ** More on classification                                              *)
(* ===================================================================== *)

Lemma catalog_get (dt : DocumentType) :
  In dt catalog_types ->
  exists ps, dict_get dt doc_type_patterns = Some ps /\ ps <> []
             /\ In (dt, ps) doc_type_patterns.
Proof.
  rewrite catalog_types_eq. simpl.
  intros [<- | [<- | [<- | [<- | [<- | [<- | []]]]]]];
    eexists; (split; [reflexivity |]); (split; [discriminate |]);
    simpl; tauto.
Qed.

Lemma Score_bounds (ext : Externals) (text : string) (dt : DocumentType) :
  In dt catalog_types ->
  (0 <= Score ext text dt)%Q /\ (Score ext text dt <= 1)%Q.
Proof.
  intros Hin. destruct (catalog_get dt Hin) as (ps & Hget & Hne & _).
  unfold Score. rewrite Hget. now apply ratio_bounds.
Qed.

Lemma catalog_types_known (dt : DocumentType) :
  In dt catalog_types -> dt <> UNKNOWN.
Proof.
  rewrite catalog_types_eq. simpl. intros H ->.
  repeat (destruct H as [H | H]; [discriminate H |]). exact H.
Qed.

(** X5.  The classifier returns for every text; the confidence lies
    between 0 and 1, and the type is UNKNOWN exactly when the confidence
    is below 0.2: a type of the catalog never comes with a confidence
    under the threshold, and UNKNOWN never with one at or above it. *)
Theorem classify_unknown_iff_low (ext : Externals) (text : string) :
  exists (dt : DocumentType) (conf : Q),
    _classify_document_type ext text = Ok (dt, conf)
    /\ (0 <= conf)%Q /\ (conf <= 1)%Q
    /\ (dt = UNKNOWN <-> (conf < 0.2)%Q)
    /\ (dt <> UNKNOWN -> In dt catalog_types /\ conf = Score ext text dt).
Proof.
  destruct (best_of_first_max ext text)
    as (best & before & after & Hbest & Hcat & _).
  assert (Hin : In best catalog_types)
    by (rewrite Hcat; apply in_or_app; right; now left).
  pose proof (catalog_types_known best Hin) as Hknown.
  destruct (Score_bounds ext text best Hin) as [H0 H1].
  exists (if Qltb (Score ext text best) threshold then UNKNOWN else best),
         (Score ext text best).
  split; [now apply classify_unfold |]. split; [exact H0 |]. split; [exact H1 |].
  destruct (Qltb (Score ext text best) threshold) eqn:E.
  - apply threshold_lt in E. repeat split; tauto.
  - assert (Hge : ~ (Score ext text best < 0.2)%Q).
    { intros Hlt. apply threshold_lt in Hlt. congruence. }
    repeat split; tauto.
Qed.

Lemma ratio_not_low (ext : Externals) (text_lower : string) (ps : list string) :
  ps <> [] ->
  Qltb (ratio ext text_lower ps) threshold = false ->
  (List.length ps <= 5 * matching ext text_lower ps)%nat.
Proof.
  intros Hne Hlow. apply Qltb_ge in Hlow.
  destruct (ratio_bounds ext text_lower ps Hne) as [Heq _].
  rewrite Heq in Hlow. unfold threshold, py_float in Hlow.
  rewrite Qred_correct in Hlow.
  set (m := matching ext text_lower ps) in *.
  destruct ps as [| p ps]; [congruence |].
  set (n := List.length (p :: ps)) in *.
  assert (Hn : (0 < inject_Z (Z.of_nat n))%Q)
    by (unfold Qlt, inject_Z, n; simpl; lia).
  assert (H : (0.2 * inject_Z (Z.of_nat n) <= inject_Z (Z.of_nat m))%Q).
  { apply (Qmult_le_compat_r _ _ (inject_Z (Z.of_nat n))) in Hlow;
      [| now apply Qlt_le_weak].
    eapply Qle_trans; [exact Hlow |].
    rewrite Qmult_comm, Qmult_div_r; [apply Qle_refl |].
    intros E. rewrite E in Hn. discriminate Hn. }
  unfold Qle, Qmult, inject_Z in H. simpl in H. lia.
Qed.

(** X6.  A type of the catalog is only returned when at least a fifth of
    its patterns match: one match is enough for the types with four or
    five patterns, while the contract type, with six, needs two. *)
Theorem returned_type_has_matches (ext : Externals) (text : string)
        (dt : DocumentType) (conf : Q) :
  _classify_document_type ext text = Ok (dt, conf) ->
  dt <> UNKNOWN ->
  exists ps : list string,
    dict_get dt doc_type_patterns = Some ps
    /\ (List.length ps <= 5 * matching ext (PyStr.lower text) ps)%nat
    /\ (1 <= matching ext (PyStr.lower text) ps)%nat
    /\ (dt = CONTRACT -> (2 <= matching ext (PyStr.lower text) ps)%nat).
Proof.
  intros Hcl Hknown.
  destruct (best_of_first_max ext text)
    as (best & before & after & Hbest & Hcat & _).
  assert (Hin : In best catalog_types)
    by (rewrite Hcat; apply in_or_app; right; now left).
  rewrite (classify_unfold ext text best Hbest Hin) in Hcl.
  destruct (Qltb (Score ext text best) threshold) eqn:E;
    injection Hcl as <- <-; [congruence |].
  destruct (catalog_get best Hin) as (ps & Hget & Hne & _).
  unfold Score in E. rewrite Hget in E.
  pose proof (ratio_not_low ext (PyStr.lower text) ps Hne E) as Hm.
  exists ps. split; [exact Hget |]. split; [exact Hm |].
  assert (Hlen : (0 < List.length ps)%nat)
    by (destruct ps; [congruence | simpl; lia]).
  split; [lia |].
  intros ->. injection Hget as <-. simpl in Hm. lia.
Qed.

Lemma returned_type_has_matches_witness :
  _classify_document_type text_only contract_text = Ok (CONTRACT, (2 # 3)%Q)
  /\ CONTRACT <> UNKNOWN
  /\ exists ps : list string,
      dict_get CONTRACT doc_type_patterns = Some ps
      /\ (2 <= matching text_only (PyStr.lower contract_text) ps)%nat.
Proof.
  split; [vm_compute; reflexivity |]. split; [discriminate |].
  destruct (returned_type_has_matches text_only contract_text CONTRACT (2 # 3)%Q)
    as (ps & Hget & _ & _ & Htwo); [vm_compute; reflexivity | discriminate |].
  exists ps. split; [exact Hget | now apply Htwo].
Defined.




(* ===================================================================== *)
(** ** More on field extraction                                            *)
(* ===================================================================== *)

(** X8.  [extract_field] answers [None] for a name outside the catalog,
    whatever the text; for a name of the catalog it answers the stripped
    value if the pattern of the field matches and [None] otherwise. *)
Theorem extract_field_spec (ext : Externals) (text name : string) :
  groups_participate ext (PyStr.lower text) = true ->
  exists r : option string,
    extract_field ext text name = Ok r
    /\ (~ In name (map fst field_patterns) -> r = None)
    /\ forall pattern,
        In (name, pattern) field_patterns ->
        match re_search ext pattern (PyStr.lower text) with
        | Some m => exists v, first_group_or_whole m v /\ r = Some (PyStr.strip v)
        | None => r = None
        end.
Proof.
  intros Hg.
  destruct (fields_loop_spec ext (PyStr.lower text) field_patterns ∅
              field_names_distinct (groups_participate_spec ext _ Hg))
    as (fields & Hrun & Hin & Hout).
  unfold extract_field, _extract_key_fields. rewrite Hrun. simpl.
  exists (field_value <$> fields !! name). split.
  { now destruct (fields !! name). }
  split.
  - intros Hno. now rewrite (Hout name Hno), lookup_empty.
  - intros pattern Hcat. specialize (Hin name pattern Hcat).
    unfold entry_ok in Hin.
    destruct (re_search ext pattern (PyStr.lower text)) as [m |].
    + destruct Hin as (v & Hv & Hf). exists v.
      split; [now apply match_value_first_group | now rewrite Hf].
    + now rewrite Hin, lookup_empty.
Qed.

Lemma extract_field_spec_witness :
  groups_participate text_only (PyStr.lower "Invoice Number: INV-2025-001") = true
  /\ extract_field text_only "Invoice Number: INV-2025-001" "invoice_number"
     = Ok (Some "inv-2025-001")
  /\ exists r,
      extract_field text_only "Invoice Number: INV-2025-001" "nonexistent_field"
      = Ok r /\ r = None.
Proof.
  split; [vm_compute; reflexivity |]. split; [vm_compute; reflexivity |].
  destruct (extract_field_spec text_only "Invoice Number: INV-2025-001"
              "nonexistent_field") as (r & Hrun & Hno & _);
    [vm_compute; reflexivity |].
  exists r. split; [exact Hrun |]. apply Hno.
  simpl. intros H. repeat (destruct H as [H | H]; [discriminate H |]). exact H.
Defined.

Lemma lower_char_not_upper (a : ascii) :
  PyStr.is_upper (PyStr.lower_char a) = false.
Proof. destruct a as [[] [] [] [] [] [] [] []]; reflexivity. Qed.

Lemma lower_no_upper (text : string) :
  Forall (fun a => PyStr.is_upper a = false) (PyStr.chars (PyStr.lower text)).
Proof.
  unfold PyStr.lower, PyStr.chars, PyStr.of_chars.
  rewrite list_ascii_of_string_of_list_ascii.
  apply List.Forall_forall. intros a Ha. apply in_map_iff in Ha.
  destruct Ha as (b & <- & _). apply lower_char_not_upper.
Qed.

Lemma starts_with_Forall (P : ascii -> Prop) (p : list ascii) :
  forall s, starts_with p s = true -> Forall P s -> Forall P p.
Proof.
  induction p as [| a p IH]; intros s H Hs; [constructor |].
  destruct s as [| b s]; [discriminate H |]. simpl in H.
  apply andb_true_iff in H. destruct H as [Hab Hrest].
  apply Ascii.eqb_eq in Hab. subst b.
  inversion Hs; subst. constructor; [assumption | eauto].
Qed.

Lemma occurs_in_Forall (P : ascii -> Prop) (p : list ascii) :
  forall s, occurs_in p s = true -> Forall P s -> Forall P p.
Proof.
  induction s as [| b s IH]; intros H Hs; simpl in H.
  - rewrite orb_false_r in H. now apply (starts_with_Forall P p []).
  - apply orb_true_iff in H. destruct H as [H | H].
    + now apply (starts_with_Forall P p (b :: s)).
    + inversion Hs; subst. now apply IH.
Qed.

Lemma lstrip_Forall (P : ascii -> Prop) (l : list ascii) :
  Forall P l -> Forall P (PyStr.lstrip_chars l).
Proof.
  induction l as [| a l IH]; intros H; simpl; [constructor |].
  destruct (PyStr.is_space a); [| exact H].
  inversion H; subst. now apply IH.
Qed.

Lemma strip_Forall (P : ascii -> Prop) (v : string) :
  Forall P (PyStr.chars v) -> Forall P (PyStr.chars (PyStr.strip v)).
Proof.
  intros H. unfold PyStr.strip, PyStr.chars, PyStr.of_chars.
  rewrite list_ascii_of_string_of_list_ascii.
  unfold PyStr.rstrip_chars.
  apply Forall_rev, lstrip_Forall, Forall_rev, lstrip_Forall. exact H.
Qed.

(** X9.  The patterns are searched in the lowercased text, so an
    extracted value never contains an upper-case letter: the original
    casing of the document is lost. *)
Theorem extracted_values_are_lowercase (ext : Externals) (text : string)
        (layout : DocumentLayout) :
  groups_participate ext (PyStr.lower text) = true ->
  values_from_text ext (PyStr.lower text) = true ->
  exists fields : gmap string ExtractedField,
    _extract_key_fields ext text layout = Ok fields
    /\ forall name f,
        fields !! name = Some f -> no_upper (field_value f) = true.
Proof.
  intros Hg Hsub.
  destruct (fields_loop_spec ext (PyStr.lower text) field_patterns ∅
              field_names_distinct (groups_participate_spec ext _ Hg))
    as (fields & Hrun & Hin & Hout).
  exists fields. split; [exact Hrun |].
  intros name f Hf.
  destruct (in_dec string_dec name (map fst field_patterns)) as [Hyes | Hno];
    [| rewrite (Hout name Hno), lookup_empty in Hf; discriminate Hf].
  apply in_map_iff in Hyes. destruct Hyes as ([n pattern] & Hn & Hcat).
  simpl in Hn. subst n.
  specialize (Hin name pattern Hcat). unfold entry_ok in Hin.
  unfold values_from_text in Hsub. rewrite forallb_forall in Hsub.
  specialize (Hsub _ Hcat). simpl in Hsub.
  destruct (re_search ext pattern (PyStr.lower text)) as [m |];
    [| rewrite Hin, lookup_empty in Hf; discriminate Hf].
  destruct Hin as (v & Hv & Hfield). rewrite Hv in Hsub.
  rewrite Hfield in Hf. injection Hf as <-. simpl.
  unfold no_upper. apply forallb_forall. intros a Ha.
  assert (Hall : Forall (fun a => PyStr.is_upper a = false)
                        (PyStr.chars (PyStr.strip v))).
  { apply strip_Forall.
    apply (occurs_in_Forall _ _ _ Hsub), lower_no_upper. }
  rewrite List.Forall_forall in Hall. now rewrite (Hall a Ha).
Qed.

Lemma extracted_values_are_lowercase_witness :
  groups_participate text_only (PyStr.lower "Invoice Number: INV-2025-001") = true
  /\ values_from_text text_only (PyStr.lower "Invoice Number: INV-2025-001") = true
  /\ exists fields : gmap string ExtractedField,
      _extract_key_fields text_only "Invoice Number: INV-2025-001" new_DocumentLayout
      = Ok fields
      /\ field_value <$> fields !! "invoice_number" = Some "inv-2025-001"
      /\ forall name f,
          fields !! name = Some f -> no_upper (field_value f) = true.
Proof.
  split; [vm_compute; reflexivity |]. split; [vm_compute; reflexivity |].
  destruct (extracted_values_are_lowercase text_only "Invoice Number: INV-2025-001"
              new_DocumentLayout)
    as (fields & Hrun & Hlow); [vm_compute; reflexivity .. |].
  exists fields. split; [exact Hrun |]. split; [| exact Hlow].
  vm_compute in Hrun. injection Hrun as <-. vm_compute. reflexivity.
Defined.

(* ===================================================================== *)
(** ** More on table detection                                             *)
(* ===================================================================== *)

Lemma len_filter_perm {A : Type} (f : A -> bool) (l1 l2 : list A) :
  l1 ≡ₚ l2 -> len (List.filter f l1) = len (List.filter f l2).
Proof.
  intros H. unfold len. f_equal.
  induction H; simpl.
  - reflexivity.
  - destruct (f x); simpl; lia.
  - destruct (f x), (f y); reflexivity.
  - lia.
Qed.

(** X10.  Table detection only counts segments: the order in which the
    line detector reports them does not change the outcome. *)
Theorem table_detection_ignores_order (shape : Z * Z) (lines1 lines2 : list Segment) :
  lines1 ≡ₚ lines2 ->
  tables_of_lines shape lines1 = tables_of_lines shape lines2.
Proof.
  intros H. unfold tables_of_lines, grid_table, h_lines, v_lines.
  now rewrite (len_filter_perm is_horizontal _ _ H),
              (len_filter_perm is_vertical _ _ H).
Qed.

Lemma table_detection_ignores_order_witness :
  [(0, 0, 90, 0); (0, 0, 0, 90)] ≡ₚ [(0, 0, 0, 90); (0, 0, 90, 0)]
  /\ tables_of_lines (600, 800) [(0, 0, 90, 0); (0, 0, 0, 90)]
     = tables_of_lines (600, 800) [(0, 0, 0, 90); (0, 0, 90, 0)].
Proof.
  assert (H : [(0, 0, 90, 0); (0, 0, 0, 90)] ≡ₚ [(0, 0, 0, 90); (0, 0, 90, 0)])
    by constructor.
  split; [exact H |].
  apply (table_detection_ignores_order (600, 800) _ _ H).
Defined.

Lemma abs32_sub32_range (a b : Z) :
  Z.abs (a - b) < 2 ^ 31 -> abs32 (sub32 a b) = Z.abs (a - b).
Proof.
  intros H. unfold abs32, sub32.
  rewrite (wrap32_small (a - b)) by lia.
  apply wrap32_small. lia.
Qed.

Lemma filter_drop {A : Type} (f : A -> bool) (l1 l2 : list A) (x : A) :
  f x = false -> List.filter f (l1 ++ x :: l2) = List.filter f (l1 ++ l2).
Proof.
  intros Hx. rewrite !List.filter_app. simpl. now rewrite Hx.
Qed.

(** X11.  A segment that is neither horizontal nor vertical -- both its
    vertical and its horizontal extent are at least 5 pixels -- has no
    influence on the outcome (the extents being within the 32-bit
    range). *)
Theorem diagonal_segment_is_ignored (shape : Z * Z) (d : Segment)
        (before after : list Segment) :
  5 <= Z.abs (t1 d - t3 d) < 2 ^ 31 ->
  5 <= Z.abs (t0 d - t2 d) < 2 ^ 31 ->
  h_lines (before ++ d :: after) = h_lines (before ++ after)
  /\ v_lines (before ++ d :: after) = v_lines (before ++ after)
  /\ tables_of_lines shape (before ++ d :: after)
     = tables_of_lines shape (before ++ after).
Proof.
  intros Hy Hx.
  assert (Hh : is_horizontal d = false)
    by (unfold is_horizontal; rewrite abs32_sub32_range by lia;
        apply Z.ltb_ge; lia).
  assert (Hv : is_vertical d = false)
    by (unfold is_vertical; rewrite abs32_sub32_range by lia;
        apply Z.ltb_ge; lia).
  assert (E1 := filter_drop is_horizontal before after d Hh).
  assert (E2 := filter_drop is_vertical before after d Hv).
  split; [exact E1 |]. split; [exact E2 |].
  unfold tables_of_lines, h_lines, v_lines. now rewrite E1, E2.
Qed.

Lemma diagonal_segment_is_ignored_witness :
  let d : Segment := (0, 0, 300, 400) in
  5 <= Z.abs (t1 d - t3 d) < 2 ^ 31
  /\ 5 <= Z.abs (t0 d - t2 d) < 2 ^ 31
  /\ tables_of_lines (600, 800) ([(0, 0, 90, 0)] ++ d :: [(0, 0, 0, 90)])
     = tables_of_lines (600, 800) ([(0, 0, 90, 0)] ++ [(0, 0, 0, 90)]).
Proof.
  cbv zeta. split; [simpl; lia |]. split; [simpl; lia |].
  apply (diagonal_segment_is_ignored (600, 800) (0, 0, 300, 400)
           [(0, 0, 90, 0)] [(0, 0, 0, 90)]); simpl; lia.
Defined.

Lemma tables_of_lines_shape (shape : Z * Z) (lines : list Segment) :
  tables_of_lines shape lines = []
  \/ exists t : Table,
      tables_of_lines shape lines = [t]
      /\ 2 <= table_rows t /\ 2 <= table_cols t
      /\ len (table_cells t) = table_rows t
      /\ Forall (fun row => len row = table_cols t /\ Forall (eq "") row)
                (table_cells t)
      /\ table_bbox t = (0, 0, snd shape, fst shape)
      /\ table_confidence t = (7 # 10)%Q.
Proof.
  unfold tables_of_lines.
  destruct (Z.ltb_spec 2 (len (h_lines lines))) as [Hh | Hh]; [| now left].
  destruct (Z.ltb_spec 2 (len (v_lines lines))) as [Hv | Hv]; [| now left].
  right. simpl. eexists. split; [reflexivity |]. unfold grid_table. simpl.
  destruct (repeat_range_shape (repeat_range "" (len (v_lines lines) - 1))
                               (len (h_lines lines) - 1)) as [Hl Hall]; [lia |].
  repeat split; try lia; try exact Hl.
  eapply List.Forall_impl; [| exact Hall].
  intros row <-. apply repeat_range_shape. lia.
Qed.

(** X12.  Whatever the vision libraries do -- succeed, return nothing or
    raise -- [_detect_tables] returns, leaves the lines and the page size
    as they were and appends at most one table; an appended table has at
    least two rows and two columns, a grid of empty strings of that
    shape, and confidence 0.7. *)
Theorem detect_tables_appends_at_most_one (ext : Externals) (path : string)
        (layout : DocumentLayout) :
  exists layout' : DocumentLayout,
    _detect_tables ext path layout = Ok layout'
    /\ header layout' = header layout /\ body layout' = body layout
    /\ footer layout' = footer layout
    /\ page_width layout' = page_width layout
    /\ page_height layout' = page_height layout
    /\ (tables layout' = tables layout
        \/ exists t : Table,
            tables layout' = tables layout ++ [t]
            /\ HAS_VISION ext = true
            /\ 2 <= table_rows t /\ 2 <= table_cols t
            /\ len (table_cells t) = table_rows t
            /\ Forall (fun row => len row = table_cols t /\ Forall (eq "") row)
                      (table_cells t)
            /\ table_confidence t = (7 # 10)%Q).
Proof.
  unfold _detect_tables, detect_tables_try.
  destruct (HAS_VISION ext) eqn:Hvis; simpl;
    [| exists layout; repeat split; now left].
  destruct (cv2_imread ext path) as [[img |] | e]; simpl;
    try (exists layout; repeat split; now left).
  destruct (cv2_Canny ext img) as [edges | e]; simpl;
    [| exists layout; repeat split; now left].
  destruct (cv2_HoughLinesP ext edges) as [[lines |] | e]; simpl;
    try (exists layout; repeat split; now left).
  destruct (add_tables_tables (tables_of_lines (ndarray_shape ext img) lines) layout)
    as (H1 & H2 & H3 & H4 & H5 & H6).
  eexists. split; [reflexivity |].
  repeat (split; [assumption |]).
  rewrite H1.
  destruct (tables_of_lines_shape (ndarray_shape ext img) lines)
    as [-> | (t & -> & Hr & Hc & Hl & Hcells & _ & Hconf)].
  - left. now rewrite app_nil_r.
  - right. exists t. repeat split; assumption.
Qed.

(* ===================================================================== *)
(** ** Serialization                                                       *)
(* ===================================================================== *)

Lemma map_injective {A B : Type} (f : A -> B) :
  (forall x y, f x = f y -> x = y) ->
  forall l1 l2 : list A, map f l1 = map f l2 -> l1 = l2.
Proof.
  intros Hf. induction l1 as [| a l1 IH]; intros [| b l2] H;
    try discriminate H; [reflexivity |].
  simpl in H. injection H as Hab Hrest.
  f_equal; [now apply Hf | now apply IH].
Qed.

Ltac use_map_inj lem :=
  repeat match goal with
         | H : map _ _ = map _ _ |- _ => apply (map_injective _ lem) in H; subst
         end.

Lemma Word_to_dict_inj (a b : Word) : Word_to_dict a = Word_to_dict b -> a = b.
Proof.
  destruct a as [ta ca [[[xa ya] wa] ha] pa], b as [tb cb [[[xb yb] wb] hb] pb].
  unfold Word_to_dict, tuple_value. simpl.
  intros H. injection H. intros. subst. reflexivity.
Qed.

Lemma TextLine_to_dict_inj (a b : TextLine) :
  TextLine_to_dict a = TextLine_to_dict b -> a = b.
Proof.
  destruct a as [ta wa ca [[[xa ya] wda] ha]], b as [tb wb cb [[[xb yb] wdb] hb]].
  unfold TextLine_to_dict, tuple_value. simpl.
  intros H. injection H. intros. subst.
  use_map_inj Word_to_dict_inj. reflexivity.
Qed.

Lemma cells_row_inj (x y : list string) :
  VList (map VStr x) = VList (map VStr y) -> x = y.
Proof.
  intros [= H]. apply map_injective in H; [exact H |]. now intros ? ? [= ->].
Qed.

Lemma Table_to_dict_inj (a b : Table) : Table_to_dict a = Table_to_dict b -> a = b.
Proof.
  destruct a as [ra ca cla [[[xa ya] wa] ha] fa], b as [rb cb clb [[[xb yb] wb] hb] fb].
  unfold Table_to_dict, tuple_value. simpl.
  intros H. injection H. intros. subst.
  use_map_inj cells_row_inj. reflexivity.
Qed.

Lemma DocumentLayout_to_dict_inj (a b : DocumentLayout) :
  DocumentLayout_to_dict a = DocumentLayout_to_dict b -> a = b.
Proof.
  destruct a, b. unfold DocumentLayout_to_dict. simpl.
  intros H. injection H. intros. subst.
  use_map_inj TextLine_to_dict_inj. use_map_inj Table_to_dict_inj. reflexivity.
Qed.

Lemma ExtractedField_to_dict_inj (a b : ExtractedField) :
  ExtractedField_to_dict a = ExtractedField_to_dict b -> a = b.
Proof.
  destruct a, b. unfold ExtractedField_to_dict. simpl.
  intros H. injection H. intros. subst. reflexivity.
Qed.

Lemma DocumentType_value_inj (a b : DocumentType) :
  DocumentType_value a = DocumentType_value b -> a = b.
Proof. destruct a, b; simpl; intros H; first [reflexivity | discriminate H]. Qed.

(** X13.  [to_dict] loses nothing: two results with the same dictionary
    are the same result (the document type through its lower-case name,
    every line with its words, every table and every extracted field). *)
Theorem to_dict_is_lossless (a b : DocumentIntelligence) :
  DocumentIntelligence_to_dict a = DocumentIntelligence_to_dict b <-> a = b.
Proof.
  split; [| now intros ->].
  destruct a as [p1 d1 c1 l1 f1 r1 t1' [v1 s1]], b as [p2 d2 c2 l2 f2 r2 t2' [v2 s2]].
  unfold DocumentIntelligence_to_dict, Metadata_value.
  cbn [file_path doc_type type_confidence layout extracted_fields raw_text
       processing_time metadata meta_vision_available meta_timestamp].
  intros H.
  assert (Hl : l1 = l2).
  { apply DocumentLayout_to_dict_inj. unfold DocumentLayout_to_dict.
    injection H. intros. congruence. }
  assert (Hd : d1 = d2).
  { apply DocumentType_value_inj. injection H. intros. congruence. }
  assert (Hf : f1 = f2).
  { apply map_to_list_inj.
    assert (Hm : map (fun kv : string * ExtractedField =>
                        (fst kv, ExtractedField_to_dict (snd kv))) (map_to_list f1)
                 = map (fun kv : string * ExtractedField =>
                          (fst kv, ExtractedField_to_dict (snd kv))) (map_to_list f2))
      by (injection H; intros; congruence).
    apply map_injective in Hm; [now rewrite Hm |].
    intros [k1 x1] [k2 x2] E.
    pose proof (f_equal fst E) as Hk. pose proof (f_equal snd E) as Hv.
    cbn [fst snd] in Hk, Hv. apply ExtractedField_to_dict_inj in Hv.
    now subst. }
  injection H. intros. subst. reflexivity.
Qed.

(* ===================================================================== *)
(** ** More on segmentation and on the pipeline                            *)
(* ===================================================================== *)

(** X14.  For every page height, positive or not, [_finalize_text_line]
    appends the line to exactly one of the three sequences and changes
    nothing else: the lines already there keep their place, the tables
    and the page size are untouched. *)
Theorem finalize_appends_one_line (layout : DocumentLayout) (text : string)
        (words : list Word) (bbox : tuple4) :
  let line := new_TextLine text words bbox in
  let l' := _finalize_text_line layout text words bbox in
  (placed_in_header layout l' line \/ placed_in_body layout l' line
   \/ placed_in_footer layout l' line)
  /\ ~ (placed_in_header layout l' line /\ placed_in_body layout l' line)
  /\ ~ (placed_in_header layout l' line /\ placed_in_footer layout l' line)
  /\ ~ (placed_in_body layout l' line /\ placed_in_footer layout l' line)
  /\ List.length (all_lines l') = S (List.length (all_lines layout))
  /\ tables l' = tables layout
  /\ page_width l' = page_width layout /\ page_height l' = page_height layout.
Proof.
  intros line l'.
  destruct (finalize_keeps layout text words bbox) as (Ht & Hw & Hh).
  fold l' in Ht, Hw, Hh.
  assert (Hlen : List.length (all_lines l') = S (List.length (all_lines layout))).
  { unfold l'. rewrite (Permutation_length (finalize_all_lines _ _ _ _)).
    rewrite length_app. simpl. lia. }
  unfold placed_in_header, placed_in_body, placed_in_footer.
  destruct (finalize_cases layout text words bbox)
    as [[_ E] | [(_ & _ & E) | (_ & _ & E)]];
    fold line in E; fold l' in E, Hlen |- *; rewrite E in *; simpl in *;
    repeat split; unfold not; intros; split_ands; try app_absurd;
    try assumption; tauto.
Qed.

Lemma sum_bounds (l : list Q) :
  Forall (fun c => (0 <= c)%Q /\ (c <= 1)%Q) l ->
  forall acc : Q,
    (acc <= fold_left Qplus l acc)%Q
    /\ (fold_left Qplus l acc <= acc + inject_Z (Z.of_nat (List.length l)))%Q.
Proof.
  induction 1 as [| c l [Hc0 Hc1] _ IH]; intros acc; simpl fold_left.
  - split; [apply Qle_refl |].
    change (inject_Z (Z.of_nat (List.length (@nil Q)))) with 0%Q. lra.
  - destruct (IH (acc + c)%Q) as [Hlo Hhi].
    assert (Hn : (inject_Z (Z.of_nat (List.length (c :: l)))
                  == inject_Z (Z.of_nat (List.length l)) + 1)%Q).
    { simpl List.length. rewrite Nat2Z.inj_succ. unfold Z.succ.
      now rewrite inject_Z_plus. }
    rewrite Hn. split; lra.
Qed.

Lemma mean_in_range (ws : list Word) :
  Forall (fun w => confidence_in_range w = true) ws ->
  (0 <= line_mean_confidence ws)%Q /\ (line_mean_confidence ws <= 1)%Q.
Proof.
  intros Hws. destruct ws as [| w ws]; [split; [apply Qle_refl | discriminate] |].
  unfold line_mean_confidence, py_float, py_sum. rewrite Qred_correct.
  set (l := map word_confidence (w :: ws)).
  assert (Hl : Forall (fun c => (0 <= c)%Q /\ (c <= 1)%Q) l).
  { unfold l. apply List.Forall_forall. intros c Hc. apply in_map_iff in Hc.
    destruct Hc as (x & <- & Hx). rewrite List.Forall_forall in Hws.
    specialize (Hws x Hx). unfold confidence_in_range in Hws.
    apply andb_true_iff in Hws. destruct Hws as [H0 H1].
    split; now apply Qle_bool_iff. }
  destruct (sum_bounds l Hl 0%Q) as [Hlo Hhi].
  assert (Hlen : List.length l = List.length (w :: ws))
    by (unfold l; now rewrite length_map).
  rewrite Hlen in Hhi.
  assert (Hn : (0 < inject_Z (Z.of_nat (List.length (w :: ws))))%Q)
    by (unfold Qlt, inject_Z; simpl; lia).
  split.
  - apply Qle_shift_div_l; [exact Hn | lra].
  - apply Qle_shift_div_r; [exact Hn | lra].
Qed.

(** X15.  The confidence of a line stays in the range of its words: when
    every word of well-formed OCR output has a confidence between 0 and 1
    (a Tesseract confidence between 0 and 100), so has every line of the
    layout. *)
Theorem line_confidence_in_range (ext : Externals) (path : string)
        (img : PILImage ext) (data : OcrData) :
  HAS_VISION ext = true ->
  Image_open ext path = Ok img ->
  image_to_data ext img = Ok data ->
  well_formed data ->
  forallb confidence_in_range (ocr_words data) = true ->
  exists layout' : DocumentLayout,
    _extract_layout ext path = Ok layout'
    /\ Forall (fun l => (0 <= line_confidence l)%Q /\ (line_confidence l <= 1)%Q)
              (all_lines layout').
Proof.
  intros Hvis Hopen Hdata Hwf Hconf.
  destruct (extract_layout_runs ext path img data Hvis Hopen Hdata Hwf)
    as (fin & layout' & Hrun & Hperm & _ & _ & _ & Hfin & Hruns).
  exists layout'. split; [exact Hrun |]. rewrite Hperm.
  assert (Hcat : concat (map line_words fin) = ocr_words data)
    by (rewrite Hruns; apply runs_concat).
  rewrite forallb_forall in Hconf.
  apply List.Forall_forall. intros l Hl.
  rewrite List.Forall_forall in Hfin. destruct (Hfin l Hl) as (_ & _ & ->).
  apply mean_in_range. apply List.Forall_forall. intros w Hw.
  apply Hconf. rewrite <- Hcat. apply in_concat.
  exists (line_words l). split; [now apply in_map | exact Hw].
Qed.

Lemma line_confidence_in_range_witness :
  let ext := scanner true [("page.png", five_word_scan)] in
  HAS_VISION ext = true
  /\ Image_open ext "page.png" = Ok five_word_scan
  /\ image_to_data ext five_word_scan = Ok (scan_data five_word_scan)
  /\ well_formed (scan_data five_word_scan)
  /\ forallb confidence_in_range (ocr_words (scan_data five_word_scan)) = true
  /\ exists layout' : DocumentLayout,
      _extract_layout ext "page.png" = Ok layout'
      /\ Forall (fun l => (0 <= line_confidence l)%Q /\ (line_confidence l <= 1)%Q)
                (all_lines layout').
Proof.
  cbv zeta.
  assert (Hwf : well_formed (scan_data five_word_scan))
    by (repeat split; simpl; lia).
  repeat (split; [first [reflexivity | exact Hwf] |]).
  apply (line_confidence_in_range
           (scanner true [("page.png", five_word_scan)]) "page.png"
           five_word_scan (scan_data five_word_scan)
           eq_refl eq_refl eq_refl Hwf eq_refl).
Defined.

Lemma detect_tables_outcome (ext : Externals) (path : string)
      (layout : DocumentLayout) :
  exists layout' : DocumentLayout,
    _detect_tables ext path layout = Ok layout'
    /\ header layout' = header layout /\ body layout' = body layout
    /\ footer layout' = footer layout
    /\ page_width layout' = page_width layout
    /\ page_height layout' = page_height layout
    /\ (List.length (tables layout') <= S (List.length (tables layout)))%nat
    /\ (HAS_VISION ext = false -> layout' = layout).
Proof.
  destruct (detect_tables_returns ext path layout)
    as (l1 & Hrun & Hh & Hb & Hf & Hw & Hp & Hnov & _).
  exists l1. repeat (split; [assumption |]). split; [| exact Hnov].
  revert Hrun. unfold _detect_tables, detect_tables_try.
  destruct (HAS_VISION ext); simpl; [| intros [= <-]; lia].
  destruct (cv2_imread ext path) as [[img |] | e]; simpl;
    try (intros [= <-]; lia).
  destruct (cv2_Canny ext img) as [edges | e]; simpl;
    try (intros [= <-]; lia).
  destruct (cv2_HoughLinesP ext edges) as [[lines |] | e]; simpl;
    try (intros [= <-]; lia).
  intros [= <-].
  destruct (add_tables_tables (tables_of_lines (ndarray_shape ext img) lines) layout)
    as (H1 & _).
  rewrite H1, length_app. unfold tables_of_lines.
  destruct (_ && _); simpl; lia.
Qed.

(** X16.  The result of [process_document] hangs together: its raw text
    is the raw text of its layout (the table stage leaves the lines
    alone), the layout holds at most one table, and none without the
    vision libraries. *)
Theorem result_is_consistent (ext : Externals) (path : string) :
  groups_participate
    ext (PyStr.lower (_extract_raw_text
                        (value_or new_DocumentLayout (_extract_layout ext path))))
  = true ->
  exists r : DocumentIntelligence,
    process_document ext path = Ok r
    /\ raw_text r = _extract_raw_text (layout r)
    /\ (List.length (tables (layout r)) <= 1)%nat
    /\ (HAS_VISION ext = false -> tables (layout r) = []).
Proof.
  intros Hg.
  destruct (extract_layout_returns ext path) as (l0 & Hl0 & Htab & _ & _).
  rewrite Hl0 in Hg. simpl in Hg.
  destruct (classify_returns ext (_extract_raw_text l0)) as (dt & conf & Hcl).
  destruct (fields_loop_spec ext (PyStr.lower (_extract_raw_text l0)) field_patterns ∅
              field_names_distinct (groups_participate_spec ext _ Hg))
    as (fields & Hfields & _).
  destruct (detect_tables_outcome ext path l0)
    as (l1 & Hdet & Hh & Hb & Hf & _ & _ & Hlen & Hnov).
  eexists. split.
  { unfold process_document. rewrite Hl0. simpl. rewrite Hcl. simpl.
    unfold _extract_key_fields. rewrite Hfields. simpl. rewrite Hdet. reflexivity. }
  simpl. split; [| split].
  - unfold _extract_raw_text. now rewrite Hh, Hb, Hf.
  - rewrite Htab in Hlen. simpl in Hlen. exact Hlen.
  - intros Hv. now rewrite (Hnov Hv).
Qed.

Lemma result_is_consistent_witness :
  groups_participate
    (scanner true [("page.png", five_word_scan)])
    (PyStr.lower (_extract_raw_text
                    (value_or new_DocumentLayout
                              (_extract_layout
                                 (scanner true [("page.png", five_word_scan)])
                                 "page.png"))))
  = true
  /\ exists r : DocumentIntelligence,
      process_document (scanner true [("page.png", five_word_scan)]) "page.png" = Ok r
      /\ raw_text r = _extract_raw_text (layout r)
      /\ raw_text r = "Invoice Number: INV-2025-001 Draft" +:+ newline +:+ "Total".
Proof.
  split; [vm_compute; reflexivity |].
  destruct (result_is_consistent (scanner true [("page.png", five_word_scan)])
              "page.png") as (r & Hrun & Hraw & _);
    [vm_compute; reflexivity |].
  exists r. split; [exact Hrun |]. split; [exact Hraw |].
  vm_compute in Hrun. injection Hrun as <-. reflexivity.
Defined.

(** X17.  When the image opens but the OCR engine raises, the result is
    still complete, yet its layout is not the empty default: it carries
    the size of the image, with no line and an empty raw text. *)
Theorem ocr_failure_keeps_page_size (ext : Externals) (path : string)
        (img : PILImage ext) (e : exn) :
  HAS_VISION ext = true ->
  Image_open ext path = Ok img ->
  image_to_data ext img = Raise e ->
  groups_participate ext (PyStr.lower "") = true ->
  exists r : DocumentIntelligence,
    process_document ext path = Ok r
    /\ page_width (layout r) = fst (Image_size ext img)
    /\ page_height (layout r) = snd (Image_size ext img)
    /\ all_lines (layout r) = []
    /\ raw_text r = "".
Proof.
  intros Hvis Hopen Hocr Hg.
  set (l0 := set_page_size new_DocumentLayout (Image_size ext img)).
  assert (Hl0 : _extract_layout ext path = Ok l0)
    by (unfold _extract_layout, extract_layout_try;
        now rewrite Hvis, Hopen, Hocr).
  assert (Hraw : _extract_raw_text l0 = "") by reflexivity.
  destruct (classify_returns ext "") as (dt & conf & Hcl).
  destruct (fields_loop_spec ext (PyStr.lower "") field_patterns ∅
              field_names_distinct (groups_participate_spec ext _ Hg))
    as (fields & Hfields & _).
  destruct (detect_tables_outcome ext path l0)
    as (l1 & Hdet & Hh & Hb & Hf & Hw & Hp & _ & _).
  eexists. split.
  { unfold process_document. rewrite Hl0. simpl. rewrite Hraw, Hcl. simpl.
    unfold _extract_key_fields. rewrite Hfields. simpl. rewrite Hdet. reflexivity. }
  simpl. unfold all_lines. rewrite Hh, Hb, Hf, Hw, Hp. repeat split.
Qed.

Lemma ocr_failure_keeps_page_size_witness :
  let ext := scanner_without_ocr [("page.png", five_word_scan)] in
  HAS_VISION ext = true
  /\ Image_open ext "page.png" = Ok five_word_scan
  /\ image_to_data ext five_word_scan
     = Raise (ExternalError "TesseractNotFoundError")
  /\ groups_participate ext (PyStr.lower "") = true
  /\ exists r : DocumentIntelligence,
      process_document ext "page.png" = Ok r
      /\ page_width (layout r) = 1000 /\ page_height (layout r) = 1500
      /\ all_lines (layout r) = [].
Proof.
  cbv zeta. repeat (split; [reflexivity |]).
  destruct (ocr_failure_keeps_page_size
              (scanner_without_ocr [("page.png", five_word_scan)]) "page.png"
              five_word_scan (ExternalError "TesseractNotFoundError")
              eq_refl eq_refl eq_refl eq_refl)
    as (r & Hrun & Hw & Hh & Hlines & _).
  exists r. repeat split; assumption.
Defined.

Lemma lower_char_idempotent (a : ascii) :
  PyStr.lower_char (PyStr.lower_char a) = PyStr.lower_char a.
Proof. destruct a as [[] [] [] [] [] [] [] []]; reflexivity. Qed.

Lemma lower_idempotent (text : string) :
  PyStr.lower (PyStr.lower text) = PyStr.lower text.
Proof.
  unfold PyStr.lower, PyStr.chars, PyStr.of_chars.
  rewrite list_ascii_of_string_of_list_ascii, map_map.
  f_equal. apply map_ext. intros a. apply lower_char_idempotent.
Qed.

(** X18.  Classification and field extraction see the text only through
    its lower-case form: two texts that differ in the case of their
    letters get the same type, the same confidence and the same fields;
    in particular a text and its lower-case form do. *)
Theorem engine_ignores_the_case_of_the_text (ext : Externals)
        (text1 text2 : string) (layout1 layout2 : DocumentLayout) :
  PyStr.lower text1 = PyStr.lower text2 ->
  _classify_document_type ext text1 = _classify_document_type ext text2
  /\ _extract_key_fields ext text1 layout1 = _extract_key_fields ext text2 layout2
  /\ _classify_document_type ext (PyStr.lower text1)
     = _classify_document_type ext text1
  /\ _extract_key_fields ext (PyStr.lower text1) layout1
     = _extract_key_fields ext text1 layout1.
Proof.
  intros H. unfold _classify_document_type, _extract_key_fields.
  rewrite !lower_idempotent, H. repeat split.
Qed.

Lemma engine_ignores_the_case_of_the_text_witness :
  PyStr.lower "INVOICE DATE: 01/15/2025" = PyStr.lower "Invoice Date: 01/15/2025"
  /\ _classify_document_type text_only "INVOICE DATE: 01/15/2025"
     = _classify_document_type text_only "Invoice Date: 01/15/2025".
Proof.
  split; [reflexivity |].
  apply (engine_ignores_the_case_of_the_text
           text_only "INVOICE DATE: 01/15/2025" "Invoice Date: 01/15/2025"
           new_DocumentLayout new_DocumentLayout).
  reflexivity.
Defined.
